(** * NGCat: a permanent-entry overlay on top of a volatile cache engine

    Shallow embedding of the Go package [ngcat] (typed accessors, the
    read-through/write-through facade, the snapshot codec and the startup
    loader) together with the properties its specification states.

    Conventions
    - a Go [byte] is an [ascii] (eight bits), a [[]byte] is a [list ascii]
      and a Go [string] is a [string]: the conversions [[]byte(s)] and
      [string(b)] are [list_ascii_of_string] and [string_of_list_ascii];
    - Go integers are [Z]; conversions to a fixed width are written out
      ([uint32], [int32], ...);
    - a Go result [(v, err)] is a pair whose second component is an
      [option error] ([None] is Go's [nil] error);
    - the map [persistData] is a [gmap string (list ascii)];
    - the cache engine ([github.com/coocood/freecache]) and [encoding/json]
      are external: each is a type class, and every theorem holds for all
      their instances; a reference engine and a reference codec instantiate
      them in the closed examples;
    - the file system is a map from paths to contents, with the directories
      that exist and the paths at which it refuses to create anything;
      making a directory and creating a file fail as the disk says, a write
      fails when the file would outgrow the quota of the disk, after the
      bytes that still fit; paths are compared as they are written, without
      cleaning; [time.Now().Unix()] is an argument;
    - mutexes, the stop channel and the flush goroutine are not part of the
      sequential model: every method is one atomic step, and a tick of the
      flush goroutine is the step [OpFlush]. *)

From Stdlib Require Import ZArith List Ascii String Lia.
From stdpp Require Import gmap strings list fin_maps pretty.

Local Open Scope Z_scope.

Abbreviation byte := ascii (only parsing).
Abbreviation bytes := (list ascii) (only parsing).

(** ** Fixed-width integers and [encoding/binary.LittleEndian] *)

Definition uint32 (z : Z) : Z := z mod 2 ^ 32.
Definition uint64 (z : Z) : Z := z mod 2 ^ 64.
Definition int32 (z : Z) : Z :=
  let u := uint32 z in if u <? 2 ^ 31 then u else u - 2 ^ 32.
Definition int64 (z : Z) : Z :=
  let u := uint64 z in if u <? 2 ^ 63 then u else u - 2 ^ 64.

(** [len(x)] as a Go [int]. *)
Definition len {A} (l : list A) : Z := Z.of_nat (length l).
Arguments len : simpl never.

Module LittleEndian.

(** [byte(v)]: the low eight bits. *)
Definition to_byte (v : Z) : byte := ascii_of_N (Z.to_N (Z.land v 255)).
(** [uint32(b)] / [uint64(b)] of a byte. *)
Definition of_byte (b : byte) : Z := Z.of_N (N_of_ascii b).

Definition PutUint32 (v : Z) : bytes :=
  [ to_byte v; to_byte (Z.shiftr v 8);
    to_byte (Z.shiftr v 16); to_byte (Z.shiftr v 24) ].

Definition PutUint64 (v : Z) : bytes :=
  [ to_byte v; to_byte (Z.shiftr v 8);
    to_byte (Z.shiftr v 16); to_byte (Z.shiftr v 24);
    to_byte (Z.shiftr v 32); to_byte (Z.shiftr v 40);
    to_byte (Z.shiftr v 48); to_byte (Z.shiftr v 56) ].

(** [Uint32] and [Uint64] panic on a slice that is too short; every caller
    checks the length first, and the model answers [0] there. *)
Definition Uint32 (b : bytes) : Z :=
  match b with
  | b0 :: b1 :: b2 :: b3 :: _ =>
      Z.lor (Z.lor (Z.lor (of_byte b0) (Z.shiftl (of_byte b1) 8))
                   (Z.shiftl (of_byte b2) 16))
            (Z.shiftl (of_byte b3) 24)
  | _ => 0
  end.

Definition Uint64 (b : bytes) : Z :=
  match b with
  | b0 :: b1 :: b2 :: b3 :: b4 :: b5 :: b6 :: b7 :: _ =>
      Z.lor (Z.lor (Z.lor (Z.lor (Z.lor (Z.lor (Z.lor
        (of_byte b0) (Z.shiftl (of_byte b1) 8))
        (Z.shiftl (of_byte b2) 16)) (Z.shiftl (of_byte b3) 24))
        (Z.shiftl (of_byte b4) 32)) (Z.shiftl (of_byte b5) 40))
        (Z.shiftl (of_byte b6) 48)) (Z.shiftl (of_byte b7) 56)
  | _ => 0
  end.

End LittleEndian.

(** ** Errors

    One constructor per error value of the package ([ErrKeyNotFound],
    [ErrInvalidType]), per [fmt.Errorf] call site of the codec, and per
    error of the cache engine and of the file system. *)

Inductive error : Type :=
  | ErrKeyNotFound
  | ErrInvalidType
  (* github.com/coocood/freecache *)
  | ErrNotFound
  | ErrLargeKey
  | ErrLargeEntry
  (* os *)
  | ErrIO
  (* saveToPersist / loadFromPersist *)
  | ErrMkdirAll
  | ErrUnsupportedFormat (format : Z)
  (* saveToJSON, saveToBinary *)
  | ErrCreateJSON
  | ErrCreateBinary
  (* loadFromJSON *)
  | ErrOpenJSON
  | ErrParseJSON
  (* loadFromBinary *)
  | ErrOpenBinary
  | ErrReadMagic
  | ErrInvalidMagic (magic : Z)
  | ErrReadVersion
  | ErrUnsupportedVersion (version : Z)
  | ErrReadTimestamp
  | ErrReadEntryCount
  | ErrReadKeyLen
  | ErrReadKey
  | ErrReadValueLen
  | ErrReadValue.

(** The constant text in front of the formatted argument of each message
    (for the engine, the texts of its three error values; [ErrIO] stands for
    whatever error a failed write returns). *)
Definition error_text (e : error) : string :=
  match e with
  | ErrKeyNotFound => "key not found"
  | ErrInvalidType => "invalid type"
  | ErrNotFound => "Entry not found"
  | ErrLargeKey => "The key is larger than 65535"
  | ErrLargeEntry => "The entry size is larger than 1/1024 of cache size"
  | ErrIO => "input/output error"
  | ErrMkdirAll => "创建持久化目录失败: "
  | ErrUnsupportedFormat _ => "不支持的持久化格式: "
  | ErrCreateJSON => "创建JSON文件失败: "
  | ErrCreateBinary => "创建二进制文件失败: "
  | ErrOpenJSON => "打开JSON文件失败: "
  | ErrParseJSON => "解析JSON文件失败: "
  | ErrOpenBinary => "打开二进制文件失败: "
  | ErrReadMagic => "读取魔数失败: "
  | ErrInvalidMagic _ => "无效的二进制文件魔数: 0x"
  | ErrReadVersion => "读取版本失败: "
  | ErrUnsupportedVersion _ => "不支持的二进制文件版本: "
  | ErrReadTimestamp => "读取时间戳失败: "
  | ErrReadEntryCount => "读取条目数量失败: "
  | ErrReadKeyLen => "读取键长度失败: "
  | ErrReadKey => "读取键失败: "
  | ErrReadValueLen => "读取值长度失败: "
  | ErrReadValue => "读取值失败: "
  end.

(** ** The cache engine

    The engine ([*freecache.Cache]) is an external dependency.  The facade
    uses three of its entry points; they are the methods of this class.
    [Get] returns the engine as well, since a lookup may update it
    (counters, lazily expired entries). *)

Class Engine (E : Type) := {
  NewCache : Z → E;
  cache_Set : E → bytes → bytes → Z → E * option error;
  cache_Get : E → bytes → E * (bytes * option error);
}.

(** ** Configuration and facade state *)

Definition FormatJSON : Z := 0.
Definition FormatBinary : Z := 1.

Record PersistConfig := {
  Enabled : bool;
  FilePath : string;
  FileName : string;
  Format : Z;
  Interval : Z;
}.

Record NGCache (E : Type) := mkNGCache {
  cache : E;
  persistConfig : option PersistConfig;
  persistData : gmap string (list ascii);
}.
Arguments mkNGCache {E}.
Arguments cache {E}.
Arguments persistConfig {E}.
Arguments persistData {E}.

Definition with_cache {E} (ng : NGCache E) (c : E) : NGCache E :=
  mkNGCache c (persistConfig ng) (persistData ng).
Definition with_persistData {E} (ng : NGCache E) (m : gmap string (list ascii))
  : NGCache E :=
  mkNGCache (cache ng) (persistConfig ng) m.

(** [ng.persistConfig != nil && ng.persistConfig.Enabled] *)
Definition persistEnabled {E} (ng : NGCache E) : bool :=
  match persistConfig ng with
  | Some cfg => Enabled cfg
  | None => false
  end.

(** A [float32] / [float64] is carried as its IEEE-754 bit pattern: the
    accessors only reinterpret the bits ([unsafe.Pointer] casts) and never
    compute with them.  The zero value [0.0] is the all-zero pattern. *)
Inductive float32 := Float32frombits (bits : Z).
Inductive float64 := Float64frombits (bits : Z).
Definition float32bits (f : float32) : Z := let 'Float32frombits b := f in b.
Definition float64bits (f : float64) : Z := let 'Float64frombits b := f in b.

(** ** Facade: raw accessors *)

Section Facade.
Context `{Engine E}.

(** [ng.persistData[key] = make([]byte, len(value)); copy(...)]: the map
    receives a private copy, i.e. the value itself. *)
Definition setWithPersist (ng : NGCache E) (key : string) (value : bytes)
    (expireSeconds : Z) : NGCache E * option error :=
  let ng1 :=
    if expireSeconds <=? 0
    then with_persistData ng (<[key := value]> (persistData ng))
    else ng in
  let '(c, err) :=
    cache_Set (cache ng1) (list_ascii_of_string key) value expireSeconds in
  (with_cache ng1 c, err).

Definition getWithPersist (ng : NGCache E) (key : string)
    : NGCache E * (bytes * option error) :=
  let '(c, (value, err)) := cache_Get (cache ng) (list_ascii_of_string key) in
  match err with
  | None => (with_cache ng c, (value, None))
  | Some _ =>
      match persistData ng !! key with
      | Some persistValue =>
          let '(c', _) :=
            cache_Set c (list_ascii_of_string key) persistValue 0 in
          (with_cache ng c', (persistValue, None))
      | None => (with_cache ng c, ([], Some ErrKeyNotFound))
      end
  end.

Definition SetBytes := setWithPersist.
Definition GetBytes := getWithPersist.

Definition SetString (ng : NGCache E) (key value : string) (expireSeconds : Z) :=
  setWithPersist ng key (list_ascii_of_string value) expireSeconds.

Definition GetString (ng : NGCache E) (key : string)
    : NGCache E * (string * option error) :=
  let '(ng', (data, err)) := getWithPersist ng key in
  match err with
  | Some e => (ng', (EmptyString, Some e))
  | None => (ng', (string_of_list_ascii data, None))
  end.

(** [SetPermanent] stores the caller's slice itself (no copy). *)
Definition SetPermanent (ng : NGCache E) (key value : bytes)
    : NGCache E * option error :=
  let '(c, err) := cache_Set (cache ng) key value 0 in
  match err with
  | Some e => (with_cache ng c, Some e)
  | None =>
      let ng1 := with_cache ng c in
      if persistEnabled ng1
      then (with_persistData ng1
              (<[string_of_list_ascii key := value]> (persistData ng1)), None)
      else (ng1, None)
  end.

Definition GetPermanent (ng : NGCache E) (key : bytes)
    : NGCache E * (bytes * option error) :=
  let '(c, (value, err)) := cache_Get (cache ng) key in
  match err with
  | None => (with_cache ng c, (value, None))
  | Some e =>
      let ng1 := with_cache ng c in
      if persistEnabled ng1 then
        match persistData ng1 !! string_of_list_ascii key with
        | Some value' =>
            let '(c', _) := cache_Set c key value' 0 in
            (with_cache ng1 c', (value', None))
        | None => (ng1, ([], Some e))
        end
      else (ng1, ([], Some e))
  end.

(** *** Typed accessors *)

Definition SetInt32 (ng : NGCache E) (key : string) (value expireSeconds : Z) :=
  setWithPersist ng key (LittleEndian.PutUint32 (uint32 value)) expireSeconds.

Definition GetInt32 (ng : NGCache E) (key : string)
    : NGCache E * (Z * option error) :=
  let '(ng', (data, err)) := getWithPersist ng key in
  match err with
  | Some e => (ng', (0, Some e))
  | None =>
      if negb (len data =? 4) then (ng', (0, Some ErrInvalidType))
      else (ng', (int32 (LittleEndian.Uint32 data), None))
  end.

Definition SetInt64 (ng : NGCache E) (key : string) (value expireSeconds : Z) :=
  setWithPersist ng key (LittleEndian.PutUint64 (uint64 value)) expireSeconds.

Definition GetInt64 (ng : NGCache E) (key : string)
    : NGCache E * (Z * option error) :=
  let '(ng', (data, err)) := getWithPersist ng key in
  match err with
  | Some e => (ng', (0, Some e))
  | None =>
      if negb (len data =? 8) then (ng', (0, Some ErrInvalidType))
      else (ng', (int64 (LittleEndian.Uint64 data), None))
  end.

Definition SetBool (ng : NGCache E) (key : string) (value : bool)
    (expireSeconds : Z) :=
  let buf := if value then [ascii_of_N 1] else [ascii_of_N 0] in
  setWithPersist ng key buf expireSeconds.

Definition GetBool (ng : NGCache E) (key : string)
    : NGCache E * (bool * option error) :=
  let '(ng', (data, err)) := getWithPersist ng key in
  match err with
  | Some e => (ng', (false, Some e))
  | None =>
      if negb (len data =? 1) then (ng', (false, Some ErrInvalidType))
      else (ng', (match data with
                  | b :: _ => LittleEndian.of_byte b =? 1
                  | [] => false
                  end, None))
  end.

Definition SetFloat32 (ng : NGCache E) (key : string) (value : float32)
    (expireSeconds : Z) :=
  setWithPersist ng key (LittleEndian.PutUint32 (float32bits value))
    expireSeconds.

Definition GetFloat32 (ng : NGCache E) (key : string)
    : NGCache E * (float32 * option error) :=
  let '(ng', (data, err)) := getWithPersist ng key in
  match err with
  | Some e => (ng', (Float32frombits 0, Some e))
  | None =>
      if negb (len data =? 4) then (ng', (Float32frombits 0, Some ErrInvalidType))
      else (ng', (Float32frombits (LittleEndian.Uint32 data), None))
  end.

Definition SetFloat64 (ng : NGCache E) (key : string) (value : float64)
    (expireSeconds : Z) :=
  setWithPersist ng key (LittleEndian.PutUint64 (float64bits value))
    expireSeconds.

Definition GetFloat64 (ng : NGCache E) (key : string)
    : NGCache E * (float64 * option error) :=
  let '(ng', (data, err)) := getWithPersist ng key in
  match err with
  | Some e => (ng', (Float64frombits 0, Some e))
  | None =>
      if negb (len data =? 8) then (ng', (Float64frombits 0, Some ErrInvalidType))
      else (ng', (Float64frombits (LittleEndian.Uint64 data), None))
  end.

End Facade.

(** ** Snapshot documents and files *)

Record PersistEntry := {
  Key : string;
  Value : list ascii;
}.

Record PersistData := {
  Version : Z;
  Timestamp : Z;
  Entries : list PersistEntry;
}.

Definition BinaryMagic : Z := 0x4E474341.
Definition BinaryVersion : Z := 1.

(** [encoding/json] is an external dependency: the text it writes for a
    [PersistData] and the document it parses from a text are the two methods
    of this class ([None]: the text does not parse). *)
Class JSONCodec := {
  json_Encode : PersistData → bytes;
  json_Decode : bytes → option PersistData;
}.

(** The file system: the files by path, the directories that exist, the
    paths at which it refuses to create a file or a directory (no
    permission, a parent that cannot be entered, a read-only volume), and the
    largest size a file may reach. *)
Record Disk := {
  files : gmap string (list ascii);
  dirs : gset string;
  denied : gset string;
  quota : Z;
}.

(** An open file being written: what it holds and how much it still takes. *)
Record File := {
  written : list ascii;
  room : Z;
}.

(** The path in front of the last separator of [rest], which follows
    [front]; [found] is the answer when no separator is left. *)
Fixpoint dir_from (front found rest : string) : string :=
  match rest with
  | EmptyString => found
  | String c rest' =>
      if Ascii.eqb c "/"
      then dir_from (front +:+ "/")
             (if decide (front = EmptyString) then "/"%string else front) rest'
      else dir_from (front +:+ String c EmptyString) found rest'
  end.

(** [filepath.Dir(path)], without the cleaning of the result: the directory
    in which a file of that path is created. *)
Definition filepath_Dir (path : string) : string :=
  dir_from EmptyString "." path.

(** [os.MkdirAll(dir, 0755)]: nothing to do for a directory that exists; an
    error when a file has that path or the file system refuses; the
    directory is made otherwise.  The parents made on the way are not
    listed: the package names no directory but this one. *)
Definition os_MkdirAll (d : Disk) (dir : string) : Disk * option error :=
  if decide (dir ∈ dirs d) then (d, None)
  else if decide (is_Some (files d !! dir) ∨ dir ∈ denied d) then (d, Some ErrIO)
  else ({| files := files d; dirs := {[ dir ]} ∪ dirs d;
           denied := denied d; quota := quota d |}, None).

(** [os.Create(path)]: a new or truncated file, open for writing; [None] is
    its error, when the directory of the path does not exist, the path is a
    directory, or the file system refuses. *)
Definition os_Create (d : Disk) (path : string) : option File :=
  if decide (filepath_Dir path ∈ dirs d ∧ (path ∉ dirs d) ∧ (path ∉ denied d))
  then Some {| written := []; room := quota d |}
  else None.

(** [file.Close] (deferred): the file as written so far is on the disk. *)
Definition os_Close (d : Disk) (path : string) (f : File) : Disk :=
  {| files := <[path := written f]> (files d); dirs := dirs d;
     denied := denied d; quota := quota d |}.

(** [file.Write(b)]: a write that the file has no room for fails after the
    bytes that fit. *)
Definition file_Write (f : File) (b : bytes) : File * option error :=
  if len b <=? room f
  then ({| written := written f ++ b; room := room f - len b |}, None)
  else ({| written := written f ++ take (Z.to_nat (room f)) b;
           room := room f - len (take (Z.to_nat (room f)) b) |}, Some ErrIO).

(** [binary.Write(file, binary.LittleEndian, uint32(v))] *)
Definition binary_Write_uint32 (f : File) (v : Z) : File * option error :=
  file_Write f (LittleEndian.PutUint32 (uint32 v)).

(** [binary.Write(file, binary.LittleEndian, v)] for an [int64] *)
Definition binary_Write_int64 (f : File) (v : Z) : File * option error :=
  file_Write f (LittleEndian.PutUint64 (uint64 v)).

(** [err = step; if err != nil { return err }; rest] *)
Definition and_then (r : File * option error)
    (k : File → File * option error) : File * option error :=
  match r with
  | (f, None) => k f
  | (f, Some e) => (f, Some e)
  end.

Notation "'attempt' f ← r 'in' k" := (and_then r (λ f, k))
  (at level 10, f name, r at level 100, k at level 200, only parsing).

(** [io.ReadFull(file, buf)] with [len(buf) = n]: the bytes read and the rest
    of the file, or [None] when fewer than [n] bytes are left. *)
Definition io_ReadFull (n : Z) (r : bytes) : option (bytes * bytes) :=
  if n <=? len r
  then Some (take (Z.to_nat n) r, drop (Z.to_nat n) r)
  else None.

(** [binary.Read(file, binary.LittleEndian, &v)] for a [uint32] *)
Definition binary_Read_uint32 (r : bytes) : option (Z * bytes) :=
  match io_ReadFull 4 r with
  | Some (b, r') => Some (LittleEndian.Uint32 b, r')
  | None => None
  end.

(** [binary.Read(file, binary.LittleEndian, &v)] for an [int64] *)
Definition binary_Read_int64 (r : bytes) : option (Z * bytes) :=
  match io_ReadFull 8 r with
  | Some (b, r') => Some (int64 (LittleEndian.Uint64 b), r')
  | None => None
  end.

(** [filepath.Join(dir, name)], without the cleaning of the result. *)
Definition filepath_Join (dir name : string) : string :=
  dir +:+ "/" +:+ name.

(** [dir := cfg.FilePath; if dir == "" { dir = "." }] *)
Definition persistDir (cfg : PersistConfig) : string :=
  if decide (FilePath cfg = EmptyString) then "."%string else FilePath cfg.

(** [dir := cfg.FilePath; if dir == "" { dir = "." }; filepath.Join(...)] *)
Definition persistPath (cfg : PersistConfig) : string :=
  let dir := if decide (FilePath cfg = EmptyString) then "."%string
             else FilePath cfg in
  filepath_Join dir (FileName cfg).

(** [for key, value := range m]: Go visits a map in an unspecified order.
    [rangeMap] is one such order; the properties below are stated for every
    permutation of it. *)
Definition rangeMap (m : gmap string (list ascii)) : list PersistEntry :=
  map (λ kv, {| Key := kv.1; Value := kv.2 |}) (map_to_list m).

(** ** Snapshot codec: encoding *)

Fixpoint writeEntries (entries : list PersistEntry) (f : File)
    : File * option error :=
  match entries with
  | [] => (f, None)
  | entry :: rest =>
      attempt f ← binary_Write_uint32 f (len (list_ascii_of_string (Key entry))) in
      attempt f ← file_Write f (list_ascii_of_string (Key entry)) in
      attempt f ← binary_Write_uint32 f (len (Value entry)) in
      attempt f ← file_Write f (Value entry) in
      writeEntries rest f
  end.

(** The writes of [saveToBinary] on the file it created. *)
Definition writeBinary (data : PersistData) (f : File) : File * option error :=
  attempt f ← binary_Write_uint32 f BinaryMagic in
  attempt f ← binary_Write_uint32 f BinaryVersion in
  attempt f ← binary_Write_int64 f (Timestamp data) in
  attempt f ← binary_Write_uint32 f (len (Entries data)) in
  writeEntries (Entries data) f.

Definition saveToBinary (filePath : string) (data : PersistData) (d : Disk)
    : Disk * option error :=
  match os_Create d filePath with
  | None => (d, Some ErrCreateBinary)
  | Some file =>
      let '(f, err) := writeBinary data file in
      (os_Close d filePath f, err)
  end.

(** [json.NewEncoder(file)] with [SetIndent]: [Encode] hands the whole
    document to the file in one write. *)
Definition saveToJSON `{JSONCodec} (filePath : string) (data : PersistData)
    (d : Disk) : Disk * option error :=
  match os_Create d filePath with
  | None => (d, Some ErrCreateJSON)
  | Some file =>
      let '(f, err) := file_Write file (json_Encode data) in
      (os_Close d filePath f, err)
  end.

(** [saveToPersist] from the making of the directory on, with the entries
    collected from the map in the order [entries]; [now] is
    [time.Now().Unix()]. *)
Definition saveEntries `{JSONCodec} (cfg : PersistConfig) (now : Z)
    (entries : list PersistEntry) (d : Disk) : Disk * option error :=
  let '(d, err) := os_MkdirAll d (persistDir cfg) in
  match err with
  | Some _ => (d, Some ErrMkdirAll)
  | None =>
      let filePath := persistPath cfg in
      let data := {| Version := 1; Timestamp := now; Entries := entries |} in
      if Format cfg =? FormatJSON then saveToJSON filePath data d
      else if Format cfg =? FormatBinary then saveToBinary filePath data d
      else (d, Some (ErrUnsupportedFormat (Format cfg)))
  end.

Definition saveToPersist `{JSONCodec} {E} (ng : NGCache E) (now : Z) (d : Disk)
    : Disk * option error :=
  match persistConfig ng with
  | Some cfg =>
      if Enabled cfg
      then saveEntries cfg now (rangeMap (persistData ng)) d
      else (d, None)
  | None => (d, None)
  end.

(** ** Snapshot codec: decoding, and the startup loader *)

Section Loader.
Context `{Engine E} `{JSONCodec}.

(** The body of the [for _, entry := range data.Entries] loop of
    [loadFromJSON], and the tail of each round of the loop of
    [loadFromBinary]: the entry goes to the map and to the engine, whose
    error is dropped. *)
Definition storeEntry (ng : NGCache E) (keyBytes : bytes) (key : string)
    (value : bytes) : NGCache E :=
  let ng1 := with_persistData ng (<[key := value]> (persistData ng)) in
  let '(c, _) := cache_Set (cache ng1) keyBytes value 0 in
  with_cache ng1 c.

Definition loadDocument (ng : NGCache E) (entries : list PersistEntry)
    : NGCache E :=
  fold_left
    (λ ng entry,
       storeEntry ng (list_ascii_of_string (Key entry)) (Key entry) (Value entry))
    entries ng.

Definition loadFromJSON (ng : NGCache E) (filePath : string) (d : Disk)
    : NGCache E * option error :=
  match files d !! filePath with
  | None => (ng, Some ErrOpenJSON)
  | Some file =>
      match json_Decode file with
      | None => (ng, Some ErrParseJSON)
      | Some data => (loadDocument ng (Entries data), None)
      end
  end.

(** The loop [for i := uint32(0); i < entryCount; i++] of [loadFromBinary],
    [n] rounds from the file position [r]. *)
Fixpoint readEntries (n : nat) (ng : NGCache E) (r : bytes)
    : NGCache E * option error :=
  match n with
  | O => (ng, None)
  | S n' =>
      match binary_Read_uint32 r with
      | None => (ng, Some ErrReadKeyLen)
      | Some (keyLen, r) =>
      match io_ReadFull keyLen r with
      | None => (ng, Some ErrReadKey)
      | Some (keyBytes, r) =>
      match binary_Read_uint32 r with
      | None => (ng, Some ErrReadValueLen)
      | Some (valueLen, r) =>
      match io_ReadFull valueLen r with
      | None => (ng, Some ErrReadValue)
      | Some (valueBytes, r) =>
          readEntries n'
            (storeEntry ng keyBytes (string_of_list_ascii keyBytes) valueBytes) r
      end end end end
  end.

(** [loadFromBinary] on the bytes of the opened file. *)
Definition readBinary (ng : NGCache E) (r : bytes) : NGCache E * option error :=
  match binary_Read_uint32 r with
  | None => (ng, Some ErrReadMagic)
  | Some (magic, r) =>
  if negb (magic =? BinaryMagic) then (ng, Some (ErrInvalidMagic magic)) else
  match binary_Read_uint32 r with
  | None => (ng, Some ErrReadVersion)
  | Some (version, r) =>
  if negb (version =? BinaryVersion)
  then (ng, Some (ErrUnsupportedVersion version)) else
  match binary_Read_int64 r with
  | None => (ng, Some ErrReadTimestamp)
  | Some (timestamp, r) =>
  match binary_Read_uint32 r with
  | None => (ng, Some ErrReadEntryCount)
  | Some (entryCount, r) => readEntries (Z.to_nat entryCount) ng r
  end end end end.

Definition loadFromBinary (ng : NGCache E) (filePath : string) (d : Disk)
    : NGCache E * option error :=
  match files d !! filePath with
  | None => (ng, Some ErrOpenBinary)
  | Some file => readBinary ng file
  end.

Definition loadFromPersist (ng : NGCache E) (d : Disk)
    : NGCache E * option error :=
  match persistConfig ng with
  | Some cfg =>
      if Enabled cfg then
        let filePath := persistPath cfg in
        match files d !! filePath with
        | None => (ng, None)
        | Some _ =>
            if Format cfg =? FormatJSON then loadFromJSON ng filePath d
            else if Format cfg =? FormatBinary then loadFromBinary ng filePath d
            else (ng, Some (ErrUnsupportedFormat (Format cfg)))
        end
      else (ng, None)
  | None => (ng, None)
  end.

(** [NewNGCache] returns the cache only; the result of [loadFromPersist] is
    not bound. The flush goroutine it starts is outside the model. *)
Definition NewNGCache (size : Z) (config : option PersistConfig) (d : Disk)
    : NGCache E :=
  let ng := mkNGCache (NewCache size) config ∅ in
  match config with
  | Some cfg => if Enabled cfg then (loadFromPersist ng d).1 else ng
  | None => ng
  end.

(** [Close]: the last flush (closing the stop channel is outside the model). *)
Definition Close (ng : NGCache E) (now : Z) (d : Disk) : Disk * option error :=
  if persistEnabled ng then saveToPersist ng now d else (d, None).

(** ** Histories

    What can happen to a constructed cache: the calls of its methods, a flush
    (a tick of the flush goroutine, or [Close]), a run of the loader, and the
    engine changing on its own (eviction, expiry). *)
Inductive op : Type :=
  | OpPut (key : string) (value : bytes) (expireSeconds : Z)
  | OpFetch (key : string)
  | OpSetPermanent (key value : bytes)
  | OpGetPermanent (key : bytes)
  | OpFlush (now : Z)
  | OpLoad
  | OpEngine (c : E).

Definition step (o : op) (w : NGCache E * Disk) : NGCache E * Disk :=
  let '(ng, d) := w in
  match o with
  | OpPut key value expireSeconds =>
      ((setWithPersist ng key value expireSeconds).1, d)
  | OpFetch key => ((getWithPersist ng key).1, d)
  | OpSetPermanent key value => ((SetPermanent ng key value).1, d)
  | OpGetPermanent key => ((GetPermanent ng key).1, d)
  | OpFlush now => (ng, (saveToPersist ng now d).1)
  | OpLoad => ((loadFromPersist ng d).1, d)
  | OpEngine c => (with_cache ng c, d)
  end.

Definition run (ops : list op) (w : NGCache E * Disk) : NGCache E * Disk :=
  fold_left (λ w o, step o w) ops w.

End Loader.

Arguments op : clear implicits.

(** The key and value that an operation puts in the Permanent Store, if it
    puts any. *)
Definition written_by {E} (o : op E) : option (string * list ascii) :=
  match o with
  | OpPut key value expireSeconds =>
      if expireSeconds <=? 0 then Some (key, value) else None
  | OpSetPermanent key value => Some (string_of_list_ascii key, value)
  | _ => None
  end.

(** ** The compact-binary layout, as the format description gives it

    [le_bytes width v] is the little-endian integer of [width] bytes holding
    [v]: byte [i] is digit [i] of [v] in base 256 (two's complement for a
    negative [v], the low [width] bytes for a [v] that needs more).

    [layout_record] and [layout_binary] are the bytes of the format for
    entries whose lengths and number fit their four-byte fields ([fits32]
    below); for a longer key or value, which has no length field, they keep
    the low 32 bits of the length, and no statement takes them for the
    format there.  [snapshot_as_specified] further down is the format with
    nothing added: it has no bytes for such an entry. *)

Definition le_bytes (width : nat) (v : Z) : bytes :=
  map (λ i, ascii_of_N (Z.to_N ((v / 256 ^ Z.of_nat i) mod 256))) (seq 0 width).

(** [uint32 keyLength; bytes key; uint32 valueLength; bytes value] *)
Definition layout_record (entry : PersistEntry) : bytes :=
  le_bytes 4 (len (list_ascii_of_string (Key entry)))
  ++ list_ascii_of_string (Key entry)
  ++ le_bytes 4 (len (Value entry))
  ++ Value entry.

(** Magic at offset 0, version at 4, timestamp at 8, entry count at 16, then
    the records. *)
Definition layout_binary (timestamp : Z) (entries : list PersistEntry) : bytes :=
  le_bytes 4 0x4E474341
  ++ le_bytes 4 1
  ++ le_bytes 8 timestamp
  ++ le_bytes 4 (len entries)
  ++ concat (map layout_record entries).

(** The header of a binary snapshot announcing [count] records. *)
Definition layout_header (timestamp count : Z) : list ascii :=
  le_bytes 4 0x4E474341 ++ le_bytes 4 1 ++ le_bytes 8 timestamp
  ++ le_bytes 4 count.

(** *** The layout with fields that hold what they announce

    A [uint32] field holds a number from 0 to [2 ^ 32 - 1]: no field holds a
    length of [2 ^ 32] or more. *)
Definition uint32_field (n : Z) : option bytes :=
  if (0 <=? n) && (n <? 2 ^ 32) then Some (le_bytes 4 n) else None.

(** [uint32 keyLength], the key, [uint32 valueLength], the value, where
    [keyLength] is the number of bytes of the key and [valueLength] the
    number of bytes of the value. *)
Definition record_as_specified (entry : PersistEntry) : option bytes :=
  match uint32_field (len (list_ascii_of_string (Key entry))),
        uint32_field (len (Value entry)) with
  | Some keyLength, Some valueLength =>
      Some (keyLength ++ list_ascii_of_string (Key entry)
            ++ valueLength ++ Value entry)
  | _, _ => None
  end.

Fixpoint records_as_specified (entries : list PersistEntry) : option bytes :=
  match entries with
  | [] => Some []
  | entry :: rest =>
      match record_as_specified entry, records_as_specified rest with
      | Some record, Some records => Some (record ++ records)
      | _, _ => None
      end
  end.

(** Magic [0x4E474341] at offset 0, version 1 at offset 4, the timestamp at
    offset 8, [entryCount] at offset 16, then [entryCount] records. *)
Definition snapshot_as_specified (timestamp : Z) (entries : list PersistEntry)
    : option bytes :=
  match uint32_field (len entries), records_as_specified entries with
  | Some entryCount, Some records =>
      Some (le_bytes 4 0x4E474341 ++ le_bytes 4 1 ++ le_bytes 8 timestamp
            ++ entryCount ++ records)
  | _, _ => None
  end.

(** ** Vocabulary of the statements *)

(** The lengths of an entry fit the [uint32] length fields of a record. *)
Definition fits32 (entry : PersistEntry) : Prop :=
  len (list_ascii_of_string (Key entry)) < 2 ^ 32 ∧ len (Value entry) < 2 ^ 32.

(** The same for a whole store, with its number of entries. *)
Definition store_fits32 (m : gmap string (list ascii)) : Prop :=
  Z.of_nat (size m) < 2 ^ 32 ∧
  ∀ k v, m !! k = Some v →
    len (list_ascii_of_string k) < 2 ^ 32 ∧ len v < 2 ^ 32.

(** [m[entry.Key] = entry.Value] for the entries of a list, in order. *)
Definition insertEntries (entries : list PersistEntry)
    (m : gmap string (list ascii)) : gmap string (list ascii) :=
  fold_left (λ m entry, <[Key entry := Value entry]> m) entries m.

Definition entry_pair (entry : PersistEntry) : string * list ascii :=
  (Key entry, Value entry).

(** The errors of [loadFromBinary] raised inside its loop over the records. *)
Definition record_error (e : error) : bool :=
  match e with
  | ErrReadKeyLen | ErrReadKey | ErrReadValueLen | ErrReadValue => true
  | _ => false
  end.

(** The engine returns what it has accepted: a lookup that follows an
    accepted write of the same key answers with the written value. *)
Definition retains_writes E `{Engine E} : Prop :=
  ∀ (c c' : E) key value ttl,
    cache_Set c key value ttl = (c', None) →
    (cache_Get c' key).2 = (value, None).

(** ** Three claims, as the specification words them

    The code does not meet them in this form; they are stated here to be
    refuted on examples. *)

(** Put then Fetch, as specified: for [expireSeconds ≤ 0] the value is put in
    the Permanent Store, the engine is written with TTL 0, and Fetch then
    returns the value. *)
Definition Put_Fetch_as_specified `{Engine E} (ng : NGCache E) (K : string)
    (V : list ascii) (e : Z) : Prop :=
  V ≠ [] → e ≤ 0 →
  let put := setWithPersist ng K V e in
  persistData put.1 = <[K := V]> (persistData ng)
  ∧ cache put.1 = (cache_Set (cache ng) (list_ascii_of_string K) V 0).1
  ∧ (getWithPersist put.1 K).2 = (V, None).

(** Read-repair, as specified: a key of the Permanent Store that the engine
    does not have is returned by Fetch, and the engine has it afterwards. *)
Definition read_repair_as_specified `{Engine E} (ng : NGCache E) (K : string)
    : Prop :=
  ∀ V, persistData ng !! K = Some V →
  (cache_Get (cache ng) (list_ascii_of_string K)).2.2 ≠ None →
  let fetch := getWithPersist ng K in
  fetch.2 = (V, None)
  ∧ (cache_Get (cache fetch.1) (list_ascii_of_string K)).2 = (V, None).

(** Construction reports a failed load, as specified: what [NewNGCache]
    returns after a failed load differs from what it returns after any load
    that succeeded. *)
Definition load_failure_is_reported `{Engine E} `{JSONCodec} (size : Z)
    (cfg : PersistConfig) (d : Disk) : Prop :=
  (loadFromPersist (mkNGCache (NewCache (E := E) size) (Some cfg) ∅) d).2 ≠ None →
  ∀ d',
    (loadFromPersist (mkNGCache (NewCache (E := E) size) (Some cfg) ∅) d').2 = None →
    NewNGCache (E := E) size (Some cfg) d ≠ NewNGCache size (Some cfg) d'.

(** ** A reference engine

    Modelled from the spec: the Volatile Cache Engine of sections 2, 3 and 6,
    which is not part of the repository: a size-bounded store of byte keys
    and byte values with their expiration in seconds, whose [Set] rejects an
    entry that violates the size limit with an error and is otherwise a plain
    overwrite, and whose [Get] reports a missing key as not found.  It serves
    as the engine of the closed examples; the theorems hold for every
    engine. *)

Record RefCache := {
  slots : gmap string (list ascii * Z);
  maxEntry : Z;
}.

Definition ref_Set (c : RefCache) (key value : bytes) (expireSeconds : Z)
    : RefCache * option error :=
  if 65535 <? len key then (c, Some ErrLargeKey)
  else if maxEntry c <? len key + len value then (c, Some ErrLargeEntry)
  else ({| slots := <[string_of_list_ascii key := (value, expireSeconds)]> (slots c);
           maxEntry := maxEntry c |}, None).

Definition ref_Get (c : RefCache) (key : bytes)
    : RefCache * (bytes * option error) :=
  match slots c !! string_of_list_ascii key with
  | Some (value, _) => (c, (value, None))
  | None => (c, ([], Some ErrNotFound))
  end.

(** The engine forgets a key (eviction under memory pressure, expiry). *)
Definition ref_evict (c : RefCache) (key : bytes) : RefCache :=
  {| slots := delete (string_of_list_ascii key) (slots c);
     maxEntry := maxEntry c |}.

#[export] Instance RefEngine : Engine RefCache := {
  NewCache size := {| slots := ∅; maxEntry := size / 1024 |};
  cache_Set := ref_Set;
  cache_Get := ref_Get;
}.

(** ** A reference JSON codec

    Modelled from the spec: the structured-text format of section 4.3 (a
    document with [version], [timestamp] and [entries], each entry a [key]
    string and a [value] byte sequence), written the way [encoding/json]
    writes it with two-space indentation (byte sequences in base64, strings
    as UTF-8 text with the replacement character for every byte that is not
    part of a character) and read back field by field.  It serves as the
    codec of the closed examples; the theorems hold for every codec. *)

Module RefJSON.

Definition quote : ascii := "034"%char.
Definition backslash : ascii := "092"%char.
Definition newline : ascii := "010"%char.

Definition text (s : string) : list ascii := list_ascii_of_string s.

(** *** Writer *)

Definition hex_digit (n : N) : ascii :=
  if (n <? 10)%N then ascii_of_N (48 + n) else ascii_of_N (87 + n).

(** A byte below 128 in a JSON string: quote and backslash take a
    backslash; line feed, carriage return and tab their letter; the other
    control characters and [<], [>], [&] are written [\u00XX]; every other
    byte is copied. *)
Definition escape_byte (b : ascii) : list ascii :=
  let n := N_of_ascii b in
  if Ascii.eqb b quote then [backslash; quote]
  else if Ascii.eqb b backslash then [backslash; backslash]
  else if (n =? 10)%N then text "\n"
  else if (n =? 13)%N then text "\r"
  else if (n =? 9)%N then text "\t"
  else if ((n <? 32) || (n =? 60) || (n =? 62) || (n =? 38))%N
       then text "\u00" ++ [hex_digit (n / 16); hex_digit (n mod 16)]
  else [b].

Definition byte_in (lo hi : N) (b : ascii) : bool :=
  ((lo <=? N_of_ascii b) && (N_of_ascii b <=? hi))%N.

(** The number of bytes of the UTF-8 character at the head of [s]; 0 when
    the bytes there are not the UTF-8 form of a character (a stray or missing
    continuation byte, an overlong form, a surrogate, a code point above
    [U+10FFFF]). *)
Definition utf8_size (s : list ascii) : nat :=
  match s with
  | [] => 0
  | b0 :: r =>
      let n := N_of_ascii b0 in
      if (n <? 128)%N then 1
      else if byte_in 0xC2 0xDF b0 then
        match r with
        | b1 :: _ => if byte_in 0x80 0xBF b1 then 2 else 0
        | _ => 0
        end
      else if byte_in 0xE0 0xEF b0 then
        match r with
        | b1 :: b2 :: _ =>
            if byte_in (if (n =? 0xE0)%N then 0xA0 else 0x80)
                       (if (n =? 0xED)%N then 0x9F else 0xBF) b1
               && byte_in 0x80 0xBF b2
            then 3 else 0
        | _ => 0
        end
      else if byte_in 0xF0 0xF4 b0 then
        match r with
        | b1 :: b2 :: b3 :: _ =>
            if byte_in (if (n =? 0xF0)%N then 0x90 else 0x80)
                       (if (n =? 0xF4)%N then 0x8F else 0xBF) b1
               && byte_in 0x80 0xBF b2 && byte_in 0x80 0xBF b3
            then 4 else 0
        | _ => 0
        end
      else 0
  end.

(** [U+2028] and [U+2029], which are written escaped. *)
Definition line_separator (s : list ascii) : option ascii :=
  match s with
  | b0 :: b1 :: b2 :: _ =>
      if ((N_of_ascii b0 =? 0xE2) && (N_of_ascii b1 =? 0x80))%N
      then if (N_of_ascii b2 =? 0xA8)%N then Some "8"%char
           else if (N_of_ascii b2 =? 0xA9)%N then Some "9"%char
           else None
      else None
  | _ => None
  end.

(** The body of a JSON string.  A character in UTF-8 is copied; a byte that
    is not part of one is written as the replacement character [\ufffd].
    [copy] and [drop] count the bytes of the current character that are
    still to be copied or to be left out. *)
Fixpoint write_body (copy drop : nat) (s : list ascii) : list ascii :=
  match s with
  | [] => []
  | b :: r =>
      match drop, copy with
      | S k, _ => write_body copy k r
      | O, S k => b :: write_body k 0 r
      | O, O =>
          if (N_of_ascii b <? 128)%N then escape_byte b ++ write_body 0 0 r
          else
            match line_separator s with
            | Some digit => text "\u202" ++ [digit] ++ write_body 0 2 r
            | None =>
                match utf8_size s with
                | O => text "\ufffd" ++ write_body 0 0 r
                | S k => b :: write_body k 0 r
                end
            end
      end
  end.

Definition write_string (s : list ascii) : list ascii :=
  [quote] ++ write_body 0 0 s ++ [quote].

Definition base64_digit (n : N) : ascii :=
  if (n <? 26)%N then ascii_of_N (65 + n)
  else if (n <? 52)%N then ascii_of_N (71 + n)
  else if (n <? 62)%N then ascii_of_N (n - 4)
  else if (n =? 62)%N then "+"%char else "/"%char.

Fixpoint base64 (b : list ascii) : list ascii :=
  match b with
  | [] => []
  | [x] =>
      let n := (N_of_ascii x * 65536)%N in
      [base64_digit (n / 262144); base64_digit (n / 4096 mod 64);
       "="%char; "="%char]
  | [x; y] =>
      let n := (N_of_ascii x * 65536 + N_of_ascii y * 256)%N in
      [base64_digit (n / 262144); base64_digit (n / 4096 mod 64);
       base64_digit (n / 64 mod 64); "="%char]
  | x :: y :: z :: rest =>
      let n := (N_of_ascii x * 65536 + N_of_ascii y * 256 + N_of_ascii z)%N in
      [base64_digit (n / 262144); base64_digit (n / 4096 mod 64);
       base64_digit (n / 64 mod 64); base64_digit (n mod 64)]
      ++ base64 rest
  end.

Definition write_int (z : Z) : list ascii := text (pretty z).

Definition write_entry (entry : PersistEntry) : list ascii :=
  text "    {" ++ [newline]
  ++ text "      " ++ write_string (text "key") ++ text ": "
  ++ write_string (text (Key entry)) ++ text "," ++ [newline]
  ++ text "      " ++ write_string (text "value") ++ text ": "
  ++ [quote] ++ base64 (Value entry) ++ [quote] ++ [newline]
  ++ text "    }".

Fixpoint write_entries (entries : list PersistEntry) : list ascii :=
  match entries with
  | [] => []
  | [entry] => write_entry entry ++ [newline]
  | entry :: rest => write_entry entry ++ text "," ++ [newline] ++ write_entries rest
  end.

Definition encode (data : PersistData) : list ascii :=
  text "{" ++ [newline]
  ++ text "  " ++ write_string (text "version") ++ text ": "
  ++ write_int (Version data) ++ text "," ++ [newline]
  ++ text "  " ++ write_string (text "timestamp") ++ text ": "
  ++ write_int (Timestamp data) ++ text "," ++ [newline]
  ++ text "  " ++ write_string (text "entries") ++ text ": "
  ++ match Entries data with
     | [] => text "[]"
     | entries => text "[" ++ [newline] ++ write_entries entries ++ text "  ]"
     end
  ++ [newline] ++ text "}" ++ [newline].

(** *** Reader *)

Definition is_space (b : ascii) : bool :=
  let n := N_of_ascii b in
  ((n =? 32) || (n =? 10) || (n =? 13) || (n =? 9))%N.

Fixpoint skip_space (r : list ascii) : list ascii :=
  match r with
  | b :: r' => if is_space b then skip_space r' else r
  | [] => []
  end.

(** The input after the token [tok], white space skipped on both sides. *)
Fixpoint after_prefix (tok r : list ascii) : option (list ascii) :=
  match tok, r with
  | [], _ => Some r
  | t :: tok', b :: r' => if Ascii.eqb t b then after_prefix tok' r' else None
  | _ :: _, [] => None
  end.

Definition expect (tok : string) (r : list ascii) : option (list ascii) :=
  match after_prefix (text tok) (skip_space r) with
  | Some r' => Some (skip_space r')
  | None => None
  end.

Definition digit_value (b : ascii) : option Z :=
  let n := N_of_ascii b in
  if ((48 <=? n) && (n <=? 57))%N then Some (Z.of_N n - 48) else None.

Fixpoint read_digits (acc : Z) (r : list ascii) : Z * list ascii :=
  match r with
  | b :: r' =>
      match digit_value b with
      | Some v => read_digits (10 * acc + v) r'
      | None => (acc, r)
      end
  | [] => (acc, [])
  end.

Definition read_int (r : list ascii) : option (Z * list ascii) :=
  match skip_space r with
  | "-"%char :: (b :: _) as r' =>
      match digit_value b with
      | Some _ => let '(v, r'') := read_digits 0 r' in Some (- v, r'')
      | None => None
      end
  | (b :: _) as r' =>
      match digit_value b with
      | Some _ => Some (read_digits 0 r')
      | None => None
      end
  | [] => None
  end.

Definition hex_value (b : ascii) : option N :=
  let n := N_of_ascii b in
  if ((48 <=? n) && (n <=? 57))%N then Some (n - 48)%N
  else if ((97 <=? n) && (n <=? 102))%N then Some (n - 87)%N
  else if ((65 <=? n) && (n <=? 70))%N then Some (n - 55)%N
  else None.

(** The UTF-8 form of a code point. *)
Definition utf8_encode (c : N) : list ascii :=
  if (c <? 0x80)%N then [ascii_of_N c]
  else if (c <? 0x800)%N
  then [ascii_of_N (0xC0 + c / 64); ascii_of_N (0x80 + c mod 64)]
  else if (c <? 0x10000)%N
  then [ascii_of_N (0xE0 + c / 4096); ascii_of_N (0x80 + c / 64 mod 64);
        ascii_of_N (0x80 + c mod 64)]
  else [ascii_of_N (0xF0 + c / 262144); ascii_of_N (0x80 + c / 4096 mod 64);
        ascii_of_N (0x80 + c / 64 mod 64); ascii_of_N (0x80 + c mod 64)].

Definition replacement : list ascii := utf8_encode 0xFFFD.

(** The four hexadecimal digits that follow [\u]. *)
Definition read_hex4 (r : list ascii) : option (N * list ascii) :=
  match r with
  | h3 :: h2 :: h1 :: h0 :: r' =>
      match hex_value h3, hex_value h2, hex_value h1, hex_value h0 with
      | Some d3, Some d2, Some d1, Some d0 =>
          Some ((4096 * d3 + 256 * d2 + 16 * d1 + d0)%N, r')
      | _, _, _, _ => None
      end
  | _ => None
  end.

(** What follows a backslash: the bytes it stands for and the rest of the
    input.  Two [\uXXXX] that form a surrogate pair are one character; a
    surrogate on its own is the replacement character. *)
Definition read_escape (r : list ascii) : option (list ascii * list ascii) :=
  match r with
  | "u"%char :: r' =>
      match read_hex4 r' with
      | Some (c, r'') =>
          if ((0xD800 <=? c) && (c <? 0xDC00))%N then
            match r'' with
            | b :: "u"%char :: r3 =>
                match read_hex4 r3 with
                | Some (c2, r4) =>
                    if Ascii.eqb b backslash
                       && ((0xDC00 <=? c2) && (c2 <? 0xE000))%N
                    then Some (utf8_encode
                                 (0x10000 + (c - 0xD800) * 1024 + (c2 - 0xDC00)),
                               r4)
                    else Some (replacement, r'')
                | None => Some (replacement, r'')
                end
            | _ => Some (replacement, r'')
            end
          else if ((0xDC00 <=? c) && (c <? 0xE000))%N
          then Some (replacement, r'')
          else Some (utf8_encode c, r'')
      | None => None
      end
  | c :: r' =>
      let plain :=
        if Ascii.eqb c "n"%char then Some newline
        else if Ascii.eqb c "t"%char then Some "009"%char
        else if Ascii.eqb c "r"%char then Some "013"%char
        else if Ascii.eqb c "b"%char then Some "008"%char
        else if Ascii.eqb c "f"%char then Some "012"%char
        else if Ascii.eqb c "/"%char then Some "/"%char
        else if Ascii.eqb c quote then Some quote
        else if Ascii.eqb c backslash then Some backslash
        else None in
      match plain with
      | Some x => Some ([x], r')
      | None => None
      end
  | [] => None
  end.

(** The body of a string up to its closing quote.  A byte that is not part
    of a character in UTF-8 is read as the replacement character.  Every
    round takes input, so the length of the input bounds the rounds. *)
Fixpoint read_string_body (fuel : nat) (r : list ascii)
    : option (list ascii * list ascii) :=
  match fuel with
  | O => None
  | S fuel' =>
      match r with
      | [] => None
      | b :: r' =>
          if Ascii.eqb b quote then Some ([], r')
          else if Ascii.eqb b backslash then
            match read_escape r' with
            | Some (x, r'') =>
                match read_string_body fuel' r'' with
                | Some (s, rest) => Some (x ++ s, rest)
                | None => None
                end
            | None => None
            end
          else if (N_of_ascii b <? 32)%N then None
          else
            let size := utf8_size r in
            let '(x, r'') :=
              match size with
              | O => (replacement, r')
              | S _ => (take size r, drop size r)
              end in
            match read_string_body fuel' r'' with
            | Some (s, rest) => Some (x ++ s, rest)
            | None => None
            end
      end
  end.

Definition read_string (r : list ascii) : option (list ascii * list ascii) :=
  match skip_space r with
  | b :: r' =>
      if Ascii.eqb b quote then read_string_body (length r') r' else None
  | [] => None
  end.

Definition base64_value (b : ascii) : option N :=
  let n := N_of_ascii b in
  if ((65 <=? n) && (n <=? 90))%N then Some (n - 65)%N
  else if ((97 <=? n) && (n <=? 122))%N then Some (n - 71)%N
  else if ((48 <=? n) && (n <=? 57))%N then Some (n + 4)%N
  else if (n =? 43)%N then Some 62%N
  else if (n =? 47)%N then Some 63%N
  else None.

Fixpoint unbase64 (s : list ascii) : option (list ascii) :=
  match s with
  | [] => Some []
  | [a; b; c; d] =>
      match base64_value a, base64_value b with
      | Some x, Some y =>
          if Ascii.eqb c "="%char && Ascii.eqb d "="%char
          then Some [ascii_of_N (x * 4 + y / 16)]
          else
            match base64_value c with
            | Some z =>
                if Ascii.eqb d "="%char
                then Some [ascii_of_N (x * 4 + y / 16);
                           ascii_of_N (y mod 16 * 16 + z / 4)]
                else
                  match base64_value d with
                  | Some w =>
                      Some [ascii_of_N (x * 4 + y / 16);
                            ascii_of_N (y mod 16 * 16 + z / 4);
                            ascii_of_N (z mod 4 * 64 + w)]
                  | None => None
                  end
            | None => None
            end
      | _, _ => None
      end
  | a :: b :: c :: d :: rest =>
      match base64_value a, base64_value b, base64_value c, base64_value d,
            unbase64 rest with
      | Some x, Some y, Some z, Some w, Some more =>
          Some (ascii_of_N (x * 4 + y / 16)
                :: ascii_of_N (y mod 16 * 16 + z / 4)
                :: ascii_of_N (z mod 4 * 64 + w) :: more)
      | _, _, _, _, _ => None
      end
  | _ => None
  end.

Notation "'let?' x ← e 'in' k" :=
  (match e with Some x => k | None => None end)
  (at level 10, x pattern, e at level 100, k at level 200, only parsing).

Definition read_field (name : string) (r : list ascii) : option (list ascii) :=
  let? (s, r) ← read_string r in
  if decide (s = text name) then expect ":" r else None.

Definition read_entry (r : list ascii) : option (PersistEntry * list ascii) :=
  let? r ← expect "{" r in
  let? r ← read_field "key" r in
  let? (k, r) ← read_string r in
  let? r ← expect "," r in
  let? r ← read_field "value" r in
  let? (v64, r) ← read_string r in
  let? v ← unbase64 v64 in
  let? r ← expect "}" r in
  Some ({| Key := string_of_list_ascii k; Value := v |}, r).

(** The entries after the opening bracket; every entry takes input, so the
    length of the input bounds the rounds. *)
Fixpoint read_entries (fuel : nat) (r : list ascii)
    : option (list PersistEntry * list ascii) :=
  match fuel with
  | O => None
  | S fuel' =>
      let? (entry, r) ← read_entry r in
      match expect "," r with
      | Some r =>
          let? (more, r) ← read_entries fuel' r in Some (entry :: more, r)
      | None => let? r ← expect "]" r in Some ([entry], r)
      end
  end.

Definition read_array (r : list ascii) : option (list PersistEntry * list ascii) :=
  let? r ← expect "[" r in
  match expect "]" r with
  | Some r => Some ([], r)
  | None => read_entries (length r) r
  end.

Definition decode (r : list ascii) : option PersistData :=
  let? r ← expect "{" r in
  let? r ← read_field "version" r in
  let? (version, r) ← read_int r in
  let? r ← expect "," r in
  let? r ← read_field "timestamp" r in
  let? (timestamp, r) ← read_int r in
  let? r ← expect "," r in
  let? r ← read_field "entries" r in
  let? (entries, r) ← read_array r in
  let? r ← expect "}" r in
  Some {| Version := version; Timestamp := timestamp; Entries := entries |}.

End RefJSON.

#[export] Instance RefCodec : JSONCodec := {
  json_Encode := RefJSON.encode;
  json_Decode := RefJSON.decode;
}.

(** ** Examples *)

(** The configuration of [TestPersistence]. *)
Definition cfg_binary : PersistConfig :=
  {| Enabled := true; FilePath := ""; FileName := "test.cat";
     Format := FormatBinary; Interval := 5 |}.

(** The configuration of [example/main.go]. *)
Definition cfg_json : PersistConfig :=
  {| Enabled := true; FilePath := "./cache_data"; FileName := "ngcache.json";
     Format := FormatJSON; Interval := 30000000000 |}.

Definition cfg_disabled : PersistConfig :=
  {| Enabled := false; FilePath := ""; FileName := "test.cat";
     Format := FormatBinary; Interval := 5 |}.

Definition no_files : Disk :=
  {| files := ∅; dirs := {[ "."%string ]}; denied := ∅; quota := 1048576 |}.

Definition disk_with (path : string) (file : list ascii) : Disk :=
  {| files := {[ path := file ]}; dirs := {[ "."%string ]}; denied := ∅;
     quota := 1048576 |}.

Definition large_disk : Disk :=
  {| files := ∅; dirs := {[ "."%string ]}; denied := ∅; quota := 2 ^ 33 |}.

(** The cache of the tests, [NewNGCache(1024*1024, config)], on the
    reference engine, which takes entries of up to 1024 bytes (key and value
    together), with no snapshot file to load. *)
Definition fresh (config : option PersistConfig) : NGCache RefCache :=
  NewNGCache 1048576 config no_files.

(** A value of 2000 bytes, too large for an entry of that engine. *)
Definition big_value : list ascii := replicate 2000 "x"%char.

(** A cache whose engine holds ["k" ↦ "a"]. *)
Definition holds_a : NGCache RefCache :=
  (setWithPersist (fresh None) "k" (list_ascii_of_string "a") 0).1.

(** A cache that holds ["k" ↦ "ab"] in the Permanent Store and the engine. *)
Definition holds_ab : NGCache RefCache :=
  (setWithPersist (fresh None) "k" (list_ascii_of_string "ab") 0).1.

(** The same once the engine has evicted ["k"]. *)
Definition evicted_ab : NGCache RefCache :=
  with_cache holds_ab (ref_evict (cache holds_ab) (list_ascii_of_string "k")).

(** [SetPermanent "k" "ab"] with persistence disabled, then the engine
    evicts ["k"]. *)
Definition evicted_off : NGCache RefCache :=
  let ng :=
    (SetPermanent (fresh (Some cfg_disabled)) (list_ascii_of_string "k")
       (list_ascii_of_string "ab")).1 in
  with_cache ng (ref_evict (cache ng) (list_ascii_of_string "k")).

(** A cache whose Permanent Store holds ["k" ↦ big_value], an entry that the
    engine refused for its size. *)
Definition holds_big : NGCache RefCache :=
  (setWithPersist (fresh None) "k" big_value 0).1.

(** A history of [holds_ab] with persistence on: every kind of operation,
    two of them writing ["k"]. *)
Definition start_k : NGCache RefCache * Disk :=
  ((setWithPersist (fresh (Some cfg_binary)) "k" (list_ascii_of_string "ab") 0).1,
   no_files).

Definition history_k : list (op RefCache) :=
  [ OpPut "j" (list_ascii_of_string "x") 60;
    OpFetch "k";
    OpFlush 1700000000;
    OpEngine (ref_evict (cache start_k.1) (list_ascii_of_string "k"));
    OpGetPermanent (list_ascii_of_string "k");
    OpSetPermanent (list_ascii_of_string "k") (list_ascii_of_string "cd");
    OpLoad;
    OpPut "k" (list_ascii_of_string "e") 0 ].

(** The bytes of a list of numbers. *)
Definition of_codes (codes : list N) : list ascii := map ascii_of_N codes.

(** A document with one entry, and one with three. *)
Definition doc_ax : PersistData :=
  {| Version := 1; Timestamp := 1;
     Entries := [ {| Key := "a"; Value := list_ascii_of_string "x" |} ] |}.

Definition doc_three : PersistData :=
  {| Version := 1; Timestamp := 1700000000;
     Entries := [ {| Key := "a"; Value := list_ascii_of_string "x" |};
                  {| Key := "张三"; Value := [] |};
                  {| Key := "q"; Value := list_ascii_of_string "hello world!!" |} ] |}.

(** A JSON snapshot of version 2 with the entry ["a" ↦ "x"]. *)
Definition doc_version2 : PersistData :=
  {| Version := 2; Timestamp := 1;
     Entries := [ {| Key := "a"; Value := list_ascii_of_string "x" |} ] |}.

(** Binary files with a wrong magic (and a wrong version), and with the
    right magic and a wrong version. *)
Definition file_bad_magic : list ascii :=
  of_codes [ 0x58; 0x58; 0x58; 0x58;  2; 0; 0; 0;
             1; 0; 0; 0; 0; 0; 0; 0;  0; 0; 0; 0 ]%N.

Definition file_bad_version : list ascii :=
  of_codes [ 0x41; 0x43; 0x47; 0x4E;  2; 0; 0; 0;
             1; 0; 0; 0; 0; 0; 0; 0;  0; 0; 0; 0 ]%N.

(** A binary snapshot cut after its first record: the header announces two
    records and the file ends after ["a" ↦ "x"]. *)
Definition file_truncated : list ascii :=
  layout_header 1 2 ++ concat (map layout_record (Entries doc_ax)).

(** A store of three entries, one of them with a non-ASCII key and an empty
    value. *)
Definition store_three : gmap string (list ascii) :=
  list_to_map (map entry_pair (Entries doc_three)).

(** A store whose only value has [n] bytes, all zero, in a cache with the
    binary format; [2 ^ 32] bytes make a value of 4 GiB. *)
Definition long_value (n : nat) : list ascii := replicate n "000"%char.



Definition doc_long (n : nat) : PersistData :=
  {| Version := 1; Timestamp := 0;
     Entries := [ {| Key := "k"; Value := long_value n |} ] |}.






(** The configuration of [TestPersistence] with the file in a directory
    that nothing makes. *)
Definition cfg_sub : PersistConfig :=
  {| Enabled := true; FilePath := ""; FileName := "sub/test.cat";
     Format := FormatBinary; Interval := 5 |}.

(** A disk that holds an older snapshot and another file, and on which a new
    file takes ten bytes. *)
Definition full_disk : Disk :=
  {| files := {[ "./test.cat"%string := layout_binary 0 (Entries doc_three);
                 "./notes.txt"%string := list_ascii_of_string "keep" ]};
     dirs := {[ "."%string ]}; denied := ∅; quota := 10 |}.

(** A disk that holds an older snapshot which it does not let replace. *)
Definition locked_disk : Disk :=
  {| files := {[ "./test.cat"%string := layout_binary 0 (Entries doc_three) ]};
     dirs := {[ "."%string ]}; denied := {[ "./test.cat"%string ]};
     quota := 1048576 |}.

(** A disk on which a file has the name of the directory of [cfg_json]. *)
Definition blocked_disk : Disk :=
  disk_with "./cache_data" (list_ascii_of_string "not a directory").

(** ** Vocabulary of the further properties *)

(** The value of the last entry of a list that has the key [key]. *)
Fixpoint lastValue (key : string) (entries : list PersistEntry)
    : option (list ascii) :=
  match entries with
  | [] => None
  | entry :: rest =>
      match lastValue key rest with
      | Some value => Some value
      | None => if decide (Key entry = key) then Some (Value entry) else None
      end
  end.

(** The records that [n] rounds of the loop of [loadFromBinary] read from
    the file position [r], and the error that ends the loop, if any: the
    reads of [readEntries] without the cache. *)
Fixpoint parseEntries (n : nat) (r : bytes) : list PersistEntry * option error :=
  match n with
  | O => ([], None)
  | S n' =>
      match binary_Read_uint32 r with
      | None => ([], Some ErrReadKeyLen)
      | Some (keyLen, r) =>
      match io_ReadFull keyLen r with
      | None => ([], Some ErrReadKey)
      | Some (keyBytes, r) =>
      match binary_Read_uint32 r with
      | None => ([], Some ErrReadValueLen)
      | Some (valueLen, r) =>
      match io_ReadFull valueLen r with
      | None => ([], Some ErrReadValue)
      | Some (valueBytes, r) =>
          let '(more, err) := parseEntries n' r in
          ({| Key := string_of_list_ascii keyBytes; Value := valueBytes |}
           :: more, err)
      end end end end
  end.

(** The same for the whole file: the reads of [readBinary]. *)
Definition parseBinary (r : bytes) : list PersistEntry * option error :=
  match binary_Read_uint32 r with
  | None => ([], Some ErrReadMagic)
  | Some (magic, r) =>
  if negb (magic =? BinaryMagic) then ([], Some (ErrInvalidMagic magic)) else
  match binary_Read_uint32 r with
  | None => ([], Some ErrReadVersion)
  | Some (version, r) =>
  if negb (version =? BinaryVersion)
  then ([], Some (ErrUnsupportedVersion version)) else
  match binary_Read_int64 r with
  | None => ([], Some ErrReadTimestamp)
  | Some (timestamp, r) =>
  match binary_Read_uint32 r with
  | None => ([], Some ErrReadEntryCount)
  | Some (entryCount, r) => parseEntries (Z.to_nat entryCount) r
  end end end end.

(** The entries that [loadFromPersist] finds on the disk under a
    configuration, and its error. *)
Definition parseSnapshot `{JSONCodec} (cfg : PersistConfig) (d : Disk)
    : list PersistEntry * option error :=
  if Enabled cfg then
    match files d !! persistPath cfg with
    | None => ([], None)
    | Some file =>
        if Format cfg =? FormatJSON then
          match json_Decode file with
          | None => ([], Some ErrParseJSON)
          | Some data => (Entries data, None)
          end
        else if Format cfg =? FormatBinary then parseBinary file
        else ([], Some (ErrUnsupportedFormat (Format cfg)))
    end
  else ([], None).

(** The engine after the writes of a list of entries with TTL 0, the answer
    to each write dropped. *)
Definition warm `{Engine E} (c : E) (entries : list PersistEntry) : E :=
  fold_left
    (λ c entry,
       (cache_Set c (list_ascii_of_string (Key entry)) (Value entry) 0).1)
    entries c.

(** A sequence of writes [w] is writing [target]: from every file it leaves
    the file extended by a prefix of [target], the whole of it when it
    returns no error, and less than that when it returns an error (on a file
    that still takes bytes, which it leaves so). *)
Definition writing (w : File → File * option error) (target : list ascii)
    : Prop :=
  ∀ f, ∃ done rest,
    written (w f).1 = written f ++ done
    ∧ target = done ++ rest
    ∧ ((w f).2 = None → rest = [])
    ∧ (0 ≤ room f → (w f).2 ≠ None → rest ≠ [])
    ∧ (0 ≤ room f → 0 ≤ room (w f).1).

(** * Properties *)

(** ** Little-endian integers *)

Import LittleEndian.

Lemma of_to_byte v : of_byte (to_byte v) = Z.land v 255.
Proof.
  unfold of_byte, to_byte.
  assert (0 <= Z.land v 255 < 256).
  { change 255 with (Z.ones 8). rewrite Z.land_ones by lia.
    apply Z.mod_pos_bound. lia. }
  rewrite N_ascii_embedding by lia. lia.
Qed.

Lemma to_of_byte b : to_byte (of_byte b) = b.
Proof.
  unfold of_byte, to_byte.
  pose proof (N_ascii_bounded b).
  change 255 with (Z.ones 8). rewrite Z.land_ones by lia.
  rewrite Z.mod_small by lia. rewrite N2Z.id. apply ascii_N_embedding.
Qed.

Lemma testbit_lane v k n :
  0 <= k -> 0 <= n ->
  Z.testbit (Z.shiftl (Z.land (Z.shiftr v k) 255) k) n
  = Z.testbit v n && (k <=? n) && (n <? k + 8).
Proof.
  intros Hk Hn. rewrite Z.shiftl_spec by lia.
  destruct (Z.leb_spec k n) as [Hle|Hlt].
  - rewrite Z.land_spec, Z.shiftr_spec by lia.
    change 255 with (Z.ones 8). rewrite Z.testbit_ones_nonneg by lia.
    replace (n - k + k) with n by lia.
    rewrite andb_true_r. f_equal.
    destruct (Z.ltb_spec (n - k) 8), (Z.ltb_spec n (k + 8)); auto; lia.
  - rewrite Z.testbit_neg_r by lia. now rewrite andb_false_r.
Qed.

Lemma testbit_lane0 v n :
  0 <= n -> Z.testbit (Z.land v 255) n = Z.testbit v n && (0 <=? n) && (n <? 0 + 8).
Proof.
  intros Hn. rewrite <- (testbit_lane v 0 n) by lia.
  now rewrite Z.shiftr_0_r, Z.shiftl_0_r.
Qed.

Ltac decide_cmp :=
  repeat match goal with
  | |- context [?a <=? ?b] =>
      first [ rewrite (proj2 (Z.leb_le a b)) by lia
            | rewrite (proj2 (Z.leb_gt a b)) by lia ]
  | |- context [?a <? ?b] =>
      first [ rewrite (proj2 (Z.ltb_lt a b)) by lia
            | rewrite (proj2 (Z.ltb_ge a b)) by lia ]
  end.

Ltac lanes v n :=
  first [ rewrite Z.mod_pow2_bits_low by lia
        | rewrite Z.mod_pow2_bits_high by lia ];
  decide_cmp; destruct (Z.testbit v n); reflexivity.

Lemma Uint32_PutUint32 v : Uint32 (PutUint32 v) = uint32 v.
Proof.
  unfold Uint32, PutUint32, uint32. rewrite !of_to_byte.
  apply Z.bits_inj'. intros n Hn.
  rewrite !Z.lor_spec, !testbit_lane, testbit_lane0 by lia.
  assert (n < 8 \/ 8 <= n < 16 \/ 16 <= n < 24 \/ 24 <= n < 32 \/ 32 <= n)
    as [?|[?|[?|[?|?]]]] by lia; lanes v n.
Qed.

Lemma lane_digit v w k :
  0 <= k -> k + 8 <= w ->
  Z.land (Z.shiftr (v mod 2 ^ w) k) 255 = (v / 2 ^ k) mod 2 ^ 8.
Proof.
  intros Hk Hw. apply Z.bits_inj'. intros n Hn.
  change 255 with (Z.ones 8).
  rewrite Z.land_spec, Z.shiftr_spec, Z.testbit_ones_nonneg by lia.
  destruct (Z.ltb_spec n 8).
  - rewrite Z.mod_pow2_bits_low, Z.mod_pow2_bits_low by lia.
    rewrite Z.div_pow2_bits by lia. now rewrite andb_true_r.
  - rewrite (Z.mod_pow2_bits_high _ 8) by lia. now rewrite andb_false_r.
Qed.

Lemma to_byte_lane v w k :
  0 <= k -> k + 8 <= w ->
  to_byte (Z.shiftr (v mod 2 ^ w) k) = ascii_of_N (Z.to_N ((v / 2 ^ k) mod 256)).
Proof. intros. unfold to_byte. now rewrite (lane_digit v w k). Qed.

Lemma PutUint32_le_bytes v : PutUint32 (uint32 v) = le_bytes 4 v.
Proof.
  unfold PutUint32, uint32, le_bytes. cbn [seq map].
  rewrite <- (Z.shiftr_0_r (v mod 2 ^ 32)) at 1.
  rewrite !(to_byte_lane v 32) by lia. reflexivity.
Qed.

Lemma PutUint64_le_bytes v : PutUint64 (uint64 v) = le_bytes 8 v.
Proof.
  unfold PutUint64, uint64, le_bytes. cbn [seq map].
  rewrite <- (Z.shiftr_0_r (v mod 2 ^ 64)) at 1.
  rewrite !(to_byte_lane v 64) by lia. reflexivity.
Qed.

(** ** Writing a file *)

Lemma len_app {A} (a b : list A) : len (a ++ b) = len a + len b.
Proof. unfold len. rewrite length_app. lia. Qed.

Lemma len_nonneg {A} (a : list A) : 0 <= len a.
Proof. unfold len. lia. Qed.

Lemma len_le_bytes w v : len (le_bytes w v) = Z.of_nat w.
Proof. unfold len, le_bytes. now rewrite length_map, length_seq. Qed.

Lemma file_Write_ok f b f' :
  file_Write f b = (f', None) ->
  written f' = written f ++ b /\ room f' = room f - len b.
Proof.
  unfold file_Write. destruct (len b <=? room f); intros [= <-]; auto.
Qed.

Lemma file_Write_fits f b :
  len b <= room f ->
  file_Write f b = ({| written := written f ++ b; room := room f - len b |}, None).
Proof.
  intros Hfit. unfold file_Write.
  destruct (Z.leb_spec (len b) (room f)); [reflexivity | lia].
Qed.

Lemma and_then_ok r k f' :
  and_then r k = (f', None) -> exists f, r = (f, None) /\ k f = (f', None).
Proof. destruct r as [f [e|]]; simpl; intros Hk; [discriminate | eauto]. Qed.

Ltac write_steps :=
  repeat match goal with
  | H : and_then _ _ = (_, None) |- _ =>
      apply and_then_ok in H; destruct H as (? & ? & H)
  | H : binary_Write_uint32 _ _ = (_, None) |- _ =>
      unfold binary_Write_uint32 in H; rewrite PutUint32_le_bytes in H
  | H : binary_Write_int64 _ _ = (_, None) |- _ =>
      unfold binary_Write_int64 in H; rewrite PutUint64_le_bytes in H
  | H : file_Write _ _ = (_, None) |- _ =>
      apply file_Write_ok in H; destruct H as [? ?]
  end.

Lemma writeEntries_ok entries : forall f f',
  writeEntries entries f = (f', None) ->
  written f' = written f ++ concat (map layout_record entries).
Proof.
  induction entries as [|entry rest IH]; intros f f' Hw; simpl in Hw.
  - injection Hw as <-. simpl. now rewrite app_nil_r.
  - write_steps. apply IH in Hw. rewrite Hw.
    repeat match goal with Hx : written _ = _ |- _ => rewrite Hx; clear Hx end.
    simpl. unfold layout_record. now rewrite <- !app_assoc.
Qed.

Lemma writeBinary_ok data f f' :
  writeBinary data f = (f', None) ->
  written f' = written f ++ layout_binary (Timestamp data) (Entries data).
Proof.
  unfold writeBinary. intros Hw. write_steps. apply writeEntries_ok in Hw.
  rewrite Hw.
  repeat match goal with Hx : written _ = _ |- _ => rewrite Hx; clear Hx end.
  unfold layout_binary, BinaryMagic, BinaryVersion. now rewrite <- !app_assoc.
Qed.

Lemma len_layout_record entry :
  len (layout_record entry)
  = 8 + len (list_ascii_of_string (Key entry)) + len (Value entry).
Proof. unfold layout_record. rewrite !len_app, !len_le_bytes. lia. Qed.

(** Writes that fit the file succeed. *)
Ltac fits := cbn [room written]; rewrite ?len_le_bytes; lia.

Lemma writeEntries_fits entries : forall f,
  len (concat (map layout_record entries)) <= room f ->
  exists f', writeEntries entries f = (f', None).
Proof.
  induction entries as [|entry rest IH]; intros f Hfit; simpl.
  - eauto.
  - cbn [map concat] in Hfit. rewrite len_app, len_layout_record in Hfit.
    pose proof (len_nonneg (list_ascii_of_string (Key entry))).
    pose proof (len_nonneg (Value entry)).
    pose proof (len_nonneg (concat (map layout_record rest))).
    unfold binary_Write_uint32. rewrite !PutUint32_le_bytes.
    rewrite file_Write_fits by fits. simpl.
    rewrite file_Write_fits by fits. simpl.
    rewrite file_Write_fits by fits. simpl.
    rewrite file_Write_fits by fits. simpl.
    apply IH. fits.
Qed.

Lemma writeBinary_fits data f :
  len (layout_binary (Timestamp data) (Entries data)) <= room f ->
  exists f', writeBinary data f = (f', None).
Proof.
  intros Hfit. unfold layout_binary in Hfit.
  rewrite !len_app, !len_le_bytes in Hfit.
  pose proof (len_nonneg (concat (map layout_record (Entries data)))).
  unfold writeBinary, binary_Write_uint32, binary_Write_int64.
  rewrite !PutUint32_le_bytes, PutUint64_le_bytes.
  rewrite file_Write_fits by fits. simpl.
  rewrite file_Write_fits by fits. simpl.
  rewrite file_Write_fits by fits. simpl.
  rewrite file_Write_fits by fits. simpl.
  apply writeEntries_fits. fits.
Qed.

(** ** Reading a file *)

Lemma io_ReadFull_app a r : io_ReadFull (len a) (a ++ r) = Some (a, r).
Proof.
  unfold io_ReadFull. rewrite len_app.
  pose proof (len_nonneg r).
  destruct (Z.leb_spec (len a) (len a + len r)); [|lia].
  unfold len. rewrite Nat2Z.id.
  now rewrite take_app_length, drop_app_length.
Qed.

Lemma binary_Read_uint32_le v r :
  binary_Read_uint32 (le_bytes 4 v ++ r) = Some (uint32 v, r).
Proof.
  unfold binary_Read_uint32.
  change 4 with (Z.of_nat 4) at 1. rewrite <- (len_le_bytes 4 v).
  rewrite io_ReadFull_app, <- PutUint32_le_bytes, Uint32_PutUint32.
  unfold uint32. now rewrite Z.mod_mod by lia.
Qed.

Lemma Uint64_PutUint64 v : Uint64 (PutUint64 v) = uint64 v.
Proof.
  unfold Uint64, PutUint64, uint64. rewrite !of_to_byte.
  apply Z.bits_inj'. intros n Hn.
  rewrite !Z.lor_spec, !testbit_lane, testbit_lane0 by lia.
  assert (n < 8 \/ 8 <= n < 16 \/ 16 <= n < 24 \/ 24 <= n < 32 \/
          32 <= n < 40 \/ 40 <= n < 48 \/ 48 <= n < 56 \/ 56 <= n < 64 \/
          64 <= n)
    as [?|[?|[?|[?|[?|[?|[?|[?|?]]]]]]]] by lia; lanes v n.
Qed.

Lemma binary_Read_int64_le v r :
  binary_Read_int64 (le_bytes 8 v ++ r) = Some (int64 v, r).
Proof.
  unfold binary_Read_int64.
  change 8 with (Z.of_nat 8) at 1. rewrite <- (len_le_bytes 8 v).
  rewrite io_ReadFull_app, <- PutUint64_le_bytes, Uint64_PutUint64.
  unfold int64, uint64. now rewrite !Z.mod_mod by lia.
Qed.

(** ** The records of a binary snapshot, read back *)

Section LoaderFacts.
Context `{Engine E} `{JSONCodec}.

Lemma uint32_small v : 0 <= v < 2 ^ 32 -> uint32 v = v.
Proof. intros. unfold uint32. now apply Z.mod_small. Qed.

Lemma readEntries_record entry n (ng : NGCache E) rest :
  fits32 entry ->
  readEntries (S n) ng (layout_record entry ++ rest)
  = readEntries n
      (storeEntry ng (list_ascii_of_string (Key entry)) (Key entry) (Value entry))
      rest.
Proof.
  intros [Hk Hv]. cbn [readEntries]. unfold layout_record.
  rewrite <- !app_assoc, binary_Read_uint32_le.
  rewrite uint32_small by (split; [apply len_nonneg | assumption]).
  rewrite io_ReadFull_app, binary_Read_uint32_le.
  rewrite uint32_small by (split; [apply len_nonneg | assumption]).
  rewrite io_ReadFull_app.
  now rewrite string_of_list_ascii_of_string.
Qed.

Lemma readEntries_layout entries : forall n (ng : NGCache E) rest,
  Forall fits32 entries ->
  readEntries (length entries + n) ng
    (concat (map layout_record entries) ++ rest)
  = readEntries n (loadDocument ng entries) rest.
Proof.
  induction entries as [|entry more IH]; intros n ng rest Hfit.
  - reflexivity.
  - inversion Hfit as [|? ? Hentry Hmore]; subst.
    cbn [map concat length Nat.add]. rewrite <- app_assoc.
    rewrite readEntries_record by assumption.
    rewrite IH by assumption. reflexivity.
Qed.

Lemma persistData_storeEntry (ng : NGCache E) keyBytes key value :
  persistData (storeEntry ng keyBytes key value)
  = <[key := value]> (persistData ng).
Proof.
  unfold storeEntry. cbn [cache with_persistData].
  destruct (cache_Set _ _ _ _). reflexivity.
Qed.

Lemma persistData_loadDocument entries : forall ng : NGCache E,
  persistData (loadDocument ng entries) = insertEntries entries (persistData ng).
Proof.
  induction entries as [|entry more IH]; intros ng; [reflexivity|].
  unfold loadDocument, insertEntries in *. cbn [fold_left].
  rewrite IH, persistData_storeEntry. reflexivity.
Qed.

End LoaderFacts.

(** ** The map rebuilt from its entries *)

Lemma insertEntries_list_to_map entries :
  insertEntries entries ∅ = list_to_map (rev (map entry_pair entries)).
Proof.
  unfold insertEntries, list_to_map.
  rewrite <- fold_left_rev_right, <- map_rev.
  induction (rev entries) as [|entry more IH]; [reflexivity|].
  cbn [map foldr fold_right]. now rewrite IH.
Qed.

Lemma entry_pair_rangeMap m : map entry_pair (rangeMap m) = map_to_list m.
Proof.
  unfold rangeMap. rewrite map_map. rewrite <- (map_id (map_to_list m)) at 2.
  apply map_ext. now intros [k v].
Qed.

Lemma insertEntries_rangeMap (m : gmap string (list ascii)) entries :
  entries ≡ₚ rangeMap m -> insertEntries entries ∅ = m.
Proof.
  intros Hperm. rewrite insertEntries_list_to_map.
  transitivity (list_to_map (map_to_list m) : gmap string (list ascii));
    [|apply list_to_map_to_list].
  symmetry. apply list_to_map_proper.
  - apply NoDup_fst_map_to_list.
  - rewrite <- entry_pair_rangeMap, <- Hperm. apply Permutation_rev.
Qed.

(** ** The facade *)

Section FacadeFacts.
Context `{Engine E}.

Lemma persistData_setWithPersist (ng : NGCache E) key value expireSeconds :
  persistData (setWithPersist ng key value expireSeconds).1
  = if expireSeconds <=? 0 then <[key := value]> (persistData ng)
    else persistData ng.
Proof.
  unfold setWithPersist.
  destruct (expireSeconds <=? 0); destruct (cache_Set _ _ _ _); reflexivity.
Qed.

Lemma persistData_getWithPersist (ng : NGCache E) key :
  persistData (getWithPersist ng key).1 = persistData ng.
Proof.
  unfold getWithPersist.
  destruct (cache_Get _ _) as [c [value [e|]]]; [|reflexivity].
  destruct (persistData ng !! key); [|reflexivity].
  destruct (cache_Set _ _ _ _). reflexivity.
Qed.

Lemma persistData_GetPermanent (ng : NGCache E) key :
  persistData (GetPermanent ng key).1 = persistData ng.
Proof.
  unfold GetPermanent.
  destruct (cache_Get _ _) as [c [value [e|]]]; [|reflexivity].
  destruct (persistEnabled _); [|reflexivity].
  cbn [persistData with_cache].
  destruct (persistData ng !! _); [|reflexivity].
  destruct (cache_Set _ _ _ _). reflexivity.
Qed.

Lemma persistData_SetPermanent (ng : NGCache E) key value :
  persistData (SetPermanent ng key value).1 = persistData ng
  ∨ persistData (SetPermanent ng key value).1
    = <[string_of_list_ascii key := value]> (persistData ng).
Proof.
  unfold SetPermanent.
  destruct (cache_Set _ _ _ _) as [c [e|]]; [now left|].
  destruct (persistEnabled _); [now right | now left].
Qed.

End FacadeFacts.

(** The reference engine returns what it accepts. *)
Lemma RefEngine_retains_writes : retains_writes RefCache.
Proof.
  intros c c' key value ttl. cbn [cache_Set cache_Get RefEngine].
  unfold ref_Set, ref_Get.
  destruct (65535 <? len key); [discriminate|].
  destruct (maxEntry c <? len key + len value); [discriminate|].
  intros [= <-]. cbn [slots]. now rewrite lookup_insert_eq.
Qed.

(** Claim C1, as the code has it.  [Put(K, V, e)] with [e ≤ 0] puts [V] in
    the Permanent Store under [K] whatever the engine answers, then writes
    the engine with the caller's [e] itself (TTL 0 only when [e = 0]) and
    returns the engine's error.  The [Fetch(K)] that follows returns [V] with
    no error provided the engine, if it answers the lookup of [K], answers
    with [V]; it does after a write it accepted (on an engine that returns
    what it accepts), while after a write it refused it may still hold an
    older value of [K]. *)
Theorem Put_permanent_then_Fetch `{Engine E} (ng : NGCache E) (K : string)
    (V : list ascii) (e : Z) :
  e ≤ 0 →
  let put := setWithPersist ng K V e in
  let write := cache_Set (cache ng) (list_ascii_of_string K) V e in
  persistData put.1 = <[K := V]> (persistData ng)
  ∧ cache put.1 = write.1
  ∧ put.2 = write.2
  ∧ ((∀ c v, cache_Get write.1 (list_ascii_of_string K) = (c, (v, None)) → v = V)
     → (getWithPersist put.1 K).2 = (V, None))
  ∧ (retains_writes E → put.2 = None → (getWithPersist put.1 K).2 = (V, None)).
Proof.
  intros He put write. subst put write. unfold setWithPersist.
  destruct (Z.leb_spec e 0) as [_|Hgt]; [|lia].
  cbn [cache with_persistData].
  destruct (cache_Set (cache ng) (list_ascii_of_string K) V e) as [c err] eqn:Hset.
  cbn [fst snd cache with_cache persistData persistConfig].
  assert ((∀ c' v, cache_Get c (list_ascii_of_string K) = (c', (v, None)) → v = V)
          → (getWithPersist
               (with_cache (with_persistData ng (<[K := V]> (persistData ng))) c)
               K).2 = (V, None)) as Hfetch.
  { intros Hfaithful. unfold getWithPersist.
    cbn [cache with_cache persistData with_persistData].
    destruct (cache_Get c (list_ascii_of_string K)) as [c' [v [e'|]]] eqn:Hget.
    - rewrite lookup_insert_eq. destruct (cache_Set c' _ V 0). reflexivity.
    - cbn [snd]. now rewrite (Hfaithful c' v eq_refl). }
  repeat split; [exact Hfetch|].
  intros Hretains ->. apply Hfetch. intros c' v Hget.
  pose proof (Hretains _ _ _ _ _ Hset) as Hsame. rewrite Hget in Hsame.
  now injection Hsame.
Qed.

(** [Put("k", "ab", -1)] on an empty cache, then [Fetch("k")]. *)
Lemma Put_permanent_then_Fetch_witness :
  persistData (setWithPersist (fresh None) "k" (list_ascii_of_string "ab") (-1)).1
  = {[ "k"%string := list_ascii_of_string "ab" ]}
  ∧ (getWithPersist
       (setWithPersist (fresh None) "k" (list_ascii_of_string "ab") (-1)).1 "k").2
    = (list_ascii_of_string "ab", None).
Proof.
  destruct (Put_permanent_then_Fetch (fresh None) "k" (list_ascii_of_string "ab")
              (-1)) as (Hstore & _ & _ & _ & Hfetch); [lia|].
  split; [exact Hstore|].
  apply Hfetch; [exact RefEngine_retains_writes | reflexivity].
Defined.

(** Claim C1 as the specification words it fails on the reference engine.
    With ["k" ↦ "a"] in the cache, [Put("k", big_value, 0)] is refused by the
    engine for its size after the Permanent Store has taken the value, and
    [Fetch("k")] returns the ["a"] that the engine still holds.  And
    [Put("k", "a", -1)] writes the engine with TTL -1, not 0. *)
Lemma Put_then_Fetch_stale_or_other_TTL :
  (setWithPersist holds_a "k" big_value 0).2
    = Some ErrLargeEntry
  ∧ (getWithPersist
       (setWithPersist holds_a "k" big_value 0).1 "k").2
    = (list_ascii_of_string "a", None)
  ∧ ¬ Put_Fetch_as_specified holds_a "k" big_value 0
  ∧ ¬ Put_Fetch_as_specified (fresh None) "k" (list_ascii_of_string "a") (-1).
Proof.
  split; [reflexivity|]. split; [reflexivity|]. split.
  - intros Hclaim. destruct Hclaim as (_ & _ & Hfetch); [discriminate | lia |].
    vm_compute in Hfetch. discriminate.
  - intros Hclaim. destruct Hclaim as (_ & Hcache & _); [discriminate | lia |].
    vm_compute in Hcache. discriminate.
Qed.

(** Claim C2, as the code has it.  When [K] is in the Permanent Store with
    value [V] and the engine's lookup of [K] fails, [Fetch(K)] returns [V]
    with no error, leaves the Permanent Store as it is, and writes [K ↦ V]
    to the engine with TTL 0 without looking at the engine's answer.  A
    direct engine lookup of [K] succeeds afterwards when the engine accepted
    that write (and returns what it accepts). *)
Theorem Fetch_read_repair `{Engine E} (ng : NGCache E) (K : string)
    (V value : list ascii) (c : E) (e : error) :
  persistData ng !! K = Some V →
  cache_Get (cache ng) (list_ascii_of_string K) = (c, (value, Some e)) →
  let fetch := getWithPersist ng K in
  let refill := cache_Set c (list_ascii_of_string K) V 0 in
  fetch.2 = (V, None)
  ∧ persistData fetch.1 = persistData ng
  ∧ cache fetch.1 = refill.1
  ∧ (retains_writes E → refill.2 = None →
     (cache_Get (cache fetch.1) (list_ascii_of_string K)).2 = (V, None)).
Proof.
  intros Hstore Hmiss fetch refill. subst fetch refill.
  unfold getWithPersist. rewrite Hmiss, Hstore.
  destruct (cache_Set c (list_ascii_of_string K) V 0) as [c' err] eqn:Hset.
  cbn [fst snd cache with_cache persistData].
  repeat split. intros Hretains ->. exact (Hretains _ _ _ _ _ Hset).
Qed.

(** [Fetch("k")] when the Permanent Store has ["k" ↦ "ab"] and the engine
    has evicted the key. *)
Lemma Fetch_read_repair_witness :
  (getWithPersist evicted_ab "k").2 = (list_ascii_of_string "ab", None)
  ∧ (cache_Get (cache (getWithPersist evicted_ab "k").1)
       (list_ascii_of_string "k")).2
    = (list_ascii_of_string "ab", None).
Proof.
  destruct (Fetch_read_repair evicted_ab "k" (list_ascii_of_string "ab") []
              (cache evicted_ab) ErrNotFound)
    as (Hfetch & _ & _ & Hengine).
  - reflexivity.
  - reflexivity.
  - split; [exact Hfetch|].
    apply Hengine; [exact RefEngine_retains_writes | reflexivity].
Defined.

(** Claim C2 as the specification words it fails on the reference engine:
    ["k" ↦ big_value] is in the Permanent Store only, the engine having refused
    it for its size; [Fetch("k")] returns it, the engine refuses the
    re-insert as well, and its lookup of ["k"] still fails. *)
Lemma Fetch_read_repair_refused :
  persistData holds_big !! "k" = Some big_value
  ∧ (getWithPersist holds_big "k").2 = (big_value, None)
  ∧ (cache_Get (cache (getWithPersist holds_big "k").1)
       (list_ascii_of_string "k")).2 = ([], Some ErrNotFound)
  ∧ ¬ read_repair_as_specified holds_big "k".
Proof.
  split; [reflexivity|]. split; [reflexivity|]. split; [reflexivity|].
  intros Hclaim.
  destruct (Hclaim big_value) as [_ Hengine];
    [reflexivity | discriminate |].
  vm_compute in Hengine. discriminate.
Qed.

(** Claim C8.  When the value stored for a key has a length other than the
    width of the requested scalar (4 bytes for int32 and float32, 8 for
    int64 and float64, 1 for bool), the typed getter returns the zero value
    of its type together with [ErrInvalidType]. *)
Theorem typed_getters_reject_wrong_width `{Engine E} (ng ng' : NGCache E)
    (key : string) (data : list ascii) :
  getWithPersist ng key = (ng', (data, None)) →
  (len data ≠ 4 → GetInt32 ng key = (ng', (0, Some ErrInvalidType)))
  ∧ (len data ≠ 8 → GetInt64 ng key = (ng', (0, Some ErrInvalidType)))
  ∧ (len data ≠ 4 →
     GetFloat32 ng key = (ng', (Float32frombits 0, Some ErrInvalidType)))
  ∧ (len data ≠ 8 →
     GetFloat64 ng key = (ng', (Float64frombits 0, Some ErrInvalidType)))
  ∧ (len data ≠ 1 → GetBool ng key = (ng', (false, Some ErrInvalidType))).
Proof.
  intros Hfetch.
  unfold GetInt32, GetInt64, GetFloat32, GetFloat64, GetBool. rewrite Hfetch.
  repeat split; intros Hlen;
    match goal with
    | |- context [len data =? ?w] =>
        destruct (Z.eqb_spec (len data) w); [contradiction | reflexivity]
    end.
Qed.

(** The five getters on a key that holds the two bytes ["ab"]. *)
Lemma typed_getters_reject_wrong_width_witness :
  (GetInt32 holds_ab "k").2 = (0, Some ErrInvalidType)
  ∧ (GetInt64 holds_ab "k").2 = (0, Some ErrInvalidType)
  ∧ (GetFloat32 holds_ab "k").2 = (Float32frombits 0, Some ErrInvalidType)
  ∧ (GetFloat64 holds_ab "k").2 = (Float64frombits 0, Some ErrInvalidType)
  ∧ (GetBool holds_ab "k").2 = (false, Some ErrInvalidType).
Proof.
  destruct (typed_getters_reject_wrong_width holds_ab
              (getWithPersist holds_ab "k").1 "k" (list_ascii_of_string "ab"))
    as (H32 & H64 & Hf32 & Hf64 & Hbool); [reflexivity|].
  rewrite H32, H64, Hf32, Hf64, Hbool by (vm_compute; lia).
  repeat split.
Defined.

(** Claim C10.  [SetPermanent] returns the engine's error without touching
    the Permanent Store when the engine write fails; after a successful
    write it inserts the entry only if persistence is enabled (a non-nil
    configuration with [Enabled]), and otherwise changes the engine alone.
    With persistence off, [GetPermanent] answers a failed engine lookup with
    the engine's own error.  [Put] with [expireSeconds ≤ 0] records the entry
    in the Permanent Store in every case. *)
Theorem SetPermanent_is_gated `{Engine E} (ng : NGCache E)
    (key value : list ascii) :
  (∀ c e, cache_Set (cache ng) key value 0 = (c, Some e) →
     SetPermanent ng key value = (with_cache ng c, Some e))
  ∧ (∀ c, cache_Set (cache ng) key value 0 = (c, None) →
     persistEnabled ng = true →
     SetPermanent ng key value
     = (mkNGCache c (persistConfig ng)
          (<[string_of_list_ascii key := value]> (persistData ng)), None))
  ∧ (∀ c, cache_Set (cache ng) key value 0 = (c, None) →
     persistEnabled ng = false →
     SetPermanent ng key value = (with_cache ng c, None))
  ∧ (∀ c v e, persistEnabled ng = false →
     cache_Get (cache ng) key = (c, (v, Some e)) →
     GetPermanent ng key = (with_cache ng c, ([], Some e)))
  ∧ (∀ k e, e ≤ 0 →
     persistData (setWithPersist ng k value e).1 = <[k := value]> (persistData ng)).
Proof.
  repeat split.
  - intros c e Hset. unfold SetPermanent. now rewrite Hset.
  - intros c Hset Hon. unfold SetPermanent. rewrite Hset.
    unfold persistEnabled in *. cbn [persistConfig with_cache]. now rewrite Hon.
  - intros c Hset Hoff. unfold SetPermanent. rewrite Hset.
    unfold persistEnabled in *. cbn [persistConfig with_cache]. now rewrite Hoff.
  - intros c v e Hoff Hget. unfold GetPermanent. rewrite Hget.
    unfold persistEnabled in *. cbn [persistConfig with_cache]. now rewrite Hoff.
  - intros k e He. rewrite persistData_setWithPersist.
    destruct (Z.leb_spec e 0); [reflexivity | lia].
Qed.

(** [SetPermanent] of an entry that the engine refuses, of one it accepts
    with persistence enabled, and with persistence disabled; [GetPermanent]
    after an eviction with persistence disabled; [Put] with persistence
    disabled. *)
Lemma SetPermanent_is_gated_witness :
  SetPermanent (fresh (Some cfg_binary)) (list_ascii_of_string "k")
    big_value
  = (fresh (Some cfg_binary), Some ErrLargeEntry)
  ∧ persistData
      (SetPermanent (fresh (Some cfg_binary)) (list_ascii_of_string "k")
         (list_ascii_of_string "ab")).1
    = {[ "k"%string := list_ascii_of_string "ab" ]}
  ∧ persistData
      (SetPermanent (fresh (Some cfg_disabled)) (list_ascii_of_string "k")
         (list_ascii_of_string "ab")).1
    = ∅
  ∧ (GetPermanent evicted_off (list_ascii_of_string "k")).2
    = ([], Some ErrNotFound)
  ∧ persistData
      (setWithPersist (fresh (Some cfg_disabled)) "k"
         (list_ascii_of_string "ab") 0).1
    = {[ "k"%string := list_ascii_of_string "ab" ]}.
Proof.
  pose proof (SetPermanent_is_gated (fresh (Some cfg_binary))
                (list_ascii_of_string "k") big_value)
    as (Hrefused & _).
  pose proof (SetPermanent_is_gated (fresh (Some cfg_binary))
                (list_ascii_of_string "k") (list_ascii_of_string "ab"))
    as (_ & Hstored & _).
  pose proof (SetPermanent_is_gated (fresh (Some cfg_disabled))
                (list_ascii_of_string "k") (list_ascii_of_string "ab"))
    as (_ & _ & Hoff & _ & Hput).
  pose proof (SetPermanent_is_gated evicted_off
                (list_ascii_of_string "k") [])
    as (_ & _ & _ & Hmiss & _).
  split; [|split; [|split; [|split]]].
  - rewrite (Hrefused (cache (fresh (Some cfg_binary))) ErrLargeEntry)
      by (vm_compute; reflexivity).
    vm_compute; reflexivity.
  - erewrite Hstored by (vm_compute; reflexivity). vm_compute; reflexivity.
  - erewrite Hoff by (vm_compute; reflexivity). vm_compute; reflexivity.
  - erewrite (Hmiss _ [] ErrNotFound) by (vm_compute; reflexivity).
    reflexivity.
  - rewrite (Hput "k"%string 0) by lia. vm_compute; reflexivity.
Defined.

(** ** The Permanent Store along a history *)

Lemma insertEntries_keeps entries : ∀ (m : gmap string (list ascii)) k,
  is_Some (m !! k) → is_Some (insertEntries entries m !! k).
Proof.
  induction entries as [|entry more IH]; intros m k Hk; [exact Hk|].
  cbn [insertEntries fold_left]. apply IH.
  destruct (decide (Key entry = k)) as [->|Hne].
  - rewrite lookup_insert_eq. eauto.
  - now rewrite lookup_insert_ne.
Qed.

Section HistoryFacts.
Context `{Engine E} `{JSONCodec}.

Lemma persistData_readEntries n : ∀ (ng : NGCache E) r,
  ∃ entries,
    persistData (readEntries n ng r).1 = insertEntries entries (persistData ng).
Proof.
  induction n as [|n IH]; intros ng r; cbn [readEntries].
  - now exists [].
  - destruct (binary_Read_uint32 r) as [[keyLen r1]|]; [|now exists []].
    destruct (io_ReadFull keyLen r1) as [[keyBytes r2]|]; [|now exists []].
    destruct (binary_Read_uint32 r2) as [[valueLen r3]|]; [|now exists []].
    destruct (io_ReadFull valueLen r3) as [[valueBytes r4]|]; [|now exists []].
    destruct (IH (storeEntry ng keyBytes (string_of_list_ascii keyBytes) valueBytes) r4)
      as [entries Hentries].
    exists ({| Key := string_of_list_ascii keyBytes; Value := valueBytes |} :: entries).
    rewrite Hentries, persistData_storeEntry. reflexivity.
Qed.

Lemma persistData_readBinary (ng : NGCache E) r :
  ∃ entries,
    persistData (readBinary ng r).1 = insertEntries entries (persistData ng).
Proof.
  unfold readBinary.
  destruct (binary_Read_uint32 r) as [[magic r1]|]; [|now exists []].
  destruct (negb (magic =? BinaryMagic)); [now exists []|].
  destruct (binary_Read_uint32 r1) as [[version r2]|]; [|now exists []].
  destruct (negb (version =? BinaryVersion)); [now exists []|].
  destruct (binary_Read_int64 r2) as [[timestamp r3]|]; [|now exists []].
  destruct (binary_Read_uint32 r3) as [[entryCount r4]|]; [|now exists []].
  apply persistData_readEntries.
Qed.

Lemma persistData_loadFromPersist (ng : NGCache E) d :
  ∃ entries,
    persistData (loadFromPersist ng d).1 = insertEntries entries (persistData ng).
Proof.
  unfold loadFromPersist.
  destruct (persistConfig ng) as [cfg|]; [|now exists []].
  destruct (Enabled cfg); [|now exists []].
  destruct (files d !! persistPath cfg) as [file|] eqn:Hfile; [|now exists []].
  destruct (Format cfg =? FormatJSON).
  - unfold loadFromJSON. rewrite Hfile.
    destruct (json_Decode file) as [data|]; [|now exists []].
    exists (Entries data). apply persistData_loadDocument.
  - destruct (Format cfg =? FormatBinary); [|now exists []].
    unfold loadFromBinary. rewrite Hfile. apply persistData_readBinary.
Qed.

Lemma persistData_step (o : op E) (w : NGCache E * Disk) :
  o ≠ OpLoad →
  persistData (step o w).1 = persistData w.1
  ∨ ∃ k v, written_by o = Some (k, v)
           ∧ persistData (step o w).1 = <[k := v]> (persistData w.1).
Proof.
  destruct w as [ng d]. intros Hload.
  destruct o as [key value e|key|key value|key|now| |c]; cbn [step fst written_by].
  - rewrite persistData_setWithPersist.
    destruct (e <=? 0); [right; eauto | now left].
  - left. apply persistData_getWithPersist.
  - destruct (persistData_SetPermanent ng key value) as [->| ->];
      [now left | right; eauto].
  - left. apply persistData_GetPermanent.
  - now left.
  - contradiction.
  - now left.
Qed.

Lemma step_keeps (o : op E) (w : NGCache E * Disk) k :
  is_Some (persistData w.1 !! k) → is_Some (persistData (step o w).1 !! k).
Proof.
  intros Hk.
  assert (o = OpLoad ∨ o ≠ OpLoad) as [->|Hne]
    by (destruct o; auto; right; discriminate).
  - destruct w as [ng d]. cbn [step fst].
    destruct (persistData_loadFromPersist ng d) as [entries ->].
    now apply insertEntries_keeps.
  - destruct (persistData_step o w Hne) as [->|(k' & v & _ & ->)]; [exact Hk|].
    destruct (decide (k' = k)) as [->|Hkk].
    + rewrite lookup_insert_eq. eauto.
    + now rewrite lookup_insert_ne.
Qed.

End HistoryFacts.

(** Claim C9.  Along every history of operations (Put, Fetch,
    SetPermanent, GetPermanent, flush, load, and the engine changing on its
    own) a key of the Permanent Store stays in it.  A step other than the
    load leaves the map as it is or overwrites the one key the operation
    writes; the load only inserts entries.  [NewNGCache] starts from the
    empty map and fills it by one run of the loader, when persistence is
    enabled, and leaves it empty otherwise. *)
Theorem permanent_entries_only_overwritten `{Engine E} `{JSONCodec} :
  (∀ (ops : list (op E)) (w : NGCache E * Disk) k,
     is_Some (persistData w.1 !! k) →
     is_Some (persistData (run ops w).1 !! k))
  ∧ (∀ (o : op E) (w : NGCache E * Disk),
       o ≠ OpLoad →
       persistData (step o w).1 = persistData w.1
       ∨ ∃ k v, written_by o = Some (k, v)
                ∧ persistData (step o w).1 = <[k := v]> (persistData w.1))
  ∧ (∀ (w : NGCache E * Disk),
       ∃ entries,
         persistData (step OpLoad w).1 = insertEntries entries (persistData w.1))
  ∧ (∀ size config d,
       persistData (NewNGCache size config d)
       = match config with
         | Some cfg =>
             if Enabled cfg
             then persistData
                    (loadFromPersist (mkNGCache (NewCache size) config ∅) d).1
             else ∅
         | None => ∅
         end)
  ∧ (∀ size config d,
       ∃ entries,
         persistData (NewNGCache (E := E) size config d) = insertEntries entries ∅).
Proof.
  split; [|split; [|split; [|split]]].
  - induction ops as [|o ops IH]; intros w k Hk; [exact Hk|].
    cbn [run fold_left]. apply IH. now apply step_keeps.
  - intros o w. apply persistData_step.
  - intros [ng d]. apply persistData_loadFromPersist.
  - intros size [cfg|] d; [|reflexivity].
    unfold NewNGCache. now destruct (Enabled cfg).
  - intros size [cfg|] d; [|now exists []].
    unfold NewNGCache. destruct (Enabled cfg); [|now exists []].
    apply (persistData_loadFromPersist (mkNGCache (NewCache size) (Some cfg) ∅)).
Qed.

(** The key ["k"] along [history_k], and the step [Fetch("k")]. *)
Lemma permanent_entries_only_overwritten_witness :
  is_Some (persistData (run history_k start_k).1 !! "k")
  ∧ (persistData (step (OpFetch "k") start_k).1 = persistData start_k.1
     ∨ ∃ k v, written_by (OpFetch (E := RefCache) "k") = Some (k, v)
              ∧ persistData (step (OpFetch "k") start_k).1
                = <[k := v]> (persistData start_k.1)).
Proof.
  split.
  - apply (proj1 permanent_entries_only_overwritten history_k start_k "k").
    vm_compute. eauto.
  - apply (proj1 (proj2 permanent_entries_only_overwritten) (OpFetch "k") start_k).
    discriminate.
Defined.

(** The Permanent Store at the end of [history_k], and just after its
    load, which brings back the value that was flushed. *)
Example history_k_store :
  persistData (run history_k start_k).1
  = {[ "k"%string := list_ascii_of_string "e" ]}.
Proof. vm_compute. reflexivity. Qed.

Example history_k_after_load :
  persistData (run (take 7 history_k) start_k).1
  = {[ "k"%string := list_ascii_of_string "ab" ]}.
Proof. vm_compute. reflexivity. Qed.

(** ** The snapshot codec *)

Lemma os_Create_Some d path file :
  os_Create d path = Some file → file = {| written := []; room := quota d |}.
Proof. unfold os_Create. destruct (decide _); now intros [= <-]. Qed.

Lemma saveToBinary_ok filePath data d d' :
  saveToBinary filePath data d = (d', None) →
  files d' !! filePath = Some (layout_binary (Timestamp data) (Entries data)).
Proof.
  unfold saveToBinary.
  destruct (os_Create d filePath) as [file|] eqn:Hcreate; [|discriminate].
  apply os_Create_Some in Hcreate. subst file.
  destruct (writeBinary data _) as [f err] eqn:Hw.
  intros [= <- ->]. apply writeBinary_ok in Hw.
  cbn [os_Close files]. rewrite lookup_insert_eq, Hw. reflexivity.
Qed.

Lemma saveToBinary_fits filePath data d :
  is_Some (os_Create d filePath) →
  len (layout_binary (Timestamp data) (Entries data)) ≤ quota d →
  (saveToBinary filePath data d).2 = None.
Proof.
  intros [file Hcreate] Hfit. unfold saveToBinary. rewrite Hcreate.
  apply os_Create_Some in Hcreate. subst file.
  destruct (writeBinary_fits data {| written := []; room := quota d |} Hfit)
    as [f ->].
  reflexivity.
Qed.

(** *** The layout of the format and the layout of the code *)

Lemma uint32_field_fits n :
  0 ≤ n < 2 ^ 32 → uint32_field n = Some (le_bytes 4 n).
Proof.
  intros Hn. unfold uint32_field.
  destruct (Z.leb_spec 0 n); [|lia]. destruct (Z.ltb_spec n (2 ^ 32)); [|lia].
  reflexivity.
Qed.

Lemma uint32_field_large n : 2 ^ 32 ≤ n → uint32_field n = None.
Proof.
  intros Hn. unfold uint32_field.
  destruct (Z.ltb_spec n (2 ^ 32)); [lia|]. now rewrite andb_false_r.
Qed.

Lemma record_as_specified_fits entry :
  fits32 entry → record_as_specified entry = Some (layout_record entry).
Proof.
  intros [Hkey Hvalue]. unfold record_as_specified, layout_record.
  now rewrite !uint32_field_fits by (split; [apply len_nonneg | assumption]).
Qed.

Lemma records_as_specified_fits entries :
  Forall fits32 entries →
  records_as_specified entries = Some (concat (map layout_record entries)).
Proof.
  induction 1 as [|entry rest Hentry _ IH]; [reflexivity|].
  cbn [records_as_specified map concat].
  now rewrite record_as_specified_fits, IH.
Qed.

Lemma snapshot_as_specified_fits timestamp entries :
  len entries < 2 ^ 32 → Forall fits32 entries →
  snapshot_as_specified timestamp entries
  = Some (layout_binary timestamp entries).
Proof.
  intros Hcount Hfit. unfold snapshot_as_specified, layout_binary.
  rewrite uint32_field_fits by (split; [apply len_nonneg | assumption]).
  now rewrite records_as_specified_fits.
Qed.

(** Claim C6, as the code has it.  [saveToBinary] returns the create error
    and leaves the disk as it is when the file cannot be created, and
    returns no error when the file is created and the file system takes the
    bytes.  When it returns no error for a snapshot whose number of entries,
    key lengths and value lengths are below [2 ^ 32], the file holds exactly
    the little-endian layout of the format: the magic [0x4E474341] (the
    bytes ["ACGN"]) at offset 0, the version 1 at offset 4, the timestamp as
    an int64 at offset 8, the number of entries as a uint32 at offset 16, and
    from offset 20 on, for each entry in order, the uint32 length of the key,
    the key, the uint32 length of the value, and the value. *)
Theorem saveToBinary_layout (filePath : string) (data : PersistData) (d : Disk) :
  (os_Create d filePath = None →
   saveToBinary filePath data d = (d, Some ErrCreateBinary))
  ∧ (is_Some (os_Create d filePath) →
     len (layout_binary (Timestamp data) (Entries data)) ≤ quota d →
     (saveToBinary filePath data d).2 = None)
  ∧ ((saveToBinary filePath data d).2 = None →
     len (Entries data) < 2 ^ 32 →
     Forall fits32 (Entries data) →
     ∃ file,
       files (saveToBinary filePath data d).1 !! filePath = Some file
       ∧ snapshot_as_specified (Timestamp data) (Entries data) = Some file
       ∧ file = layout_binary (Timestamp data) (Entries data)
       ∧ take 4 file = le_bytes 4 0x4E474341
       ∧ le_bytes 4 0x4E474341 = list_ascii_of_string "ACGN"
       ∧ take 4 (drop 4 file) = le_bytes 4 1
       ∧ take 8 (drop 8 file) = le_bytes 8 (Timestamp data)
       ∧ take 4 (drop 16 file) = le_bytes 4 (len (Entries data))
       ∧ drop 20 file = concat (map layout_record (Entries data))).
Proof.
  split; [|split; [apply saveToBinary_fits|]].
  { intros Hcreate. unfold saveToBinary. now rewrite Hcreate. }
  destruct (saveToBinary filePath data d) as [d' err] eqn:Hsave.
  cbn [fst snd]. intros -> Hcount Hfit. apply saveToBinary_ok in Hsave.
  eexists. split; [exact Hsave|].
  split; [now apply snapshot_as_specified_fits|]. split; [reflexivity|].
  unfold layout_binary, le_bytes. cbn [seq map app take drop].
  repeat split.
Qed.

(** The snapshot of the single entry ["a" ↦ "x"] with timestamp 1, and the
    same in a directory that does not exist. *)
Lemma saveToBinary_layout_witness :
  ((saveToBinary "test.cat" doc_ax no_files).2 = None
   ∧ ∃ file,
       files (saveToBinary "test.cat" doc_ax no_files).1 !! "test.cat" = Some file
       ∧ snapshot_as_specified 1 (Entries doc_ax) = Some file
       ∧ file = layout_binary 1 (Entries doc_ax)
       ∧ take 4 file = le_bytes 4 0x4E474341
       ∧ le_bytes 4 0x4E474341 = list_ascii_of_string "ACGN"
       ∧ take 4 (drop 4 file) = le_bytes 4 1
       ∧ take 8 (drop 8 file) = le_bytes 8 1
       ∧ take 4 (drop 16 file) = le_bytes 4 1
       ∧ drop 20 file = concat (map layout_record (Entries doc_ax)))
  ∧ saveToBinary "sub/test.cat" doc_ax no_files
    = (no_files, Some ErrCreateBinary).
Proof.
  split.
  - destruct (saveToBinary_layout "test.cat" doc_ax no_files)
      as (_ & Hfits & Hlayout).
    assert ((saveToBinary "test.cat" doc_ax no_files).2 = None) as Hok.
    { apply Hfits; [vm_compute; eauto | vm_compute; discriminate]. }
    split; [exact Hok|].
    apply (Hlayout Hok); [vm_compute; reflexivity | repeat constructor].
  - apply (saveToBinary_layout "sub/test.cat" doc_ax no_files).
    vm_compute. reflexivity.
Defined.

(** The same file, byte by byte. *)
Example saveToBinary_bytes :
  files (saveToBinary "test.cat" doc_ax no_files).1 !! "test.cat"
  = Some (of_codes [ 0x41; 0x43; 0x47; 0x4E;  1; 0; 0; 0;
                     1; 0; 0; 0; 0; 0; 0; 0;  1; 0; 0; 0;
                     1; 0; 0; 0; 97;  1; 0; 0; 0; 120 ]%N).
Proof. vm_compute. reflexivity. Qed.

Lemma binary_Read_uint32_header header rest :
  length header = 4%nat →
  binary_Read_uint32 (header ++ rest) = Some (Uint32 header, rest).
Proof.
  intros Hlen. unfold binary_Read_uint32.
  replace 4 with (len header) by (unfold len; lia).
  now rewrite io_ReadFull_app.
Qed.

(** Claim C7.  [loadFromBinary] checks the magic before the version: a file
    whose first four bytes are not the magic fails with the invalid-magic
    error whatever follows them, and a file with the right magic and another
    version fails with the unsupported-version error.  The two errors differ,
    and so do their messages, which start with different texts. *)
Theorem loadFromBinary_magic_before_version `{Engine E} (ng : NGCache E)
    (filePath : string) (d : Disk) (first4 rest : list ascii) :
  files d !! filePath = Some (first4 ++ rest) →
  length first4 = 4%nat →
  (Uint32 first4 ≠ BinaryMagic →
   loadFromBinary ng filePath d = (ng, Some (ErrInvalidMagic (Uint32 first4))))
  ∧ (Uint32 first4 = BinaryMagic →
     ∀ next4 rest', rest = next4 ++ rest' → length next4 = 4%nat →
     Uint32 next4 ≠ BinaryVersion →
     loadFromBinary ng filePath d
     = (ng, Some (ErrUnsupportedVersion (Uint32 next4))))
  ∧ (∀ magic version,
     ErrInvalidMagic magic ≠ ErrUnsupportedVersion version
     ∧ ∀ s1 s2, error_text (ErrInvalidMagic magic) +:+ s1
                ≠ error_text (ErrUnsupportedVersion version) +:+ s2).
Proof.
  intros Hfile Hlen. unfold loadFromBinary, readBinary. rewrite Hfile.
  rewrite binary_Read_uint32_header by assumption.
  split; [|split].
  - intros Hmagic.
    destruct (Z.eqb_spec (Uint32 first4) BinaryMagic); [contradiction|reflexivity].
  - intros Hmagic next4 rest' -> Hlen' Hversion.
    rewrite Hmagic, Z.eqb_refl. cbn [negb].
    rewrite binary_Read_uint32_header by assumption.
    destruct (Z.eqb_spec (Uint32 next4) BinaryVersion); [contradiction|reflexivity].
  - intros magic version. split; [discriminate|].
    intros s1 s2. cbn. discriminate.
Qed.

(** A file with a wrong magic and a wrong version reports the magic; a file
    with the right magic and version 2 reports the version. *)
Lemma loadFromBinary_magic_before_version_witness :
  loadFromBinary (fresh (Some cfg_binary)) "./test.cat"
    (disk_with "./test.cat" file_bad_magic)
  = (fresh (Some cfg_binary), Some (ErrInvalidMagic 0x58585858))
  ∧ loadFromBinary (fresh (Some cfg_binary)) "./test.cat"
      (disk_with "./test.cat" file_bad_version)
    = (fresh (Some cfg_binary), Some (ErrUnsupportedVersion 2)).
Proof.
  split.
  - apply (loadFromBinary_magic_before_version (fresh (Some cfg_binary))
             "./test.cat" (disk_with "./test.cat" file_bad_magic)
             (take 4 file_bad_magic) (drop 4 file_bad_magic));
      [vm_compute; reflexivity | reflexivity | vm_compute; lia].
  - apply (proj1 (proj2 (loadFromBinary_magic_before_version
             (fresh (Some cfg_binary))
             "./test.cat" (disk_with "./test.cat" file_bad_version)
             (take 4 file_bad_version) (drop 4 file_bad_version)
             ltac:(vm_compute; reflexivity) eq_refl))
             ltac:(vm_compute; reflexivity)
             (take 4 (drop 4 file_bad_version)) (drop 8 file_bad_version));
      [reflexivity | reflexivity | vm_compute; lia].
Defined.

(** *** Round trip *)

Lemma Forall_fits32_entries (m : gmap string (list ascii)) entries :
  store_fits32 m → entries ≡ₚ rangeMap m → Forall fits32 entries.
Proof.
  intros [_ Hfit] Hperm. rewrite Hperm. unfold rangeMap.
  apply Forall_map, Forall_forall. intros [k v] Hin.
  apply (Hfit k v), elem_of_map_to_list, Hin.
Qed.

Lemma store_fits32_entries (m : gmap string (list ascii)) entries :
  entries ≡ₚ rangeMap m → len entries < 2 ^ 32 → Forall fits32 entries →
  store_fits32 m.
Proof.
  intros Hperm Hcount Hfit. split.
  - unfold len in Hcount. rewrite Hperm in Hcount. unfold rangeMap in Hcount.
    now rewrite length_map, length_map_to_list in Hcount.
  - intros k v Hkv. rewrite Hperm in Hfit. unfold rangeMap in Hfit.
    rewrite Forall_map, Forall_forall in Hfit.
    apply (Hfit (k, v)), elem_of_map_to_list, Hkv.
Qed.

Lemma length_entries (m : gmap string (list ascii)) entries :
  entries ≡ₚ rangeMap m → length entries = size m.
Proof.
  intros Hperm. rewrite Hperm. unfold rangeMap.
  now rewrite length_map, length_map_to_list.
Qed.

Lemma readBinary_layout `{Engine E} (ng : NGCache E) timestamp entries :
  len entries < 2 ^ 32 → Forall fits32 entries →
  readBinary ng (layout_binary timestamp entries) = (loadDocument ng entries, None).
Proof.
  intros Hcount Hfit. unfold readBinary, layout_binary.
  rewrite binary_Read_uint32_le. change (uint32 1313293121 =? BinaryMagic) with true.
  cbn [negb]. rewrite binary_Read_uint32_le.
  change (uint32 1 =? BinaryVersion) with true. cbn [negb].
  rewrite binary_Read_int64_le, <- (app_nil_r (concat _)), binary_Read_uint32_le.
  rewrite uint32_small by (split; [apply len_nonneg | assumption]).
  unfold len. rewrite Nat2Z.id, <- (Nat.add_0_r (length entries)).
  now rewrite readEntries_layout.
Qed.

Lemma saveToJSON_ok `{JSONCodec} filePath data d d' :
  saveToJSON filePath data d = (d', None) →
  files d' !! filePath = Some (json_Encode data).
Proof.
  unfold saveToJSON.
  destruct (os_Create d filePath) as [file|] eqn:Hcreate; [|discriminate].
  apply os_Create_Some in Hcreate. subst file.
  destruct (file_Write _ _) as [f err] eqn:Hw.
  intros [= <- ->]. apply file_Write_ok in Hw. destruct Hw as [Hw _].
  cbn [os_Close files]. now rewrite lookup_insert_eq, Hw.
Qed.

(** A flush that returns no error has made the directory and written the
    file in the format of the configuration. *)
Lemma saveEntries_ok `{JSONCodec} cfg now entries d d' :
  saveEntries cfg now entries d = (d', None) →
  (Format cfg = FormatJSON
   ∧ files d' !! persistPath cfg
     = Some (json_Encode {| Version := 1; Timestamp := now; Entries := entries |}))
  ∨ (Format cfg = FormatBinary
     ∧ files d' !! persistPath cfg = Some (layout_binary now entries)).
Proof.
  unfold saveEntries.
  destruct (os_MkdirAll d (persistDir cfg)) as [d1 [e|]]; [discriminate|].
  destruct (Z.eqb_spec (Format cfg) FormatJSON) as [Hjson|_].
  { intros Hsave. left. split; [exact Hjson|]. now apply saveToJSON_ok in Hsave. }
  destruct (Z.eqb_spec (Format cfg) FormatBinary) as [Hbin|_]; [|discriminate].
  intros Hsave. right. split; [exact Hbin|].
  now apply saveToBinary_ok in Hsave.
Qed.

Lemma load_after_save `{Engine E} `{JSONCodec}
    (m : gmap string (list ascii)) entries cfg size now d d' :
  Enabled cfg = true →
  entries ≡ₚ rangeMap m →
  saveEntries cfg now entries d = (d', None) →
  (Format cfg = FormatBinary ∧ store_fits32 m)
  ∨ (Format cfg = FormatJSON
     ∧ json_Decode
         (json_Encode {| Version := 1; Timestamp := now; Entries := entries |})
       = Some {| Version := 1; Timestamp := now; Entries := entries |}) →
  loadFromPersist (mkNGCache (NewCache size) (Some cfg) ∅) d'
  = (loadDocument (mkNGCache (NewCache size) (Some cfg) ∅) entries, None).
Proof.
  intros Hon Hperm Hsave Hformat.
  apply saveEntries_ok in Hsave. unfold loadFromPersist.
  cbn [persistConfig]. rewrite Hon.
  destruct Hformat as [[Hbin Hfit]|[Hjson Hcodec]].
  - destruct Hsave as [[Hjson _]|[_ Hfile]]; [rewrite Hbin in Hjson; discriminate|].
    rewrite Hbin, Hfile.
    change (FormatBinary =? FormatJSON) with false.
    change (FormatBinary =? FormatBinary) with true. cbv iota.
    unfold loadFromBinary. rewrite Hfile.
    apply readBinary_layout.
    + unfold len. rewrite (length_entries m) by assumption. apply Hfit.
    + now apply (Forall_fits32_entries m).
  - destruct Hsave as [[_ Hfile]|[Hbin _]]; [|rewrite Hjson in Hbin; discriminate].
    rewrite Hjson, Hfile. change (FormatJSON =? FormatJSON) with true. cbv iota.
    unfold loadFromJSON. now rewrite Hfile, Hcodec.
Qed.




(** *** A value of 4 GiB *)

Lemma len_long_value n : len (long_value n) = Z.of_nat n.
Proof. unfold len, long_value. now rewrite length_replicate. Qed.




Lemma saveToBinary_long_value n :
  Z.of_nat n + 29 ≤ 2 ^ 33 →
  (saveToBinary "./test.cat" (doc_long n) large_disk).2 = None
  ∧ files (saveToBinary "./test.cat" (doc_long n) large_disk).1 !! "./test.cat"
    = Some (layout_binary 0 [ {| Key := "k"; Value := long_value n |} ]).
Proof.
  intros Hroom.
  assert ((saveToBinary "./test.cat" (doc_long n) large_disk).2 = None) as Hok.
  { apply saveToBinary_fits; [vm_compute; eauto|]. unfold layout_binary.
    cbn [doc_long Timestamp Entries map concat].
    rewrite !len_app, !len_le_bytes, len_layout_record. cbn [Key Value].
    rewrite len_long_value. change (len []) with 0.
    change (len (list_ascii_of_string "k")) with 1.
    change (quota large_disk) with (2 ^ 33). lia. }
  split; [exact Hok|].
  destruct (saveToBinary "./test.cat" (doc_long n) large_disk) as [d' err] eqn:Hsave.
  cbn [snd] in Hok. subst err. now apply saveToBinary_ok in Hsave.
Qed.








Lemma layout_binary_one value :
  layout_binary 0 [ {| Key := "k"; Value := value |} ]
  = layout_header 0 1 ++ le_bytes 4 1 ++ list_ascii_of_string "k"
    ++ le_bytes 4 (len value) ++ value.
Proof.
  unfold layout_binary, layout_header, layout_record.
  cbn [map concat Key Value]. rewrite app_nil_r, <- !app_assoc. reflexivity.
Qed.

(** Claim C6 as the specification words it fails for a value of [2 ^ 32]
    bytes: the format has no length field for it, so no file has the
    specified layout, and [saveToBinary] returns no error and writes the
    length field of the value as 0 in front of the [2 ^ 32] bytes. *)
Lemma saveToBinary_wraps_4GiB_length :
  (saveToBinary "./test.cat" (doc_long (Z.to_nat (2 ^ 32))) large_disk).2 = None
  ∧ files (saveToBinary "./test.cat" (doc_long (Z.to_nat (2 ^ 32))) large_disk).1
      !! "./test.cat"
    = Some (layout_header 0 1
            ++ le_bytes 4 1 ++ list_ascii_of_string "k"
            ++ le_bytes 4 0 ++ long_value (Z.to_nat (2 ^ 32)))
  ∧ len (long_value (Z.to_nat (2 ^ 32))) = 2 ^ 32
  ∧ snapshot_as_specified 0 (Entries (doc_long (Z.to_nat (2 ^ 32)))) = None.
Proof.
  destruct (saveToBinary_long_value (Z.to_nat (2 ^ 32))) as [Hok Hfile].
  { rewrite Z2Nat.id by lia. lia. }
  assert (len (long_value (Z.to_nat (2 ^ 32))) = 2 ^ 32) as Hlen.
  { rewrite len_long_value. now rewrite Z2Nat.id by lia. }
  split; [exact Hok|]. split; [|split; [exact Hlen|]].
  - rewrite Hfile, layout_binary_one, Hlen.
    assert (le_bytes 4 (2 ^ 32) = le_bytes 4 0) as -> by (vm_compute; reflexivity).
    reflexivity.
  - unfold snapshot_as_specified. cbn [doc_long Entries records_as_specified].
    unfold record_as_specified. cbn [Key Value].
    rewrite Hlen, (uint32_field_large (2 ^ 32)) by lia.
    repeat destruct (uint32_field _); reflexivity.
Qed.

(** *** Failed loads *)

Section LoadFailures.
Context `{Engine E} `{JSONCodec}.

Lemma readEntries_error n : ∀ (ng : NGCache E) r e,
  (readEntries n ng r).2 = Some e → record_error e = true.
Proof.
  induction n as [|n IH]; intros ng r e; cbn [readEntries]; [discriminate|].
  destruct (binary_Read_uint32 r) as [[keyLen r1]|]; [|now intros [= <-]].
  destruct (io_ReadFull keyLen r1) as [[keyBytes r2]|]; [|now intros [= <-]].
  destruct (binary_Read_uint32 r2) as [[valueLen r3]|]; [|now intros [= <-]].
  destruct (io_ReadFull valueLen r3) as [[valueBytes r4]|]; [|now intros [= <-]].
  apply IH.
Qed.

Lemma readBinary_error (ng : NGCache E) r e :
  (readBinary ng r).2 = Some e → record_error e = false →
  (readBinary ng r).1 = ng.
Proof.
  unfold readBinary.
  destruct (binary_Read_uint32 r) as [[magic r1]|]; [|reflexivity].
  destruct (negb (magic =? BinaryMagic)); [reflexivity|].
  destruct (binary_Read_uint32 r1) as [[version r2]|]; [|reflexivity].
  destruct (negb (version =? BinaryVersion)); [reflexivity|].
  destruct (binary_Read_int64 r2) as [[timestamp r3]|]; [|reflexivity].
  destruct (binary_Read_uint32 r3) as [[entryCount r4]|]; [|reflexivity].
  intros Herr Hrec. apply readEntries_error in Herr. congruence.
Qed.

Lemma loadFromPersist_error (ng : NGCache E) d e :
  (loadFromPersist ng d).2 = Some e → record_error e = false →
  (loadFromPersist ng d).1 = ng.
Proof.
  unfold loadFromPersist.
  destruct (persistConfig ng) as [cfg|]; [|reflexivity].
  destruct (Enabled cfg); [|reflexivity].
  destruct (files d !! persistPath cfg) as [file|] eqn:Hfile; [|reflexivity].
  destruct (Format cfg =? FormatJSON).
  - unfold loadFromJSON. rewrite Hfile.
    destruct (json_Decode file); [discriminate | reflexivity].
  - destruct (Format cfg =? FormatBinary); [|reflexivity].
    unfold loadFromBinary. rewrite Hfile. apply readBinary_error.
Qed.

Lemma readBinary_truncated (ng : NGCache E) timestamp count entries :
  len entries < count < 2 ^ 32 → Forall fits32 entries →
  readBinary ng (layout_header timestamp count
                 ++ concat (map layout_record entries))
  = (loadDocument ng entries, Some ErrReadKeyLen).
Proof.
  intros Hcount Hfit. unfold readBinary, layout_header.
  rewrite <- !app_assoc.
  rewrite binary_Read_uint32_le. change (uint32 1313293121 =? BinaryMagic) with true.
  cbn [negb]. rewrite binary_Read_uint32_le.
  change (uint32 1 =? BinaryVersion) with true. cbn [negb].
  rewrite binary_Read_int64_le, binary_Read_uint32_le.
  pose proof (len_nonneg entries).
  rewrite uint32_small by lia.
  replace (Z.to_nat count)
    with (length entries + S (Z.to_nat (count - len entries - 1)))%nat
    by (unfold len in *; lia).
  rewrite <- (app_nil_r (concat _)), readEntries_layout by assumption.
  reflexivity.
Qed.

End LoadFailures.

(** Claim C4, as the code has it.  With persistence enabled, [NewNGCache]
    returns the cache as the loader left it and drops the loader's error.
    After a failure other than one inside the loop over the binary records
    that cache is the fresh one, with an empty Permanent Store; after a
    binary file that ends before the announced number of records, the
    Permanent Store holds the records that were read. *)
Theorem NewNGCache_discards_load_error `{Engine E} `{JSONCodec} (size : Z)
    (cfg : PersistConfig) (d : Disk) :
  Enabled cfg = true →
  NewNGCache size (Some cfg) d
  = (loadFromPersist (mkNGCache (NewCache size) (Some cfg) ∅) d).1
  ∧ (∀ e,
       (loadFromPersist (mkNGCache (NewCache size) (Some cfg) ∅) d).2 = Some e →
       record_error e = false →
       NewNGCache size (Some cfg) d = mkNGCache (NewCache size) (Some cfg) ∅)
  ∧ (∀ timestamp count entries,
       Format cfg = FormatBinary →
       files d !! persistPath cfg
       = Some (layout_header timestamp count
               ++ concat (map layout_record entries)) →
       len entries < count < 2 ^ 32 → Forall fits32 entries →
       (loadFromPersist (mkNGCache (NewCache size) (Some cfg) ∅) d).2
       = Some ErrReadKeyLen
       ∧ persistData (NewNGCache (E := E) size (Some cfg) d)
         = insertEntries entries ∅).
Proof.
  intros Hon. unfold NewNGCache. rewrite Hon. split; [reflexivity|]. split.
  - intros e Herr Hrec. now apply (loadFromPersist_error _ d e).
  - intros timestamp count entries Hbin Hfile Hcount Hfit.
    unfold loadFromPersist. cbn [persistConfig]. rewrite Hon, Hfile, Hbin.
    change (FormatBinary =? FormatJSON) with false.
    change (FormatBinary =? FormatBinary) with true. cbv iota.
    unfold loadFromBinary. rewrite Hfile.
    rewrite readBinary_truncated by assumption. cbn [fst snd].
    split; [reflexivity|]. apply persistData_loadDocument.
Qed.

(** Construction on a file with a wrong magic, and on a file cut after its
    first record. *)
Lemma NewNGCache_discards_load_error_witness :
  NewNGCache (E := RefCache) 1048576 (Some cfg_binary)
    (disk_with "./test.cat" file_bad_magic)
  = mkNGCache (NewCache 1048576) (Some cfg_binary) ∅
  ∧ (loadFromPersist (mkNGCache (NewCache (E := RefCache) 1048576) (Some cfg_binary) ∅)
       (disk_with "./test.cat" file_truncated)).2 = Some ErrReadKeyLen
  ∧ persistData
      (NewNGCache (E := RefCache) 1048576 (Some cfg_binary)
         (disk_with "./test.cat" file_truncated))
    = insertEntries (Entries doc_ax) ∅.
Proof.
  split.
  - apply (proj1 (proj2 (NewNGCache_discards_load_error 1048576 cfg_binary
             (disk_with "./test.cat" file_bad_magic) eq_refl))
             (ErrInvalidMagic 0x58585858));
      [vm_compute; reflexivity | reflexivity].
  - apply (proj2 (proj2 (NewNGCache_discards_load_error 1048576 cfg_binary
             (disk_with "./test.cat" file_truncated) eq_refl))
             1 2 (Entries doc_ax));
      [reflexivity | vm_compute; reflexivity | vm_compute; split; reflexivity
       | repeat constructor].
Defined.

(** Claim C4 as the specification words it fails: on a snapshot with a
    wrong magic the loader returns its error, and [NewNGCache] returns the
    very cache it returns when there is no snapshot file; on a snapshot cut
    after its first record it returns a cache holding that record. *)
Lemma NewNGCache_hides_load_error :
  (loadFromPersist (mkNGCache (NewCache (E := RefCache) 1048576) (Some cfg_binary) ∅)
     (disk_with "./test.cat" file_bad_magic)).2
  = Some (ErrInvalidMagic 0x58585858)
  ∧ NewNGCache (E := RefCache) 1048576 (Some cfg_binary)
      (disk_with "./test.cat" file_bad_magic)
    = NewNGCache 1048576 (Some cfg_binary) no_files
  ∧ persistData
      (NewNGCache (E := RefCache) 1048576 (Some cfg_binary)
         (disk_with "./test.cat" file_truncated))
    = {[ "a"%string := list_ascii_of_string "x" ]}
  ∧ ¬ load_failure_is_reported (E := RefCache) 1048576 cfg_binary
        (disk_with "./test.cat" file_bad_magic).
Proof.
  split; [vm_compute; reflexivity|]. split; [vm_compute; reflexivity|].
  split; [vm_compute; reflexivity|].
  intros Hclaim. apply (Hclaim ltac:(vm_compute; discriminate) no_files).
  - vm_compute. reflexivity.
  - vm_compute. reflexivity.
Qed.

(** Claim C5, evaluated on the code.  [loadFromJSON] does not look at the
    version of the document: a document that parses and whose version is not
    1 is loaded without error, and its entries are in the Permanent Store
    afterwards. *)
Theorem loadFromJSON_accepts_any_version `{Engine E} `{JSONCodec}
    (ng : NGCache E) (filePath : string) (d : Disk) (file : list ascii)
    (data : PersistData) :
  files d !! filePath = Some file →
  json_Decode file = Some data →
  Version data ≠ 1 →
  loadFromJSON ng filePath d = (loadDocument ng (Entries data), None)
  ∧ persistData (loadFromJSON ng filePath d).1
    = insertEntries (Entries data) (persistData ng).
Proof.
  intros Hfile Hdata _. unfold loadFromJSON. rewrite Hfile, Hdata.
  split; [reflexivity|]. apply persistData_loadDocument.
Qed.

(** The JSON text of a document of version 2 with the entry ["a" ↦ "x"]. *)
Lemma loadFromJSON_accepts_any_version_witness :
  (loadFromJSON (fresh (Some cfg_json)) "./cache_data/ngcache.json"
     (disk_with "./cache_data/ngcache.json" (json_Encode doc_version2))).2 = None
  ∧ persistData
      (loadFromJSON (fresh (Some cfg_json)) "./cache_data/ngcache.json"
         (disk_with "./cache_data/ngcache.json" (json_Encode doc_version2))).1
    = {[ "a"%string := list_ascii_of_string "x" ]}.
Proof.
  destruct (loadFromJSON_accepts_any_version (fresh (Some cfg_json))
              "./cache_data/ngcache.json"
              (disk_with "./cache_data/ngcache.json" (json_Encode doc_version2))
              (json_Encode doc_version2) doc_version2)
    as [Hload Hstore];
    [vm_compute; reflexivity | vm_compute; reflexivity | vm_compute; lia |].
  split; [now rewrite Hload | rewrite Hstore; vm_compute; reflexivity].
Defined.

(** ** Scenarios

    The test of the repository ([TestPersistence], then [TestPersistenceLoad]
    on the file it left) and two properties of section 8 of the
    specification, run on the reference engine. *)

Example TestPersistence_then_Load :
  let nc := NewNGCache (E := RefCache) 1048576 (Some cfg_binary) no_files in
  let nc := (SetString nc "string" "test" 0).1 in
  let nc := (SetBool nc "bool" true 0).1 in
  let nc := (SetInt32 nc "int" 1 0).1 in
  let nc := (SetFloat32 nc "float" (Float32frombits 0x3F7D70A4) 0).1 in
  let disk := (Close nc 1700000000 no_files).1 in
  let nc' := NewNGCache (E := RefCache) 1048576 (Some cfg_binary) disk in
  (GetString nc' "string").2 = ("test"%string, None)
  ∧ (GetBool nc' "bool").2 = (true, None)
  ∧ (GetInt32 nc' "int").2 = (1, None)
  ∧ (GetFloat32 nc' "float").2 = (Float32frombits 0x3F7D70A4, None).
Proof. vm_compute. repeat split. Qed.

Example Fetch_never_written :
  (getWithPersist (fresh (Some cfg_binary)) "missing").2
  = ([], Some ErrKeyNotFound).
Proof. reflexivity. Qed.

Example SetInt32_negative :
  let nc := NewNGCache (E := RefCache) 1048576 None no_files in
  (GetInt32 (SetInt32 nc "n" (-2) 60).1 "n").2 = (-2, None)
  ∧ (getWithPersist (SetInt32 nc "n" (-2) 60).1 "n").2.1
    = of_codes [254; 255; 255; 255]%N.
Proof. vm_compute. split; reflexivity. Qed.

(** * Further properties *)

(** ** Reading through the two tiers *)

(** Fetch of a key that neither tier has: whatever error the engine gave,
    the caller gets [ErrKeyNotFound] with a nil value, the engine is not
    written and the Permanent Store stays as it is; every typed getter
    returns the zero value of its type with that error. *)
Theorem Fetch_misses_both_tiers `{Engine E} (ng : NGCache E) (key : string)
    (c : E) (value : list ascii) (e : error) :
  cache_Get (cache ng) (list_ascii_of_string key) = (c, (value, Some e)) →
  persistData ng !! key = None →
  getWithPersist ng key = (with_cache ng c, ([], Some ErrKeyNotFound))
  ∧ GetString ng key = (with_cache ng c, (EmptyString, Some ErrKeyNotFound))
  ∧ GetInt32 ng key = (with_cache ng c, (0, Some ErrKeyNotFound))
  ∧ GetInt64 ng key = (with_cache ng c, (0, Some ErrKeyNotFound))
  ∧ GetBool ng key = (with_cache ng c, (false, Some ErrKeyNotFound))
  ∧ GetFloat32 ng key
    = (with_cache ng c, (Float32frombits 0, Some ErrKeyNotFound))
  ∧ GetFloat64 ng key
    = (with_cache ng c, (Float64frombits 0, Some ErrKeyNotFound)).
Proof.
  intros Hmiss Hnone.
  assert (getWithPersist ng key = (with_cache ng c, ([], Some ErrKeyNotFound)))
    as Hfetch.
  { unfold getWithPersist. now rewrite Hmiss, Hnone. }
  unfold GetString, GetInt32, GetInt64, GetBool, GetFloat32, GetFloat64.
  rewrite Hfetch. repeat split.
Qed.

Lemma Fetch_misses_both_tiers_witness :
  getWithPersist (fresh (Some cfg_binary)) "missing"
  = (fresh (Some cfg_binary), ([], Some ErrKeyNotFound))
  ∧ (GetInt64 (fresh (Some cfg_binary)) "missing").2 = (0, Some ErrKeyNotFound).
Proof.
  destruct (Fetch_misses_both_tiers (fresh (Some cfg_binary)) "missing"
              (cache (fresh (Some cfg_binary))) [] ErrNotFound)
    as (Hfetch & _ & _ & H64 & _);
    [vm_compute; reflexivity | vm_compute; reflexivity |].
  rewrite Hfetch, H64. split; vm_compute; reflexivity.
Defined.

(** A key of the Permanent Store is never reported missing.  When the engine
    answers the lookup, Fetch returns the engine's value, whatever the
    Permanent Store holds, and writes nothing; when the engine fails, Fetch
    returns the stored value.  In both cases there is no error and the
    Permanent Store is unchanged. *)
Theorem permanent_key_is_always_found `{Engine E} (ng : NGCache E)
    (K : string) (V : list ascii) :
  persistData ng !! K = Some V →
  (getWithPersist ng K).2.2 = None
  ∧ persistData (getWithPersist ng K).1 = persistData ng
  ∧ (∀ c v, cache_Get (cache ng) (list_ascii_of_string K) = (c, (v, None)) →
       getWithPersist ng K = (with_cache ng c, (v, None)))
  ∧ (∀ c v e, cache_Get (cache ng) (list_ascii_of_string K) = (c, (v, Some e)) →
       (getWithPersist ng K).2 = (V, None)).
Proof.
  intros Hstore. unfold getWithPersist. rewrite Hstore.
  destruct (cache_Get (cache ng) (list_ascii_of_string K)) as [c [v [e|]]].
  - destruct (cache_Set c (list_ascii_of_string K) V 0) as [c' err].
    repeat split; intros; simplify_eq; reflexivity.
  - repeat split; intros; simplify_eq; reflexivity.
Qed.

Lemma permanent_key_is_always_found_witness :
  (getWithPersist evicted_ab "k").2.2 = None
  ∧ (getWithPersist holds_big "k").2 = (big_value, None).
Proof.
  split.
  - apply (permanent_key_is_always_found evicted_ab "k" (list_ascii_of_string "ab")).
    vm_compute. reflexivity.
  - apply (proj2 (proj2 (proj2 (permanent_key_is_always_found holds_big "k"
             big_value ltac:(vm_compute; reflexivity))))
             (cache holds_big) [] ErrNotFound).
    vm_compute. reflexivity.
Defined.

(** ** Writes with a TTL *)

(** [Put] with [expireSeconds > 0] goes to the engine only: the Permanent
    Store is unchanged, and so is every later flush.  It does not retire an
    older permanent value of the key: once the engine has lost the key, Fetch
    returns that older value again; without one, Fetch reports the key
    missing. *)
Theorem Put_with_TTL_bypasses_the_store `{Engine E} `{JSONCodec}
    (ng : NGCache E) (K : string) (V : list ascii) (e : Z) :
  0 < e →
  persistData (setWithPersist ng K V e).1 = persistData ng
  ∧ setWithPersist ng K V e
    = (with_cache ng (cache_Set (cache ng) (list_ascii_of_string K) V e).1,
       (cache_Set (cache ng) (list_ascii_of_string K) V e).2)
  ∧ (∀ now d,
       saveToPersist (setWithPersist ng K V e).1 now d = saveToPersist ng now d)
  ∧ (∀ (c c' : E) v err old,
       cache_Get c (list_ascii_of_string K) = (c', (v, Some err)) →
       persistData ng !! K = Some old →
       (getWithPersist (with_cache (setWithPersist ng K V e).1 c) K).2
       = (old, None))
  ∧ (∀ (c c' : E) v err,
       cache_Get c (list_ascii_of_string K) = (c', (v, Some err)) →
       persistData ng !! K = None →
       (getWithPersist (with_cache (setWithPersist ng K V e).1 c) K).2
       = ([], Some ErrKeyNotFound)).
Proof.
  intros He. unfold setWithPersist.
  destruct (Z.leb_spec e 0) as [Hle|_]; [lia|].
  destruct (cache_Set (cache ng) (list_ascii_of_string K) V e) as [c0 err0].
  cbn [fst snd]. split; [reflexivity|]. split; [reflexivity|].
  split; [reflexivity|]. split.
  - intros c c' v err old Hmiss Hold. unfold getWithPersist.
    cbn [cache with_cache persistData]. rewrite Hmiss, Hold.
    destruct (cache_Set c' _ old 0). reflexivity.
  - intros c c' v err Hmiss Hnone. unfold getWithPersist.
    cbn [cache with_cache persistData]. now rewrite Hmiss, Hnone.
Qed.

(** ["k" ↦ "cd"] for a minute over the permanent ["k" ↦ "ab"], and over
    nothing. *)
Lemma Put_with_TTL_bypasses_the_store_witness :
  persistData (setWithPersist holds_ab "k" (list_ascii_of_string "cd") 60).1
  = persistData holds_ab
  ∧ (getWithPersist
       (with_cache (setWithPersist holds_ab "k" (list_ascii_of_string "cd") 60).1
          (ref_evict (cache holds_ab) (list_ascii_of_string "k"))) "k").2
    = (list_ascii_of_string "ab", None)
  ∧ (getWithPersist
       (with_cache
          (setWithPersist (fresh None) "k" (list_ascii_of_string "cd") 60).1
          (NewCache 1048576)) "k").2
    = ([], Some ErrKeyNotFound).
Proof.
  split; [|split].
  - apply (Put_with_TTL_bypasses_the_store holds_ab "k"
             (list_ascii_of_string "cd") 60). lia.
  - apply (proj1 (proj2 (proj2 (proj2
             (Put_with_TTL_bypasses_the_store holds_ab "k"
                (list_ascii_of_string "cd") 60 ltac:(lia)))))
             (ref_evict (cache holds_ab) (list_ascii_of_string "k"))
             (ref_evict (cache holds_ab) (list_ascii_of_string "k"))
             [] ErrNotFound);
      vm_compute; reflexivity.
  - apply (proj2 (proj2 (proj2 (proj2
             (Put_with_TTL_bypasses_the_store (fresh None) "k"
                (list_ascii_of_string "cd") 60 ltac:(lia)))))
             (NewCache 1048576) (NewCache 1048576) [] ErrNotFound);
      vm_compute; reflexivity.
Defined.

(** ** Typed accessors *)

Section TypedFacts.
Context `{Engine E}.

Lemma Fetch_after_accepted_Put (ng : NGCache E) K V e :
  retains_writes E →
  (setWithPersist ng K V e).2 = None →
  ∃ ng', getWithPersist (setWithPersist ng K V e).1 K = (ng', (V, None)).
Proof.
  intros Hretains. unfold setWithPersist.
  set (ng1 := if e <=? 0 then _ else _).
  destruct (cache_Set (cache ng1) (list_ascii_of_string K) V e) as [c err] eqn:Hset.
  cbn [fst snd]. intros ->. pose proof (Hretains _ _ _ _ _ Hset) as Hget.
  unfold getWithPersist. cbn [cache with_cache].
  destruct (cache_Get c (list_ascii_of_string K)) as [c' [v err]].
  cbn [snd] in Hget. injection Hget as -> ->. eauto.
Qed.

Lemma int32_in_range v : - 2 ^ 31 ≤ v < 2 ^ 31 → int32 (uint32 v) = v.
Proof.
  intros Hv. unfold int32, uint32. rewrite Z.mod_mod by lia.
  destruct (Z.ltb_spec (v mod 2 ^ 32) (2 ^ 31)) as [Hlt|Hge].
  - destruct (Z.le_gt_cases 0 v) as [Hpos|Hneg].
    + apply Z.mod_small. lia.
    + rewrite <- (Z.mod_add v 1) in Hlt by lia.
      rewrite Z.mod_small in Hlt by lia. lia.
  - destruct (Z.le_gt_cases 0 v) as [Hpos|Hneg].
    + rewrite Z.mod_small in Hge by lia. lia.
    + rewrite <- (Z.mod_add v 1) by lia. rewrite Z.mod_small by lia. lia.
Qed.

Lemma int64_in_range v : - 2 ^ 63 ≤ v < 2 ^ 63 → int64 (uint64 v) = v.
Proof.
  intros Hv. unfold int64, uint64. rewrite Z.mod_mod by lia.
  destruct (Z.ltb_spec (v mod 2 ^ 64) (2 ^ 63)) as [Hlt|Hge].
  - destruct (Z.le_gt_cases 0 v) as [Hpos|Hneg].
    + apply Z.mod_small. lia.
    + rewrite <- (Z.mod_add v 1) in Hlt by lia.
      rewrite Z.mod_small in Hlt by lia. lia.
  - destruct (Z.le_gt_cases 0 v) as [Hpos|Hneg].
    + rewrite Z.mod_small in Hge by lia. lia.
    + rewrite <- (Z.mod_add v 1) by lia. rewrite Z.mod_small by lia. lia.
Qed.

Lemma uint32_uint32 v : uint32 (uint32 v) = uint32 v.
Proof. unfold uint32. now rewrite Z.mod_mod by lia. Qed.

Lemma uint64_uint64 v : uint64 (uint64 v) = uint64 v.
Proof. unfold uint64. now rewrite Z.mod_mod by lia. Qed.

End TypedFacts.

(** A scalar that was written and accepted by the engine (one that returns
    what it accepts) is read back by the getter of its type, whatever the
    TTL: an int32 and an int64 of the range of their type, a bool, and a
    float32 and a float64 by their bit patterns. *)
Theorem scalars_round_trip `{Engine E} (ng : NGCache E) (key : string) (e : Z) :
  retains_writes E →
  (∀ v, - 2 ^ 31 ≤ v < 2 ^ 31 → (SetInt32 ng key v e).2 = None →
     (GetInt32 (SetInt32 ng key v e).1 key).2 = (v, None))
  ∧ (∀ v, - 2 ^ 63 ≤ v < 2 ^ 63 → (SetInt64 ng key v e).2 = None →
     (GetInt64 (SetInt64 ng key v e).1 key).2 = (v, None))
  ∧ (∀ b, (SetBool ng key b e).2 = None →
     (GetBool (SetBool ng key b e).1 key).2 = (b, None))
  ∧ (∀ bits, 0 ≤ bits < 2 ^ 32 →
     (SetFloat32 ng key (Float32frombits bits) e).2 = None →
     (GetFloat32 (SetFloat32 ng key (Float32frombits bits) e).1 key).2
     = (Float32frombits bits, None))
  ∧ (∀ bits, 0 ≤ bits < 2 ^ 64 →
     (SetFloat64 ng key (Float64frombits bits) e).2 = None →
     (GetFloat64 (SetFloat64 ng key (Float64frombits bits) e).1 key).2
     = (Float64frombits bits, None)).
Proof.
  intros Hretains. repeat split.
  - intros v Hv Hok. unfold GetInt32, SetInt32 in *.
    destruct (Fetch_after_accepted_Put ng key _ e Hretains Hok) as [ng' ->].
    cbn [snd]. now rewrite Uint32_PutUint32, uint32_uint32, int32_in_range.
  - intros v Hv Hok. unfold GetInt64, SetInt64 in *.
    destruct (Fetch_after_accepted_Put ng key _ e Hretains Hok) as [ng' ->].
    cbn [snd]. now rewrite Uint64_PutUint64, uint64_uint64, int64_in_range.
  - intros b Hok. unfold GetBool, SetBool in *.
    destruct (Fetch_after_accepted_Put ng key _ e Hretains Hok) as [ng' ->].
    now destruct b.
  - intros bits Hbits Hok. unfold GetFloat32, SetFloat32 in *.
    cbn [float32bits] in *.
    destruct (Fetch_after_accepted_Put ng key _ e Hretains Hok) as [ng' ->].
    cbn [snd]. rewrite Uint32_PutUint32. unfold uint32.
    now rewrite Z.mod_small.
  - intros bits Hbits Hok. unfold GetFloat64, SetFloat64 in *.
    cbn [float64bits] in *.
    destruct (Fetch_after_accepted_Put ng key _ e Hretains Hok) as [ng' ->].
    cbn [snd]. rewrite Uint64_PutUint64. unfold uint64.
    now rewrite Z.mod_small.
Qed.

Lemma scalars_round_trip_witness :
  (GetInt32 (SetInt32 (fresh None) "n" (-2) 60).1 "n").2 = (-2, None)
  ∧ (GetInt64 (SetInt64 (fresh None) "n" 1700000000000 0).1 "n").2
    = (1700000000000, None)
  ∧ (GetBool (SetBool (fresh None) "n" true 0).1 "n").2 = (true, None)
  ∧ (GetFloat32 (SetFloat32 (fresh None) "n" (Float32frombits 0x3F7D70A4) 0).1
       "n").2 = (Float32frombits 0x3F7D70A4, None)
  ∧ (GetFloat64
       (SetFloat64 (fresh None) "n" (Float64frombits 0x4058FF5C28F5C28F) 0).1
       "n").2 = (Float64frombits 0x4058FF5C28F5C28F, None).
Proof.
  pose proof (scalars_round_trip (fresh None) "n" 60 RefEngine_retains_writes)
    as (H32 & _).
  pose proof (scalars_round_trip (fresh None) "n" 0 RefEngine_retains_writes)
    as (_ & H64 & Hbool & Hf32 & Hf64).
  split; [apply H32; [lia | reflexivity]|].
  split; [apply H64; [lia | reflexivity]|].
  split; [apply Hbool; reflexivity|].
  split; [apply Hf32; [lia | reflexivity] | apply Hf64; [lia | reflexivity]].
Defined.

(** A string and a byte sequence that were written and accepted by the
    engine are read back as they were written, the empty ones included;
    [GetString] accepts whatever bytes the key holds. *)
Theorem strings_round_trip `{Engine E} (ng : NGCache E) (key : string) (e : Z) :
  retains_writes E →
  (∀ s, (SetString ng key s e).2 = None →
     (GetString (SetString ng key s e).1 key).2 = (s, None))
  ∧ (∀ b, (SetBytes ng key b e).2 = None →
     (GetBytes (SetBytes ng key b e).1 key).2 = (b, None))
  ∧ (∀ (ng1 ng' : NGCache E) data,
     getWithPersist ng1 key = (ng', (data, None)) →
     GetString ng1 key = (ng', (string_of_list_ascii data, None))).
Proof.
  intros Hretains. repeat split.
  - intros s Hok. unfold GetString, SetString in *.
    destruct (Fetch_after_accepted_Put ng key _ e Hretains Hok) as [ng' ->].
    cbn [snd]. now rewrite string_of_list_ascii_of_string.
  - intros b Hok. unfold GetBytes, SetBytes in *.
    now destruct (Fetch_after_accepted_Put ng key _ e Hretains Hok) as [ng' ->].
  - intros ng1 ng' data Hfetch. unfold GetString. now rewrite Hfetch.
Qed.

Lemma strings_round_trip_witness :
  (GetString (SetString (fresh None) "username" "张三" 0).1 "username").2
  = ("张三"%string, None)
  ∧ (GetString (SetString (fresh None) "username" "" 0).1 "username").2
    = (EmptyString, None)
  ∧ (GetBytes (SetBytes (fresh None) "raw" (of_codes [0; 255]%N) 5).1 "raw").2
    = (of_codes [0; 255]%N, None).
Proof.
  pose proof (strings_round_trip (fresh None) "username" 0
                RefEngine_retains_writes) as (Hstring & _).
  pose proof (strings_round_trip (fresh None) "raw" 5
                RefEngine_retains_writes) as (_ & Hbytes & _).
  split; [apply Hstring; reflexivity|].
  split; [apply Hstring; reflexivity | apply Hbytes; reflexivity].
Defined.

(** No type is stored with a value, only its bytes.  A getter accepts what
    any setter of the same width wrote: an int32 is read as the float32 with
    its bits, a float64 as the int64 with its bits, and eight bytes of an
    int64 as a string.  [GetBool] accepts every single byte and answers
    [true] for the byte 1 only. *)
Theorem getters_accept_any_value_of_their_width `{Engine E} (ng : NGCache E)
    (key : string) (e : Z) :
  retains_writes E →
  (∀ v, (SetInt32 ng key v e).2 = None →
     (GetFloat32 (SetInt32 ng key v e).1 key).2
     = (Float32frombits (uint32 v), None))
  ∧ (∀ f, (SetFloat64 ng key f e).2 = None →
     (GetInt64 (SetFloat64 ng key f e).1 key).2 = (int64 (float64bits f), None))
  ∧ (∀ v, (SetInt64 ng key v e).2 = None →
     (GetString (SetInt64 ng key v e).1 key).2
     = (string_of_list_ascii (PutUint64 (uint64 v)), None))
  ∧ (∀ (ng1 ng' : NGCache E) b,
     getWithPersist ng1 key = (ng', ([b], None)) →
     GetBool ng1 key = (ng', (of_byte b =? 1, None))).
Proof.
  intros Hretains. repeat split.
  - intros v Hok. unfold GetFloat32, SetInt32 in *.
    destruct (Fetch_after_accepted_Put ng key _ e Hretains Hok) as [ng' ->].
    cbn [snd]. now rewrite Uint32_PutUint32, uint32_uint32.
  - intros f Hok. unfold GetInt64, SetFloat64 in *.
    destruct (Fetch_after_accepted_Put ng key _ e Hretains Hok) as [ng' ->].
    cbn [snd]. rewrite Uint64_PutUint64. unfold int64.
    now rewrite uint64_uint64.
  - intros v Hok. unfold GetString, SetInt64 in *.
    now destruct (Fetch_after_accepted_Put ng key _ e Hretains Hok) as [ng' ->].
  - intros ng1 ng' b Hfetch. unfold GetBool. now rewrite Hfetch.
Qed.

Lemma getters_accept_any_value_of_their_width_witness :
  (GetFloat32 (SetInt32 (fresh None) "n" 1065353216 0).1 "n").2
  = (Float32frombits 0x3F800000, None)
  ∧ (GetBool (SetString (fresh None) "n" "2" 0).1 "n").2 = (false, None).
Proof.
  pose proof (getters_accept_any_value_of_their_width (fresh None) "n" 0
                RefEngine_retains_writes) as (Hfloat & _ & _ & Hbool).
  split.
  - rewrite Hfloat by reflexivity. reflexivity.
  - rewrite (Hbool (SetString (fresh None) "n" "2" 0).1
               (getWithPersist (SetString (fresh None) "n" "2" 0).1 "n").1
               "2"%char) by (vm_compute; reflexivity).
    reflexivity.
Defined.

(** ** The permanent accessors *)

(** With persistence enabled, an entry that [SetPermanent] stored outlives
    the engine: whatever the engine has become, when its lookup of the key
    fails both [GetPermanent] and [Fetch] (under the key as a string) return
    the value with no error.  An entry that [Put] stored with
    [expireSeconds ≤ 0] is returned by [GetPermanent] under the bytes of its
    key in the same way.  For a key of neither tier [GetPermanent] hands on
    the error of the engine, not [ErrKeyNotFound]. *)
Theorem permanent_accessors_share_the_store `{Engine E} (ng : NGCache E) :
  persistEnabled ng = true →
  (∀ key value ng' (c c' : E) v err,
     SetPermanent ng key value = (ng', None) →
     cache_Get c key = (c', (v, Some err)) →
     (GetPermanent (with_cache ng' c) key).2 = (value, None)
     ∧ (getWithPersist (with_cache ng' c) (string_of_list_ascii key)).2
       = (value, None))
  ∧ (∀ K V e (c c' : E) v err,
     e ≤ 0 →
     cache_Get c (list_ascii_of_string K) = (c', (v, Some err)) →
     (GetPermanent (with_cache (setWithPersist ng K V e).1 c)
        (list_ascii_of_string K)).2 = (V, None))
  ∧ (∀ key (c : E) v err,
     cache_Get (cache ng) key = (c, (v, Some err)) →
     persistData ng !! string_of_list_ascii key = None →
     GetPermanent ng key = (with_cache ng c, ([], Some err))).
Proof.
  intros Hon. split; [|split].
  - intros key value ng' c c' v err Hset Hmiss.
    unfold SetPermanent in Hset.
    destruct (cache_Set (cache ng) key value 0) as [c0 [e0|]]; [discriminate|].
    unfold persistEnabled in *. cbn [persistConfig with_cache] in Hset.
    rewrite Hon in Hset. injection Hset as <-. split.
    + unfold GetPermanent, persistEnabled.
      cbn [cache with_cache with_persistData persistConfig persistData].
      rewrite Hmiss, Hon, lookup_insert_eq.
      destruct (cache_Set c' key value 0). reflexivity.
    + unfold getWithPersist.
      cbn [cache with_cache with_persistData persistConfig persistData].
      rewrite list_ascii_of_string_of_list_ascii, Hmiss, lookup_insert_eq.
      destruct (cache_Set c' key value 0). reflexivity.
  - intros K V e c c' v err He Hmiss.
    unfold GetPermanent, persistEnabled.
    assert (persistConfig (setWithPersist ng K V e).1 = persistConfig ng) as Hcfg.
    { unfold setWithPersist.
      destruct (e <=? 0); destruct (cache_Set _ _ _ _); reflexivity. }
    cbn [cache with_cache persistConfig persistData]. rewrite Hmiss, Hcfg.
    unfold persistEnabled in Hon. rewrite Hon.
    rewrite string_of_list_ascii_of_string, persistData_setWithPersist.
    destruct (Z.leb_spec e 0); [|lia]. rewrite lookup_insert_eq.
    destruct (cache_Set c' _ V 0). reflexivity.
  - intros key c v err Hmiss Hnone. unfold GetPermanent.
    rewrite Hmiss. unfold persistEnabled in *.
    cbn [persistConfig with_cache persistData]. now rewrite Hon, Hnone.
Qed.

(** [SetPermanent "k" "ab"] and [Put "j" "x" 0] with persistence on, read
    through an engine that holds nothing. *)
Lemma permanent_accessors_share_the_store_witness :
  ((GetPermanent
      (with_cache
         (SetPermanent (fresh (Some cfg_binary)) (list_ascii_of_string "k")
            (list_ascii_of_string "ab")).1 (NewCache 1048576))
      (list_ascii_of_string "k")).2 = (list_ascii_of_string "ab", None)
   ∧ (getWithPersist
        (with_cache
           (SetPermanent (fresh (Some cfg_binary)) (list_ascii_of_string "k")
              (list_ascii_of_string "ab")).1 (NewCache 1048576))
        (string_of_list_ascii (list_ascii_of_string "k"))).2
     = (list_ascii_of_string "ab", None))
  ∧ (GetPermanent
       (with_cache
          (setWithPersist (fresh (Some cfg_binary)) "j"
             (list_ascii_of_string "x") 0).1 (NewCache 1048576))
       (list_ascii_of_string "j")).2 = (list_ascii_of_string "x", None)
  ∧ GetPermanent (fresh (Some cfg_binary)) (list_ascii_of_string "k")
    = (with_cache (fresh (Some cfg_binary)) (NewCache 1048576),
       ([], Some ErrNotFound)).
Proof.
  pose proof (permanent_accessors_share_the_store (fresh (Some cfg_binary))
                ltac:(vm_compute; reflexivity)) as (Hset & Hput & Hmiss).
  split; [|split].
  - apply (Hset _ _ _ (NewCache 1048576) (NewCache 1048576) [] ErrNotFound);
      vm_compute; reflexivity.
  - apply (Hput "j"%string (list_ascii_of_string "x") 0
             (NewCache 1048576) (NewCache 1048576) [] ErrNotFound);
      [lia | vm_compute; reflexivity].
  - apply (Hmiss (list_ascii_of_string "k") (NewCache 1048576) []
             ErrNotFound); vm_compute; reflexivity.
Defined.

(** ** The loader, record by record *)

Lemma lookup_insertEntries entries : ∀ (m : gmap string (list ascii)) k,
  insertEntries entries m !! k
  = match lastValue k entries with
    | Some value => Some value
    | None => m !! k
    end.
Proof.
  induction entries as [|entry more IH]; intros m k; [reflexivity|].
  cbn [insertEntries fold_left lastValue].
  change (fold_left _ more ?m0) with (insertEntries more m0).
  rewrite IH. destruct (lastValue k more); [reflexivity|].
  destruct (decide (Key entry = k)) as [->|Hne].
  - now rewrite lookup_insert_eq.
  - now rewrite lookup_insert_ne.
Qed.

Lemma insertEntries_twice entries (m : gmap string (list ascii)) :
  insertEntries entries (insertEntries entries m) = insertEntries entries m.
Proof.
  apply map_eq. intros k. rewrite !lookup_insertEntries.
  now destruct (lastValue k entries).
Qed.

Section ParseFacts.
Context `{Engine E} `{JSONCodec}.

Lemma loadDocument_cons (ng : NGCache E) entry more :
  loadDocument ng (entry :: more)
  = loadDocument
      (storeEntry ng (list_ascii_of_string (Key entry)) (Key entry) (Value entry))
      more.
Proof. reflexivity. Qed.

Lemma readEntries_parse n : ∀ (ng : NGCache E) r,
  readEntries n ng r
  = (loadDocument ng (parseEntries n r).1, (parseEntries n r).2).
Proof.
  induction n as [|n IH]; intros ng r; cbn [readEntries parseEntries];
    [reflexivity|].
  destruct (binary_Read_uint32 r) as [[keyLen r1]|]; [|reflexivity].
  destruct (io_ReadFull keyLen r1) as [[keyBytes r2]|]; [|reflexivity].
  destruct (binary_Read_uint32 r2) as [[valueLen r3]|]; [|reflexivity].
  destruct (io_ReadFull valueLen r3) as [[valueBytes r4]|]; [|reflexivity].
  rewrite IH. destruct (parseEntries n r4) as [more err]. cbn [fst snd].
  rewrite loadDocument_cons. cbn [Key Value].
  now rewrite list_ascii_of_string_of_list_ascii.
Qed.

Lemma readBinary_parse (ng : NGCache E) r :
  readBinary ng r = (loadDocument ng (parseBinary r).1, (parseBinary r).2).
Proof.
  unfold readBinary, parseBinary.
  destruct (binary_Read_uint32 r) as [[magic r1]|]; [|reflexivity].
  destruct (negb (magic =? BinaryMagic)); [reflexivity|].
  destruct (binary_Read_uint32 r1) as [[version r2]|]; [|reflexivity].
  destruct (negb (version =? BinaryVersion)); [reflexivity|].
  destruct (binary_Read_int64 r2) as [[timestamp r3]|]; [|reflexivity].
  destruct (binary_Read_uint32 r3) as [[entryCount r4]|]; [|reflexivity].
  apply readEntries_parse.
Qed.

Lemma loadFromPersist_parse (ng : NGCache E) cfg d :
  persistConfig ng = Some cfg →
  loadFromPersist ng d
  = (loadDocument ng (parseSnapshot cfg d).1, (parseSnapshot cfg d).2).
Proof.
  intros Hcfg. unfold loadFromPersist, parseSnapshot. rewrite Hcfg.
  destruct (Enabled cfg); [|reflexivity].
  destruct (files d !! persistPath cfg) as [file|] eqn:Hfile; [|reflexivity].
  destruct (Format cfg =? FormatJSON).
  - unfold loadFromJSON. rewrite Hfile.
    now destruct (json_Decode file).
  - destruct (Format cfg =? FormatBinary); [|reflexivity].
    unfold loadFromBinary. rewrite Hfile. apply readBinary_parse.
Qed.

Lemma persistConfig_loadDocument entries : ∀ ng : NGCache E,
  persistConfig (loadDocument ng entries) = persistConfig ng.
Proof.
  induction entries as [|entry more IH]; intros ng; [reflexivity|].
  rewrite loadDocument_cons, IH. unfold storeEntry.
  cbn [cache with_persistData]. now destruct (cache_Set _ _ _ _).
Qed.

Lemma cache_loadDocument entries : ∀ ng : NGCache E,
  cache (loadDocument ng entries) = warm (cache ng) entries.
Proof.
  induction entries as [|entry more IH]; intros ng; [reflexivity|].
  rewrite loadDocument_cons, IH. unfold warm. cbn [fold_left]. f_equal.
  unfold storeEntry. cbn [cache with_persistData].
  now destruct (cache_Set _ _ _ _).
Qed.

End ParseFacts.

(** What the loader does depends on the file only.  Its error is the one of
    reading the file, the same for every cache with the configuration:
    nothing the engine answers during the warm-up makes the load fail or
    skip a record.  The Permanent Store afterwards is the one before with the
    records of the file inserted in their order, so that a key keeps the
    value of its last record in the file, or its old value when the file has
    none; the engine has been written with each record at TTL 0. *)
Theorem loader_depends_on_the_file_only `{Engine E} `{JSONCodec}
    (ng : NGCache E) (cfg : PersistConfig) (d : Disk) :
  persistConfig ng = Some cfg →
  (loadFromPersist ng d).2 = (parseSnapshot cfg d).2
  ∧ (∀ ng' : NGCache E, persistConfig ng' = Some cfg →
       (loadFromPersist ng' d).2 = (loadFromPersist ng d).2)
  ∧ persistData (loadFromPersist ng d).1
    = insertEntries (parseSnapshot cfg d).1 (persistData ng)
  ∧ (∀ k, persistData (loadFromPersist ng d).1 !! k
          = match lastValue k (parseSnapshot cfg d).1 with
            | Some value => Some value
            | None => persistData ng !! k
            end)
  ∧ cache (loadFromPersist ng d).1 = warm (cache ng) (parseSnapshot cfg d).1
  ∧ persistConfig (loadFromPersist ng d).1 = Some cfg.
Proof.
  intros Hcfg. rewrite (loadFromPersist_parse ng cfg d Hcfg). cbn [fst snd].
  split; [reflexivity|]. split.
  { intros ng' Hcfg'. now rewrite (loadFromPersist_parse ng' cfg d Hcfg'). }
  rewrite persistData_loadDocument. split; [reflexivity|]. split.
  { intros k. apply lookup_insertEntries. }
  split; [apply cache_loadDocument|].
  now rewrite persistConfig_loadDocument.
Qed.

(** The cache of [start_k], which holds ["k" ↦ "ab"], loading a file with
    the record ["a" ↦ "x"], and loading the truncated file. *)
Lemma loader_depends_on_the_file_only_witness :
  ((loadFromPersist start_k.1
      (disk_with "./test.cat" (layout_binary 1 (Entries doc_ax)))).2 = None
   ∧ persistData
       (loadFromPersist start_k.1
          (disk_with "./test.cat" (layout_binary 1 (Entries doc_ax)))).1
     = {[ "a"%string := list_ascii_of_string "x";
          "k"%string := list_ascii_of_string "ab" ]})
  ∧ (loadFromPersist start_k.1 (disk_with "./test.cat" file_truncated)).2
    = (loadFromPersist (fresh (Some cfg_binary))
         (disk_with "./test.cat" file_truncated)).2.
Proof.
  split.
  - destruct (loader_depends_on_the_file_only start_k.1 cfg_binary
                (disk_with "./test.cat" (layout_binary 1 (Entries doc_ax)))
                ltac:(vm_compute; reflexivity)) as (Herr & _ & Hstore & _).
    split.
    + rewrite Herr. vm_compute. reflexivity.
    + rewrite Hstore. vm_compute. reflexivity.
  - symmetry.
    apply (proj1 (proj2 (loader_depends_on_the_file_only start_k.1 cfg_binary
                           (disk_with "./test.cat" file_truncated)
                           ltac:(vm_compute; reflexivity)))).
    vm_compute. reflexivity.
Defined.

(** Running the loader again on the same disk returns the same error and
    leaves the Permanent Store as the first run left it. *)
Theorem reload_changes_nothing `{Engine E} `{JSONCodec} (ng : NGCache E)
    (cfg : PersistConfig) (d : Disk) :
  persistConfig ng = Some cfg →
  persistData (loadFromPersist (loadFromPersist ng d).1 d).1
  = persistData (loadFromPersist ng d).1
  ∧ (loadFromPersist (loadFromPersist ng d).1 d).2 = (loadFromPersist ng d).2.
Proof.
  intros Hcfg. rewrite (loadFromPersist_parse ng cfg d Hcfg). cbn [fst snd].
  rewrite (loadFromPersist_parse _ cfg d)
    by (now rewrite persistConfig_loadDocument).
  cbn [fst snd]. split; [|reflexivity].
  rewrite !persistData_loadDocument. apply insertEntries_twice.
Qed.

Lemma reload_changes_nothing_witness :
  persistData
    (loadFromPersist
       (loadFromPersist start_k.1 (disk_with "./test.cat" file_truncated)).1
       (disk_with "./test.cat" file_truncated)).1
  = persistData
      (loadFromPersist start_k.1 (disk_with "./test.cat" file_truncated)).1
  ∧ (loadFromPersist
       (loadFromPersist start_k.1 (disk_with "./test.cat" file_truncated)).1
       (disk_with "./test.cat" file_truncated)).2
    = (loadFromPersist start_k.1 (disk_with "./test.cat" file_truncated)).2.
Proof.
  apply (reload_changes_nothing start_k.1 cfg_binary).
  vm_compute. reflexivity.
Defined.

(** ** Binary files, byte by byte *)

Section BinaryFacts.

Lemma parseEntries_layout entries : ∀ n rest,
  Forall fits32 entries →
  parseEntries (length entries + n)
    (concat (map layout_record entries) ++ rest)
  = (entries ++ (parseEntries n rest).1, (parseEntries n rest).2).
Proof.
  induction entries as [|entry more IH]; intros n rest Hfit.
  - cbn [length Nat.add map concat app]. now destruct (parseEntries n rest).
  - inversion Hfit as [|? ? [Hk Hv] Hmore]; subst.
    cbn [map concat length Nat.add parseEntries]. unfold layout_record at 1.
    rewrite <- !app_assoc, binary_Read_uint32_le.
    rewrite uint32_small by (split; [apply len_nonneg | assumption]).
    rewrite io_ReadFull_app, binary_Read_uint32_le.
    rewrite uint32_small by (split; [apply len_nonneg | assumption]).
    rewrite io_ReadFull_app, IH by assumption.
    destruct (parseEntries n rest) as [tail err]. cbn [fst snd app].
    rewrite string_of_list_ascii_of_string. now destruct entry.
Qed.

Lemma parseBinary_header timestamp count rest :
  0 ≤ count < 2 ^ 32 →
  parseBinary (layout_header timestamp count ++ rest)
  = parseEntries (Z.to_nat count) rest.
Proof.
  intros Hcount. unfold parseBinary, layout_header. rewrite <- !app_assoc.
  rewrite binary_Read_uint32_le. change (uint32 1313293121 =? BinaryMagic) with true.
  cbn [negb]. rewrite binary_Read_uint32_le.
  change (uint32 1 =? BinaryVersion) with true. cbn [negb].
  rewrite binary_Read_int64_le, binary_Read_uint32_le.
  now rewrite uint32_small.
Qed.

Lemma layout_binary_header timestamp entries :
  layout_binary timestamp entries
  = layout_header timestamp (len entries) ++ concat (map layout_record entries).
Proof. unfold layout_binary, layout_header. now rewrite <- !app_assoc. Qed.

End BinaryFacts.

(** [loadFromBinary] reads back every list of records in the layout of the
    format, in the order of the file and repeated keys included, when the
    count and the lengths fit their fields; it stops after the announced
    number of records and never looks at the bytes that follow them. *)
Theorem loadFromBinary_ignores_trailing_bytes `{Engine E} (ng : NGCache E)
    (filePath : string) (d : Disk) (timestamp : Z)
    (entries : list PersistEntry) (trailing : list ascii) :
  len entries < 2 ^ 32 →
  Forall fits32 entries →
  files d !! filePath = Some (layout_binary timestamp entries ++ trailing) →
  loadFromBinary ng filePath d = (loadDocument ng entries, None)
  ∧ persistData (loadFromBinary ng filePath d).1
    = insertEntries entries (persistData ng).
Proof.
  intros Hcount Hfit Hfile.
  assert (loadFromBinary ng filePath d = (loadDocument ng entries, None)) as ->.
  { unfold loadFromBinary. rewrite Hfile, readBinary_parse.
    rewrite layout_binary_header, <- app_assoc.
    rewrite parseBinary_header by (split; [apply len_nonneg | assumption]).
    unfold len. rewrite Nat2Z.id, <- (Nat.add_0_r (length entries)).
    rewrite parseEntries_layout by assumption.
    cbn [parseEntries fst snd]. now rewrite app_nil_r. }
  split; [reflexivity | apply persistData_loadDocument].
Qed.

(** The record ["a" ↦ "x"] twice, followed by three bytes. *)
Lemma loadFromBinary_ignores_trailing_bytes_witness :
  loadFromBinary (fresh (Some cfg_binary)) "./test.cat"
    (disk_with "./test.cat"
       (layout_binary 1 (Entries doc_ax ++ Entries doc_ax) ++ of_codes [1; 2; 3]%N))
  = (loadDocument (fresh (Some cfg_binary)) (Entries doc_ax ++ Entries doc_ax),
     None)
  ∧ persistData
      (loadFromBinary (fresh (Some cfg_binary)) "./test.cat"
         (disk_with "./test.cat"
            (layout_binary 1 (Entries doc_ax ++ Entries doc_ax)
             ++ of_codes [1; 2; 3]%N))).1
    = insertEntries (Entries doc_ax ++ Entries doc_ax)
        (persistData (fresh (Some cfg_binary))).
Proof.
  apply (loadFromBinary_ignores_trailing_bytes (fresh (Some cfg_binary))
           "./test.cat" _ 1 (Entries doc_ax ++ Entries doc_ax)
           (of_codes [1; 2; 3]%N)).
  - vm_compute. reflexivity.
  - repeat constructor.
  - vm_compute. reflexivity.
Defined.

Lemma io_ReadFull_short n r : len r < n → io_ReadFull n r = None.
Proof.
  intros Hlt. unfold io_ReadFull.
  destruct (Z.leb_spec n (len r)); [lia | reflexivity].
Qed.

Lemma binary_Read_uint32_short r : len r < 4 → binary_Read_uint32 r = None.
Proof. intros Hlt. unfold binary_Read_uint32. now rewrite io_ReadFull_short. Qed.

Lemma binary_Read_int64_short r : len r < 8 → binary_Read_int64 r = None.
Proof. intros Hlt. unfold binary_Read_int64. now rewrite io_ReadFull_short. Qed.

(** A binary file that ends inside its header makes [loadFromBinary] fail
    with the error of the field that is cut, the empty file with the one of
    the magic, and leaves the cache as it was. *)
Theorem binary_header_cut_short `{Engine E} (ng : NGCache E)
    (filePath : string) (d : Disk) (file : list ascii) :
  files d !! filePath = Some file →
  (len file < 4 → loadFromBinary ng filePath d = (ng, Some ErrReadMagic))
  ∧ (∀ rest, file = le_bytes 4 BinaryMagic ++ rest → len rest < 4 →
       loadFromBinary ng filePath d = (ng, Some ErrReadVersion))
  ∧ (∀ rest,
       file = le_bytes 4 BinaryMagic ++ le_bytes 4 BinaryVersion ++ rest →
       len rest < 8 →
       loadFromBinary ng filePath d = (ng, Some ErrReadTimestamp))
  ∧ (∀ timestamp rest,
       file = le_bytes 4 BinaryMagic ++ le_bytes 4 BinaryVersion
              ++ le_bytes 8 timestamp ++ rest →
       len rest < 4 →
       loadFromBinary ng filePath d = (ng, Some ErrReadEntryCount)).
Proof.
  intros Hfile. unfold loadFromBinary, readBinary. rewrite Hfile.
  split; [|split; [|split]].
  - intros Hlen. now rewrite binary_Read_uint32_short.
  - intros rest -> Hlen. rewrite binary_Read_uint32_le.
    change (uint32 BinaryMagic =? BinaryMagic) with true. cbn [negb].
    now rewrite binary_Read_uint32_short.
  - intros rest -> Hlen. rewrite binary_Read_uint32_le.
    change (uint32 BinaryMagic =? BinaryMagic) with true. cbn [negb].
    rewrite binary_Read_uint32_le.
    change (uint32 BinaryVersion =? BinaryVersion) with true. cbn [negb].
    now rewrite binary_Read_int64_short.
  - intros timestamp rest -> Hlen. rewrite binary_Read_uint32_le.
    change (uint32 BinaryMagic =? BinaryMagic) with true. cbn [negb].
    rewrite binary_Read_uint32_le.
    change (uint32 BinaryVersion =? BinaryVersion) with true. cbn [negb].
    rewrite binary_Read_int64_le. now rewrite binary_Read_uint32_short.
Qed.

Lemma binary_header_cut_short_witness :
  loadFromBinary (fresh (Some cfg_binary)) "./test.cat" (disk_with "./test.cat" [])
  = (fresh (Some cfg_binary), Some ErrReadMagic)
  ∧ loadFromBinary (fresh (Some cfg_binary)) "./test.cat"
      (disk_with "./test.cat" (take 6 file_bad_version))
    = (fresh (Some cfg_binary), Some ErrReadVersion)
  ∧ loadFromBinary (fresh (Some cfg_binary)) "./test.cat"
      (disk_with "./test.cat" (take 18 (layout_binary 1 (Entries doc_ax))))
    = (fresh (Some cfg_binary), Some ErrReadEntryCount).
Proof.
  split; [|split].
  - apply (proj1 (binary_header_cut_short (fresh (Some cfg_binary)) "./test.cat"
                    (disk_with "./test.cat" []) [] ltac:(vm_compute; reflexivity))).
    vm_compute. reflexivity.
  - apply (proj1 (proj2 (binary_header_cut_short (fresh (Some cfg_binary))
                    "./test.cat"
                    (disk_with "./test.cat" (take 6 file_bad_version))
                    (take 6 file_bad_version) ltac:(vm_compute; reflexivity)))
             (of_codes [2; 0]%N));
      vm_compute; reflexivity.
  - apply (proj2 (proj2 (proj2 (binary_header_cut_short (fresh (Some cfg_binary))
                    "./test.cat"
                    (disk_with "./test.cat" (take 18 (layout_binary 1 (Entries doc_ax))))
                    (take 18 (layout_binary 1 (Entries doc_ax)))
                    ltac:(vm_compute; reflexivity))))
             1 (of_codes [1; 0]%N));
      vm_compute; reflexivity.
Defined.

Section CutRecords.

Lemma parseEntries_cut n partial err :
  (∀ m, parseEntries (S m) partial = ([], Some err)) →
  ∀ entries rest_count,
  Forall fits32 entries →
  n = (length entries + S rest_count)%nat →
  parseEntries n (concat (map layout_record entries) ++ partial)
  = (entries, Some err).
Proof.
  intros Hcut entries rest_count Hfit ->.
  rewrite parseEntries_layout by assumption. rewrite Hcut.
  cbn [fst snd]. now rewrite app_nil_r.
Qed.

End CutRecords.

(** A binary file that ends inside a record makes [loadFromBinary] fail with
    the error of the field that is cut: the length of the key, the key, the
    length of the value, or the value.  The records in front of the cut have
    been read: they are in the Permanent Store and have been written to the
    engine. *)
Theorem binary_record_cut_short `{Engine E} (ng : NGCache E)
    (filePath : string) (d : Disk) (timestamp count : Z)
    (entries : list PersistEntry) (partial : list ascii) :
  files d !! filePath
  = Some (layout_header timestamp count
          ++ concat (map layout_record entries) ++ partial) →
  len entries < count < 2 ^ 32 →
  Forall fits32 entries →
  (len partial < 4 →
   loadFromBinary ng filePath d = (loadDocument ng entries, Some ErrReadKeyLen))
  ∧ (∀ keyLen p, partial = le_bytes 4 keyLen ++ p → len p < uint32 keyLen →
     loadFromBinary ng filePath d = (loadDocument ng entries, Some ErrReadKey))
  ∧ (∀ key p, partial = le_bytes 4 (len key) ++ key ++ p →
     len key < 2 ^ 32 → len p < 4 →
     loadFromBinary ng filePath d
     = (loadDocument ng entries, Some ErrReadValueLen))
  ∧ (∀ key valueLen p,
     partial = le_bytes 4 (len key) ++ key ++ le_bytes 4 valueLen ++ p →
     len key < 2 ^ 32 → len p < uint32 valueLen →
     loadFromBinary ng filePath d
     = (loadDocument ng entries, Some ErrReadValue))
  ∧ persistData (loadDocument ng entries) = insertEntries entries (persistData ng)
  ∧ cache (loadDocument ng entries) = warm (cache ng) entries.
Proof.
  intros Hfile Hcount Hfit. pose proof (len_nonneg entries) as Hnonneg.
  assert (∀ err, (∀ m, parseEntries (S m) partial = ([], Some err)) →
            loadFromBinary ng filePath d = (loadDocument ng entries, Some err))
    as Hcut.
  { intros err Herr. unfold loadFromBinary. rewrite Hfile, readBinary_parse.
    rewrite parseBinary_header by lia.
    rewrite (parseEntries_cut _ partial err Herr entries
               (Z.to_nat (count - len entries - 1)) Hfit)
      by (unfold len in *; lia).
    reflexivity. }
  split; [|split; [|split; [|split; [|split]]]].
  - intros Hlen. apply Hcut. intros m. cbn [parseEntries].
    now rewrite binary_Read_uint32_short.
  - intros keyLen p -> Hlen. apply Hcut. intros m. cbn [parseEntries].
    rewrite binary_Read_uint32_le. now rewrite io_ReadFull_short.
  - intros key p -> Hkey Hlen. apply Hcut. intros m. cbn [parseEntries].
    rewrite binary_Read_uint32_le.
    rewrite uint32_small by (split; [apply len_nonneg | assumption]).
    rewrite io_ReadFull_app. now rewrite binary_Read_uint32_short.
  - intros key valueLen p -> Hkey Hlen. apply Hcut. intros m.
    cbn [parseEntries]. rewrite binary_Read_uint32_le.
    rewrite uint32_small by (split; [apply len_nonneg | assumption]).
    rewrite io_ReadFull_app, binary_Read_uint32_le.
    now rewrite io_ReadFull_short.
  - apply persistData_loadDocument.
  - apply cache_loadDocument.
Qed.

(** The file of [file_truncated], which announces two records and ends after
    the first, and the same with a second record whose key is cut. *)
Lemma binary_record_cut_short_witness :
  loadFromBinary (fresh (Some cfg_binary)) "./test.cat"
    (disk_with "./test.cat" file_truncated)
  = (loadDocument (fresh (Some cfg_binary)) (Entries doc_ax), Some ErrReadKeyLen)
  ∧ loadFromBinary (fresh (Some cfg_binary)) "./test.cat"
      (disk_with "./test.cat" (file_truncated ++ of_codes [5; 0; 0; 0; 98; 99]%N))
    = (loadDocument (fresh (Some cfg_binary)) (Entries doc_ax), Some ErrReadKey).
Proof.
  split.
  - apply (proj1 (binary_record_cut_short (fresh (Some cfg_binary)) "./test.cat"
                    (disk_with "./test.cat" file_truncated) 1 2 (Entries doc_ax) []
                    ltac:(vm_compute; reflexivity)
                    ltac:(vm_compute; split; reflexivity)
                    ltac:(repeat constructor))).
    vm_compute. reflexivity.
  - apply (proj1 (proj2 (binary_record_cut_short (fresh (Some cfg_binary))
                    "./test.cat"
                    (disk_with "./test.cat"
                       (file_truncated ++ of_codes [5; 0; 0; 0; 98; 99]%N))
                    1 2 (Entries doc_ax) (of_codes [5; 0; 0; 0; 98; 99]%N)
                    ltac:(vm_compute; reflexivity)
                    ltac:(vm_compute; split; reflexivity)
                    ltac:(repeat constructor)))
             5 (of_codes [98; 99]%N));
      vm_compute; reflexivity.
Defined.

(** ** Saving *)

Lemma writing_file_Write b : writing (λ f, file_Write f b) b.
Proof.
  intros f. unfold file_Write. pose proof (len_nonneg b) as Hb.
  destruct (Z.leb_spec (len b) (room f)) as [Hfit|Hfull]; cbn [fst snd written room].
  - exists b, []. rewrite app_nil_r. repeat split; [congruence | lia].
  - exists (take (Z.to_nat (room f)) b), (drop (Z.to_nat (room f)) b).
    rewrite take_drop. split; [reflexivity|]. split; [reflexivity|].
    split; [discriminate|]. split.
    + intros Hroom _ Hnil. apply (f_equal length) in Hnil.
      rewrite length_drop in Hnil. cbn [length] in Hnil.
      unfold len in Hfull. lia.
    + intros Hroom. unfold len. rewrite length_take. lia.
Qed.

Lemma writing_and_then w k b1 b2 :
  writing w b1 → writing k b2 → writing (λ f, and_then (w f) k) (b1 ++ b2).
Proof.
  intros Hw Hk f. destruct (Hw f) as (done1 & rest1 & Hwr1 & -> & Hok1 & Hbad1 & Hroom1).
  destruct (w f) as [f1 [e1|]] eqn:Hwf; cbn [and_then fst snd] in *.
  - exists done1, (rest1 ++ b2). rewrite <- app_assoc.
    repeat split; [exact Hwr1 | discriminate | | exact Hroom1].
    intros Hroom _ Hnil. apply app_eq_nil in Hnil as [Hnil _].
    now apply (Hbad1 Hroom).
  - rewrite (Hok1 eq_refl) in *. rewrite app_nil_r in *.
    destruct (Hk f1) as (done2 & rest2 & Hwr2 & -> & Hok2 & Hbad2 & Hroom2).
    exists (done1 ++ done2), rest2. rewrite Hwr2, Hwr1, <- !app_assoc.
    repeat split; auto.
Qed.

Lemma writing_ext w w' b : (∀ f, w f = w' f) → writing w b → writing w' b.
Proof. intros Hext Hw f. rewrite <- Hext. apply Hw. Qed.

Lemma writing_writeEntries entries :
  writing (writeEntries entries) (concat (map layout_record entries)).
Proof.
  induction entries as [|entry more IH].
  - intros f. exists [], []. cbn. rewrite app_nil_r. repeat split; auto.
  - cbn [map concat writeEntries]. unfold layout_record at 1.
    rewrite <- !app_assoc.
    unfold binary_Write_uint32. rewrite !PutUint32_le_bytes.
    apply (writing_and_then (λ f, file_Write f _)); [apply writing_file_Write|].
    apply (writing_and_then (λ f, file_Write f _)); [apply writing_file_Write|].
    apply (writing_and_then (λ f, file_Write f _)); [apply writing_file_Write|].
    apply (writing_and_then (λ f, file_Write f _)); [apply writing_file_Write|].
    exact IH.
Qed.

Lemma writing_writeBinary data :
  writing (writeBinary data) (layout_binary (Timestamp data) (Entries data)).
Proof.
  unfold writeBinary, layout_binary, binary_Write_uint32, binary_Write_int64.
  rewrite !PutUint32_le_bytes, PutUint64_le_bytes.
  apply (writing_and_then (λ f, file_Write f _)); [apply writing_file_Write|].
  apply (writing_and_then (λ f, file_Write f _)); [apply writing_file_Write|].
  apply (writing_and_then (λ f, file_Write f _)); [apply writing_file_Write|].
  apply (writing_and_then (λ f, file_Write f _)); [apply writing_file_Write|].
  apply writing_writeEntries.
Qed.

Lemma os_MkdirAll_keeps d dir :
  files (os_MkdirAll d dir).1 = files d
  ∧ quota (os_MkdirAll d dir).1 = quota d
  ∧ ((os_MkdirAll d dir).2 ≠ None → (os_MkdirAll d dir).1 = d).
Proof.
  unfold os_MkdirAll. destruct (decide (dir ∈ dirs d)); [now repeat split|].
  destruct (decide _); now repeat split.
Qed.


(** A flush makes the directory, creates its file anew and touches no other
    file.  When the directory cannot be made or the file cannot be created,
    it returns the error of that step and leaves every file as it was, the
    old snapshot included.  Once the file is created, what the flush leaves
    in it is a prefix of the new snapshot, never the content the file had
    before: the whole snapshot when it returns no error, and a shorter,
    truncated one when a write fails. *)
Theorem flush_replaces_its_file `{JSONCodec} (cfg : PersistConfig) (now : Z)
    (entries : list PersistEntry) (d : Disk) :
  Format cfg = FormatBinary ∨ Format cfg = FormatJSON →
  let snapshot :=
    if Format cfg =? FormatJSON
    then json_Encode {| Version := 1; Timestamp := now; Entries := entries |}
    else layout_binary now entries in
  let made := os_MkdirAll d (persistDir cfg) in
  let flush := saveEntries cfg now entries d in
  (∀ path, path ≠ persistPath cfg → files flush.1 !! path = files d !! path)
  ∧ quota flush.1 = quota d
  ∧ (made.2 ≠ None → flush = (d, Some ErrMkdirAll))
  ∧ (made.2 = None → os_Create made.1 (persistPath cfg) = None →
     flush.2 = Some (if Format cfg =? FormatJSON then ErrCreateJSON
                     else ErrCreateBinary)
     ∧ files flush.1 = files d)
  ∧ (made.2 = None → is_Some (os_Create made.1 (persistPath cfg)) →
     ∃ file rest,
       files flush.1 !! persistPath cfg = Some file
       ∧ snapshot = file ++ rest
       ∧ (flush.2 = None → rest = [])
       ∧ (0 ≤ quota d → flush.2 ≠ None → rest ≠ [])).
Proof.
  intros Hformat snapshot made flush. subst snapshot made flush.
  unfold saveEntries.
  destruct (os_MkdirAll_keeps d (persistDir cfg)) as (Hfiles & Hquota & Hsame).
  destruct (os_MkdirAll d (persistDir cfg)) as [d1 [e|]]; cbn [fst snd] in *.
  { rewrite Hsame by discriminate. repeat split; intros; congruence. }
  clear Hsame.
  set (data := {| Version := 1; Timestamp := now; Entries := entries |}).
  assert (∀ w target failed, writing w target →
    let r := match os_Create d1 (persistPath cfg) with
             | None => (d1, Some failed)
             | Some file =>
                 let '(f, err) := w file in
                 (os_Close d1 (persistPath cfg) f, err)
             end in
    (∀ path, path ≠ persistPath cfg → files r.1 !! path = files d !! path)
    ∧ quota r.1 = quota d
    ∧ (os_Create d1 (persistPath cfg) = None →
       r.2 = Some failed ∧ files r.1 = files d)
    ∧ (is_Some (os_Create d1 (persistPath cfg)) →
       ∃ file rest, files r.1 !! persistPath cfg = Some file
        ∧ target = file ++ rest
        ∧ (r.2 = None → rest = [])
        ∧ (0 ≤ quota d → r.2 ≠ None → rest ≠ []))) as Hsave.
  { intros w target failed Hw.
    destruct (os_Create d1 (persistPath cfg)) as [file|] eqn:Hcreate.
    - apply os_Create_Some in Hcreate. subst file.
      destruct (Hw {| written := []; room := quota d1 |})
        as (done & rest & Hwr & -> & Hok & Hbad & _).
      destruct (w _) as [f err]. cbn [fst snd os_Close files quota room] in *.
      split; [intros path Hne; now rewrite lookup_insert_ne, Hfiles|].
      split; [exact Hquota|]. split; [discriminate|].
      intros _. exists done, rest.
      rewrite lookup_insert_eq, Hwr, Hquota in *. repeat split; auto.
    - cbn [fst snd]. split; [intros path _; now rewrite Hfiles|].
      split; [exact Hquota|]. split; [now split|].
      intros [file Hfile]. discriminate. }
  destruct Hformat as [-> | ->].
  - change (FormatBinary =? FormatJSON) with false.
    change (FormatBinary =? FormatBinary) with true. cbv iota.
    destruct (Hsave (writeBinary data) _ ErrCreateBinary
                (writing_writeBinary data)) as (H1 & H2 & H3 & H4).
    unfold saveToBinary.
    split; [exact H1|]. split; [exact H2|]. split; [congruence|].
    split; [intros _; exact H3 | intros _; exact H4].
  - change (FormatJSON =? FormatJSON) with true. cbv iota.
    destruct (Hsave (λ f, file_Write f (json_Encode data)) _ ErrCreateJSON
                (writing_file_Write (json_Encode data)))
      as (H1 & H2 & H3 & H4).
    unfold saveToJSON.
    split; [exact H1|]. split; [exact H2|]. split; [congruence|].
    split; [intros _; exact H3 | intros _; exact H4].
Qed.

(** A flush of ["a" ↦ "x"] onto a disk with no file; onto [full_disk], where
    it fails after the first ten bytes of the snapshot; onto [locked_disk],
    where the file cannot be created; and, in the JSON format, onto
    [blocked_disk], where the directory cannot be made. *)
Lemma flush_replaces_its_file_witness :
  (quota (saveEntries cfg_binary 1 (Entries doc_ax) no_files).1 = quota no_files
   ∧ ∃ file rest,
       files (saveEntries cfg_binary 1 (Entries doc_ax) no_files).1
         !! persistPath cfg_binary = Some file
       ∧ layout_binary 1 (Entries doc_ax) = file ++ rest
       ∧ rest = [])
  ∧ (files (saveEntries cfg_binary 1 (Entries doc_ax) full_disk).1
       !! "./notes.txt"%string = Some (list_ascii_of_string "keep")
     ∧ ∃ file rest,
         files (saveEntries cfg_binary 1 (Entries doc_ax) full_disk).1
           !! persistPath cfg_binary = Some file
         ∧ layout_binary 1 (Entries doc_ax) = file ++ rest
         ∧ rest ≠ [])
  ∧ ((saveEntries cfg_binary 1 (Entries doc_ax) locked_disk).2
     = Some ErrCreateBinary
     ∧ files (saveEntries cfg_binary 1 (Entries doc_ax) locked_disk).1
       = files locked_disk)
  ∧ saveEntries cfg_json 1 (Entries doc_ax) blocked_disk
    = (blocked_disk, Some ErrMkdirAll).
Proof.
  split; [|split; [|split]].
  - destruct (flush_replaces_its_file cfg_binary 1 (Entries doc_ax) no_files
                ltac:(left; reflexivity))
      as (_ & Hquota & _ & _ & Hwritten).
    destruct Hwritten as (file & rest & Hfile & Hsnap & Hok & _);
      [vm_compute; reflexivity | vm_compute; eauto |].
    split; [exact Hquota|]. exists file, rest.
    split; [exact Hfile|]. split; [exact Hsnap|].
    apply Hok. vm_compute. reflexivity.
  - destruct (flush_replaces_its_file cfg_binary 1 (Entries doc_ax) full_disk
                ltac:(left; reflexivity))
      as (Hother & _ & _ & _ & Hwritten).
    destruct Hwritten as (file & rest & Hfile & Hsnap & _ & Hbad);
      [vm_compute; reflexivity | vm_compute; eauto |].
    split.
    + rewrite Hother by (vm_compute; discriminate). vm_compute. reflexivity.
    + exists file, rest. split; [exact Hfile|]. split; [exact Hsnap|].
      apply Hbad; [vm_compute; discriminate | vm_compute; discriminate].
  - apply (flush_replaces_its_file cfg_binary 1 (Entries doc_ax) locked_disk
             ltac:(left; reflexivity)); vm_compute; reflexivity.
  - apply (flush_replaces_its_file cfg_json 1 (Entries doc_ax) blocked_disk
             ltac:(right; reflexivity)). vm_compute. discriminate.
Defined.



(** ** Restart *)

(** A cache closed without error and built again on the disk it left has the
    Permanent Store it had: the loader returns no error, and every key of the
    store is fetched with no error, with its value unless the new engine
    answers with another.  This holds in the binary format when the count and
    the lengths of the store fit their fields, and in the JSON format when
    the codec reads back the document it wrote. *)
Theorem restart_keeps_the_store `{Engine E} `{JSONCodec} (ng : NGCache E)
    (cfg : PersistConfig) (size now : Z) (d d' : Disk) :
  persistConfig ng = Some cfg →
  Enabled cfg = true →
  Close ng now d = (d', None) →
  (Format cfg = FormatBinary ∧ store_fits32 (persistData ng))
  ∨ (Format cfg = FormatJSON
     ∧ json_Decode
         (json_Encode {| Version := 1; Timestamp := now;
                         Entries := rangeMap (persistData ng) |})
       = Some {| Version := 1; Timestamp := now;
                 Entries := rangeMap (persistData ng) |}) →
  (loadFromPersist (mkNGCache (NewCache size) (Some cfg) ∅) d').2 = None
  ∧ persistData (NewNGCache (E := E) size (Some cfg) d') = persistData ng
  ∧ (∀ K V, persistData ng !! K = Some V →
       (getWithPersist (NewNGCache (E := E) size (Some cfg) d') K).2.2 = None
       ∧ ((∀ c v, cache_Get (cache (NewNGCache (E := E) size (Some cfg) d'))
                    (list_ascii_of_string K) = (c, (v, None)) → v = V) →
          (getWithPersist (NewNGCache (E := E) size (Some cfg) d') K).2
          = (V, None))).
Proof.
  intros Hcfg Hon Hclose Hformat.
  assert (saveEntries cfg now (rangeMap (persistData ng)) d = (d', None)) as Hsave.
  { unfold Close, persistEnabled, saveToPersist in Hclose.
    now rewrite Hcfg, Hon in Hclose. }
  pose proof (load_after_save (persistData ng) _ cfg size now d d' Hon
                (Permutation_refl _) Hsave Hformat) as Hload.
  assert (persistData (NewNGCache (E := E) size (Some cfg) d') = persistData ng)
    as Hstore.
  { unfold NewNGCache. rewrite Hon, Hload. cbn [fst].
    rewrite persistData_loadDocument. now apply insertEntries_rangeMap. }
  split; [now rewrite Hload|]. split; [exact Hstore|].
  intros K V HK. rewrite <- Hstore in HK.
  set (nc := NewNGCache size (Some cfg) d') in *. clearbody nc.
  unfold getWithPersist. rewrite HK.
  destruct (cache_Get (cache nc) (list_ascii_of_string K)) as [c [v [e|]]].
  - destruct (cache_Set c _ V 0). split; reflexivity.
  - split; [reflexivity|]. intros Hsame. now rewrite (Hsame c v eq_refl).
Qed.

(** The cache of [start_k], which holds ["k" ↦ "ab"], closed onto a disk
    with no file and built again, in each of the two formats. *)
Lemma restart_keeps_the_store_witness :
  (getWithPersist
     (NewNGCache (E := RefCache) 1048576 (Some cfg_binary)
        (Close start_k.1 1700000000 no_files).1) "k").2
  = (list_ascii_of_string "ab", None)
  ∧ persistData
      (NewNGCache (E := RefCache) 1048576 (Some cfg_json)
         (Close (with_persistData (fresh (Some cfg_json)) store_three)
            1700000000 no_files).1)
    = store_three.
Proof.
  split.
  - destruct (restart_keeps_the_store start_k.1 cfg_binary 1048576 1700000000
                no_files (Close start_k.1 1700000000 no_files).1
                ltac:(reflexivity) ltac:(reflexivity)
                ltac:(vm_compute; reflexivity)) as (_ & _ & Hfetch).
    + left. split; [reflexivity|].
      apply (store_fits32_entries (persistData start_k.1)
               [ {| Key := "k"; Value := list_ascii_of_string "ab" |} ]);
        [vm_compute; reflexivity | reflexivity | repeat constructor].
    + apply (Hfetch "k"%string (list_ascii_of_string "ab"));
        [vm_compute; reflexivity|].
      intros c v Hget. vm_compute in Hget. now injection Hget as _ <-.
  - apply (restart_keeps_the_store
             (with_persistData (fresh (Some cfg_json)) store_three) cfg_json
             1048576 1700000000 no_files);
      [reflexivity | reflexivity | vm_compute; reflexivity |].
    right. split; [reflexivity | vm_compute; reflexivity].
Defined.
